(** * Drop-point assignment service (cropfresh-service-logistics)

    A shallow embedding of

    - [src/services/drop-point-assignment-service.ts]
      (class [DropPointAssignmentService]) and
    - [src/repositories/drop-point-repository.ts]
      (class [DropPointRepository]),

    over an in-memory model of the three Prisma tables the repository
    talks to.  Asynchronous methods become computations in a state and
    exception monad over the database; a thrown exception keeps the
    database as it was when the exception was raised (nothing is rolled
    back). *)

From Stdlib Require Import ZArith QArith Qround Qabs String Ascii List Sorted Lia.
From stdpp Require Import gmap strings list.

Local Open Scope Z_scope.

(* ====================================================================== *)
(** * The JavaScript platform *)
(* ====================================================================== *)

Module JS.

(** ** Exceptions *)

(** Codes carried by [DropPointAssignmentError]. *)
Inductive ErrorCode : Type :=
| NO_DROP_POINTS
| NOT_FOUND
| DROP_POINT_NOT_FOUND
| UPDATE_FAILED.

(** Request errors of the Prisma client that the modelled operations
    can raise: [P2002] unique constraint violated, [P2025] record to
    update not found. *)
Inductive PrismaCode : Type := P2002 | P2025.

Inductive Exception : Type :=
| DropPointAssignmentError (code : ErrorCode)
| PrismaClientKnownRequestError (code : PrismaCode)
| RangeError.

Inductive Result (A : Type) : Type :=
| Ok (a : A)
| Throw (e : Exception).
Arguments Ok {A} a.
Arguments Throw {A} e.

(** ** Strings *)

(** [String.prototype.toLowerCase] on the ASCII range; bytes outside
    ['A'..'Z'] are left as they are. *)
Definition lowerAscii (c : ascii) : ascii :=
  let n := nat_of_ascii c in
  if ((65 <=? n) && (n <=? 90))%nat then ascii_of_nat (n + 32) else c.

Fixpoint toLowerCase (s : string) : string :=
  match s with
  | EmptyString => EmptyString
  | String c r => String (lowerAscii c) (toLowerCase r)
  end.

(** [s.split(sep)] for a one-character separator. [splitAux] carries
    the piece being read, reversed. *)
Fixpoint splitAux (sep : ascii) (acc : string) (s : string) : list string :=
  match s with
  | EmptyString => [String.rev acc]
  | String c r =>
      if Ascii.eqb c sep
      then String.rev acc :: splitAux sep EmptyString r
      else splitAux sep (String c acc) r
  end.

Definition split (sep : ascii) (s : string) : list string :=
  splitAux sep EmptyString s.

(** ** Numbers read from strings

    [Number(s)] on the strings an operating-hours table holds: a run
    of decimal digits is its value, the empty string is [0], anything
    else is [NaN], here [None].  (JavaScript also reads signs,
    fractions, exponents, radix prefixes and surrounding white space;
    none of them occurs in an ["HH:MM"] field.) *)
Definition digit (c : ascii) : option Z :=
  let n := nat_of_ascii c in
  if ((48 <=? n) && (n <=? 57))%nat then Some (Z.of_nat (n - 48)) else None.

Fixpoint digits (acc : Z) (s : string) : option Z :=
  match s with
  | EmptyString => Some acc
  | String c r =>
      match digit c with
      | Some d => digits (10 * acc + d) r
      | None => None
      end
  end.

Definition Number (s : string) : option Z := digits 0 s.

(** Arithmetic and comparison on numbers that may be [NaN]; a missing
    array element ([undefined]) behaves as [NaN] in both. *)
Definition mulAdd (h : option Z) (k : Z) (m : option Z) : option Z :=
  match h, m with
  | Some a, Some b => Some (a * k + b)
  | _, _ => None
  end.

Definition geNum (x : Z) (y : option Z) : bool :=
  match y with Some b => b <=? x | None => false end.

Definition ltNum (x : Z) (y : option Z) : bool :=
  match y with Some b => x <? b | None => false end.

(** ** Dates

    A [Date] is represented by its local time value: milliseconds
    since 1970-01-01T00:00 in the process's time zone, taken with a
    fixed offset.  The functions are those of ECMA-262 (Day,
    TimeWithinDay, WeekDay, HourFromTime, MinFromTime, MakeTime,
    MakeDate). *)
Definition Date : Type := Z.

Definition msPerSecond : Z := 1000.
Definition msPerMinute : Z := 60000.
Definition msPerHour : Z := 3600000.
Definition msPerDay : Z := 86400000.

Definition Day (t : Date) : Z := t / msPerDay.
Definition TimeWithinDay (t : Date) : Z := t mod msPerDay.
Definition WeekDay (t : Date) : Z := (Day t + 4) mod 7.
Definition HourFromTime (t : Date) : Z := (t / msPerHour) mod 24.
Definition MinFromTime (t : Date) : Z := (t / msPerMinute) mod 60.
Definition SecFromTime (t : Date) : Z := (t / msPerSecond) mod 60.
Definition msFromTime (t : Date) : Z := t mod msPerSecond.

Definition MakeTime (hour min sec ms : Z) : Z :=
  hour * msPerHour + min * msPerMinute + sec * msPerSecond + ms.
Definition MakeDate (day time : Z) : Date := day * msPerDay + time.

Definition getHours (d : Date) : Z := HourFromTime d.
Definition getMinutes (d : Date) : Z := MinFromTime d.
Definition getSeconds (d : Date) : Z := SecFromTime d.
Definition getMilliseconds (d : Date) : Z := msFromTime d.
Definition getDay (d : Date) : Z := WeekDay d.

(** [d.setHours(hour, min, sec, ms)] *)
Definition setHours (d : Date) (hour min sec ms : Z) : Date :=
  MakeDate (Day d) (MakeTime hour min sec ms).

(** [d.setDate(d.getDate() + n)]: the same time of day, [n] calendar
    days later. *)
Definition addDate (d : Date) (n : Z) : Date :=
  MakeDate (Day d + n) (TimeWithinDay d).

(** ** Intl: [toLocaleDateString('en-US', { weekday })]

    ECMA-402 reads the [weekday] option with
    GetOption(options, "weekday", string, << "narrow", "short", "long" >>),
    which throws a [RangeError] for any other value. *)
Definition weekdayLong (n : Z) : string :=
  match n with
  | 0 => "Sunday" | 1 => "Monday" | 2 => "Tuesday" | 3 => "Wednesday"
  | 4 => "Thursday" | 5 => "Friday" | _ => "Saturday"
  end%string.

Definition weekdayShort (n : Z) : string :=
  match n with
  | 0 => "Sun" | 1 => "Mon" | 2 => "Tue" | 3 => "Wed"
  | 4 => "Thu" | 5 => "Fri" | _ => "Sat"
  end%string.

Definition weekdayNarrow (n : Z) : string :=
  match n with
  | 0 => "S" | 1 => "M" | 2 => "T" | 3 => "W"
  | 4 => "T" | 5 => "F" | _ => "S"
  end%string.

Definition toLocaleDateString_weekday (d : Date) (weekday : string)
  : Result string :=
  if String.eqb weekday "long" then Ok (weekdayLong (WeekDay d))
  else if String.eqb weekday "short" then Ok (weekdayShort (WeekDay d))
  else if String.eqb weekday "narrow" then Ok (weekdayNarrow (WeekDay d))
  else Throw RangeError.

(** ** Math *)

(** [Math.ceil(n / d)] for integers [n] and a positive [d]. *)
Definition ceilDiv (n d : Z) : Z := Qceiling (inject_Z n / inject_Z d).

(** [Math.round(x * 100) / 100] *)
Definition round2 (x : Q) : Q :=
  inject_Z (Qfloor (x * (100 # 1) + (1 # 2))) / (100 # 1).

End JS.

Import JS.

(* ====================================================================== *)
(** * Data model (the Prisma models the code reads and writes) *)
(* ====================================================================== *)

(** [GeoLocation] of the repository module. *)
Record GeoLocation : Type := { latitude : Q; longitude : Q }.

(** One entry of an operating-hours table: ["HH:MM"] strings. *)
Record Hours : Type := { open : string; close : string }.

Module DropPoint.
Record t : Type := mk {
  id : string;
  name : string;
  address : string;
  district : string;
  latitude : Q;
  longitude : Q;
  isActive : bool;
  (** JSON column: day name to hours, or [null] *)
  operatingHours : option (gmap string Hours);
  (** JSON column: lower-cased crop name to crate count, or [null] *)
  crateInventory : option (gmap string Z)
}.
End DropPoint.

Module TimeSlotCapacity.
Record t : Type := mk {
  id : Z;
  dropPointId : string;
  slotDate : Date;
  slotStartHour : Z;
  slotEndHour : Z;
  maxCapacityKg : Z;
  usedCapacityKg : Z
}.
End TimeSlotCapacity.

Inductive AssignmentStatus : Type := ASSIGNED | REASSIGNED.

Module DropPointAssignment.
Record t : Type := mk {
  id : Z;
  listingId : Z;
  dropPointId : string;
  farmerId : Z;
  farmerLatitude : Q;
  farmerLongitude : Q;
  distanceKm : Q;
  pickupWindowStart : Date;
  pickupWindowEnd : Date;
  cratesNeeded : Z;
  status : AssignmentStatus;
  changeReason : option string;
  previousDropPointId : option string
}.
End DropPointAssignment.

(** [DropPointWithDistance extends DropPoint] *)
Record DropPointWithDistance : Type := {
  point : DropPoint.t;
  distanceKm : Q
}.

(* ====================================================================== *)
(** * The database and the monad of repository calls *)
(* ====================================================================== *)

(** The tables behind [prisma.dropPoint], [prisma.timeSlotCapacity] and
    [prisma.dropPointAssignment], rows in insertion order, with the two
    auto-increment counters. *)
Record Db : Type := {
  dropPoints : list DropPoint.t;
  timeSlotCapacities : list TimeSlotCapacity.t;
  dropPointAssignments : list DropPointAssignment.t;
  nextSlotId : Z;
  nextAssignmentId : Z
}.

(** Writing one table (and its counter) leaves the others alone. *)
Definition withSlots (db : Db) (rows : list TimeSlotCapacity.t) (next : Z) : Db :=
  {| dropPoints := dropPoints db;
     timeSlotCapacities := rows;
     dropPointAssignments := dropPointAssignments db;
     nextSlotId := next;
     nextAssignmentId := nextAssignmentId db |}.

Definition withAssignments (db : Db) (rows : list DropPointAssignment.t)
    (next : Z) : Db :=
  {| dropPoints := dropPoints db;
     timeSlotCapacities := timeSlotCapacities db;
     dropPointAssignments := rows;
     nextSlotId := nextSlotId db;
     nextAssignmentId := next |}.

(** An [async] method: it reads and writes the database and either
    resolves to a value or rejects with an exception. *)
Definition M (A : Type) : Type := Db -> Db * Result A.

Definition ret {A} (a : A) : M A := fun db => (db, Ok a).
Definition throw {A} (e : Exception) : M A := fun db => (db, Throw e).
Definition bind {A B} (m : M A) (k : A -> M B) : M B :=
  fun db =>
    match m db with
    | (db', Ok a) => k a db'
    | (db', Throw e) => (db', Throw e)
    end.

(** A query: the database is only read. *)
Definition query {A} (f : Db -> A) : M A := fun db => (db, Ok (f db)).

Declare Scope async_scope.
Delimit Scope async_scope with async.
Notation "'let*' x ':=' m 'in' k" := (bind m (fun x => k))
  (at level 10, x name, m at level 200, k at level 200) : async_scope.
Local Open Scope async_scope.

(* ====================================================================== *)
(** * The generated Prisma client *)
(* ====================================================================== *)

Module Prisma.

(** Modelled from the spec: the generated client
    ([src/generated/prisma/client]) and the schema are not part of the
    sources.  The spec's storage collaborator does a point lookup by
    id; [findUnique] returns the row with that id or [null]. *)
Definition dropPoint_findUnique (id : string) : M (option DropPoint.t) :=
  query (fun db =>
    List.find (fun dp => String.eqb (DropPoint.id dp) id) (dropPoints db)).

(** Modelled from the spec: [findMany({ where: { isActive: true } })],
    or all rows when [includeInactive] is set; candidate retrieval is
    over active points. *)
Definition dropPoint_findMany (includeInactive : bool) : M (list DropPoint.t) :=
  query (fun db =>
    List.filter (fun dp => includeInactive || DropPoint.isActive dp)
                (dropPoints db)).

Definition slotMatches (dropPointId : string) (date : Date) (startHour : Z)
    (s : TimeSlotCapacity.t) : bool :=
  String.eqb (TimeSlotCapacity.dropPointId s) dropPointId
  && (TimeSlotCapacity.slotDate s =? date)
  && (TimeSlotCapacity.slotStartHour s =? startHour).

(** Modelled from the spec: [findFirst] on the triple (point, date,
    start hour) that a capacity slot belongs to: the first such row,
    or [null]. *)
Definition timeSlotCapacity_findFirst
    (dropPointId : string) (date : Date) (startHour : Z)
  : M (option TimeSlotCapacity.t) :=
  query (fun db =>
    List.find (slotMatches dropPointId date startHour) (timeSlotCapacities db)).

(** Modelled from the spec: [create] appends the row under the next
    auto-increment id and returns it. *)
Definition timeSlotCapacity_create
    (dropPointId : string) (slotDate : Date)
    (slotStartHour slotEndHour maxCapacityKg usedCapacityKg : Z)
  : M TimeSlotCapacity.t :=
  fun db =>
    let row := TimeSlotCapacity.mk (nextSlotId db) dropPointId slotDate
                 slotStartHour slotEndHour maxCapacityKg usedCapacityKg in
    (withSlots db (timeSlotCapacities db ++ [row]) (nextSlotId db + 1), Ok row).

Definition incrementUsed (kg : Z) (s : TimeSlotCapacity.t) : TimeSlotCapacity.t :=
  TimeSlotCapacity.mk
    (TimeSlotCapacity.id s) (TimeSlotCapacity.dropPointId s)
    (TimeSlotCapacity.slotDate s) (TimeSlotCapacity.slotStartHour s)
    (TimeSlotCapacity.slotEndHour s) (TimeSlotCapacity.maxCapacityKg s)
    (TimeSlotCapacity.usedCapacityKg s + kg).

(** Rewrite the first row that satisfies [p]. *)
Fixpoint updateFirst {A} (p : A -> bool) (f : A -> A) (l : list A) : list A :=
  match l with
  | [] => []
  | x :: r => if p x then f x :: r else x :: updateFirst p f r
  end.

(** Modelled from the spec: the atomic increment of a slot's used
    capacity, [update({ where: { id }, data: { usedCapacityKg:
    { increment } } })]; it rejects with P2025 when no row has the
    id. *)
Definition timeSlotCapacity_update_increment (id : Z) (kg : Z)
  : M TimeSlotCapacity.t :=
  fun db =>
    match List.find (fun s => TimeSlotCapacity.id s =? id)
                    (timeSlotCapacities db) with
    | None => (db, Throw (PrismaClientKnownRequestError P2025))
    | Some s =>
        (withSlots db
           (updateFirst (fun s => TimeSlotCapacity.id s =? id)
                        (incrementUsed kg) (timeSlotCapacities db))
           (nextSlotId db),
         Ok (incrementUsed kg s))
    end.

Definition forListing (listingId : Z) (a : DropPointAssignment.t) : bool :=
  DropPointAssignment.listingId a =? listingId.

(** Modelled from the spec: a listing has at most one assignment
    ([listingId] is the unique key [findUnique] and [update] use), so
    [create] rejects with P2002 when the listing already has one;
    otherwise it appends the row under the next auto-increment id. *)
Definition dropPointAssignment_create (row : Z -> DropPointAssignment.t)
  : M DropPointAssignment.t :=
  fun db =>
    let a := row (nextAssignmentId db) in
    match List.find (forListing (DropPointAssignment.listingId a))
                    (dropPointAssignments db) with
    | Some _ => (db, Throw (PrismaClientKnownRequestError P2002))
    | None =>
        (withAssignments db (dropPointAssignments db ++ [a])
           (nextAssignmentId db + 1),
         Ok a)
    end.

(** Modelled from the spec: [findUnique({ where: { listingId } })]. *)
Definition dropPointAssignment_findUnique (listingId : Z)
  : M (option DropPointAssignment.t) :=
  query (fun db => List.find (forListing listingId) (dropPointAssignments db)).

(** Modelled from the spec: [findUnique({ where: { listingId },
    include: { dropPoint: true } })]: the assignment joined with the
    drop point it refers to. *)
Definition dropPointAssignment_findUnique_include (listingId : Z)
  : M (option (DropPointAssignment.t * DropPoint.t)) :=
  query (fun db =>
    match List.find (forListing listingId) (dropPointAssignments db) with
    | None => None
    | Some a =>
        match List.find
                (fun dp => String.eqb (DropPoint.id dp)
                                      (DropPointAssignment.dropPointId a))
                (dropPoints db) with
        | None => None
        | Some dp => Some (a, dp)
        end
    end).

(** Modelled from the spec: [update({ where: { listingId }, data })]
    rewrites the fields [data] names in the listing's row and returns
    it; it rejects with P2025 when the listing has no row. *)
Definition dropPointAssignment_update (listingId : Z)
    (data : DropPointAssignment.t -> DropPointAssignment.t)
  : M DropPointAssignment.t :=
  fun db =>
    match List.find (forListing listingId) (dropPointAssignments db) with
    | None => (db, Throw (PrismaClientKnownRequestError P2025))
    | Some a =>
        (withAssignments db
           (updateFirst (forListing listingId) data (dropPointAssignments db))
           (nextAssignmentId db),
         Ok (data a))
    end.

End Prisma.

(* ====================================================================== *)
(** * The repository: [DropPointRepository] *)
(* ====================================================================== *)

Record CapacityCheck : Type := {
  hasCapacity : bool;
  availableKg : Z;
  slot : option TimeSlotCapacity.t
}.

Record CrateCheck : Type := {
  hasAvailability : bool;
  availableCrates : Z
}.

Record CreateAssignmentInput : Type := {
  ca_listingId : Z;
  ca_dropPointId : string;
  ca_farmerId : Z;
  ca_farmerLocation : GeoLocation;
  ca_distanceKm : Q;
  ca_pickupWindowStart : Date;
  ca_pickupWindowEnd : Date;
  ca_cratesNeeded : Z
}.

(** The [Partial<{...}>] argument of [updateAssignment]: a field that is
    present overwrites the column. *)
Record AssignmentUpdate : Type := {
  up_dropPointId : option string;
  up_pickupWindowStart : option Date;
  up_pickupWindowEnd : option Date;
  up_status : option AssignmentStatus;
  up_changeReason : option string;
  up_previousDropPointId : option string
}.

Definition applyUpdate (data : AssignmentUpdate) (a : DropPointAssignment.t)
  : DropPointAssignment.t :=
  DropPointAssignment.mk
    (DropPointAssignment.id a)
    (DropPointAssignment.listingId a)
    (default (DropPointAssignment.dropPointId a) (up_dropPointId data))
    (DropPointAssignment.farmerId a)
    (DropPointAssignment.farmerLatitude a)
    (DropPointAssignment.farmerLongitude a)
    (DropPointAssignment.distanceKm a)
    (default (DropPointAssignment.pickupWindowStart a) (up_pickupWindowStart data))
    (default (DropPointAssignment.pickupWindowEnd a) (up_pickupWindowEnd data))
    (DropPointAssignment.cratesNeeded a)
    (default (DropPointAssignment.status a) (up_status data))
    (match up_changeReason data with
     | Some r => Some r
     | None => DropPointAssignment.changeReason a
     end)
    (match up_previousDropPointId data with
     | Some p => Some p
     | None => DropPointAssignment.previousDropPointId a
     end).

Section Repository.

(** The Haversine formula is floating-point trigonometry; the
    development is parametric in the distance it returns. *)
Variable calculateHaversineDistance : GeoLocation -> GeoLocation -> Q.

Definition findById (id : string) : M (option DropPoint.t) :=
  Prisma.dropPoint_findUnique id.

Definition withDistance (location : GeoLocation) (dp : DropPoint.t)
  : DropPointWithDistance :=
  {| point := dp;
     distanceKm :=
       calculateHaversineDistance location
         {| latitude := DropPoint.latitude dp;
            longitude := DropPoint.longitude dp |} |}.

(** [.sort((a, b) => a.distanceKm - b.distanceKm)]: a stable sort by
    ascending distance. *)
Fixpoint insertByDistance (x : DropPointWithDistance)
    (l : list DropPointWithDistance) : list DropPointWithDistance :=
  match l with
  | [] => [x]
  | y :: r =>
      if Qle_bool (distanceKm x) (distanceKm y)
      then x :: y :: r
      else y :: insertByDistance x r
  end.

Fixpoint sortByDistance (l : list DropPointWithDistance)
  : list DropPointWithDistance :=
  match l with
  | [] => []
  | x :: r => insertByDistance x (sortByDistance r)
  end.

Definition roundDistance (dp : DropPointWithDistance) : DropPointWithDistance :=
  {| point := point dp; distanceKm := round2 (distanceKm dp) |}.

Definition findNearby (location : GeoLocation) (radiusKm : Q) (limit : nat)
    (includeInactive : bool) : M (list DropPointWithDistance) :=
  let* allDropPoints := Prisma.dropPoint_findMany includeInactive in
  let dropPointsWithDistance :=
    firstn limit
      (sortByDistance
         (List.filter (fun dp => Qle_bool (distanceKm dp) radiusKm)
            (List.map (withDistance location) allDropPoints))) in
  ret (List.map roundDistance dropPointsWithDistance).

Definition checkSlotCapacity (dropPointId : string) (date : Date)
    (startHour : Z) (requiredKg : Z) : M CapacityCheck :=
  let* found := Prisma.timeSlotCapacity_findFirst dropPointId date startHour in
  let* slot :=
    match found with
    | Some s => ret s
    | None =>
        Prisma.timeSlotCapacity_create dropPointId date startHour
          (startHour + 2) 1000 0
    end in
  let availableKg :=
    TimeSlotCapacity.maxCapacityKg slot - TimeSlotCapacity.usedCapacityKg slot in
  let hasCapacity := availableKg >=? requiredKg in
  ret {| hasCapacity := hasCapacity;
         availableKg := availableKg;
         slot := Some slot |}.

Definition reserveCapacity (slotId : Z) (reserveKg : Z) : M TimeSlotCapacity.t :=
  Prisma.timeSlotCapacity_update_increment slotId reserveKg.

Definition checkCrateAvailability (dropPointId : string) (cropType : string)
    (requiredCrates : Z) : M CrateCheck :=
  let* dropPoint := Prisma.dropPoint_findUnique dropPointId in
  match dropPoint ≫= DropPoint.crateInventory with
  | None => ret {| hasAvailability := false; availableCrates := 0 |}
  | Some inventory =>
      let normalizedCrop := toLowerCase cropType in
      let availableCrates := default 0 (inventory !! normalizedCrop) in
      ret {| hasAvailability := availableCrates >=? requiredCrates;
             availableCrates := availableCrates |}
  end.

Definition createAssignment (input : CreateAssignmentInput)
  : M DropPointAssignment.t :=
  Prisma.dropPointAssignment_create (fun id =>
    DropPointAssignment.mk id
      (ca_listingId input)
      (ca_dropPointId input)
      (ca_farmerId input)
      (latitude (ca_farmerLocation input))
      (longitude (ca_farmerLocation input))
      (ca_distanceKm input)
      (ca_pickupWindowStart input)
      (ca_pickupWindowEnd input)
      (ca_cratesNeeded input)
      ASSIGNED None None).

Definition getAssignmentByListingId (listingId : Z)
  : M (option DropPointAssignment.t) :=
  Prisma.dropPointAssignment_findUnique listingId.

Definition getAssignmentWithDropPoint (listingId : Z)
  : M (option (DropPointAssignment.t * DropPoint.t)) :=
  Prisma.dropPointAssignment_findUnique_include listingId.

Definition updateAssignment (listingId : Z) (data : AssignmentUpdate)
  : M DropPointAssignment.t :=
  Prisma.dropPointAssignment_update listingId (applyUpdate data).

End Repository.

(* ====================================================================== *)
(** * The service: [DropPointAssignmentService] *)
(* ====================================================================== *)

Record AssignDropPointInput : Type := {
  listingId : Z;
  farmerId : Z;
  farmerLocation : GeoLocation;
  cropType : string;
  quantityKg : Z;
  (** optional; defaults to the next business day *)
  preferredDate : option Date
}.

Record DropPointInfo : Type := {
  dp_id : string;
  dp_name : string;
  dp_address : string;
  dp_location : GeoLocation;
  dp_distanceKm : Q
}.

Record PickupWindow : Type := { start : Date; end_ : Date }.

Record DropPointAssignmentResult : Type := {
  assignment : DropPointAssignment.t;
  dropPoint : DropPointInfo;
  pickupWindow : PickupWindow;
  cratesNeeded : Z
}.

Record NearbyDropPointInfo : Type := {
  nb_id : string;
  nb_name : string;
  nb_address : string;
  nb_location : GeoLocation;
  nb_distanceKm : Q;
  isOpen : bool
}.

Definition DEFAULT_SEARCH_RADIUS_KM : Q := 20 # 1.
Definition CRATES_PER_50KG : Z := 1.
Definition DEFAULT_TIME_SLOT_START_HOUR : Z := 7.
Definition DEFAULT_TIME_SLOT_DURATION_HOURS : Z := 2.

(** [Math.ceil(quantityKg / 50) * CRATES_PER_50KG], for a whole number of
    kilograms.  The code divides doubles: for an integer below 2^53
    the rounded quotient by 50 has the ceiling of the exact one (a
    fraction that is not 0 is at least 1/50 away from the integers
    around it, the rounding error at most 2^-6), so its ceiling is
    this one. *)
Definition cratesNeededFor (quantityKg : Z) : Z :=
  ceilDiv quantityKg 50 * CRATES_PER_50KG.

(** [if (slotId)]: [null] and [0] are falsy. *)
Definition truthy (slotId : option Z) : bool :=
  match slotId with
  | Some n => negb (n =? 0)
  | None => false
  end.

(** [capacityCheck.slot?.id ?? null] *)
Definition slotIdOf (c : CapacityCheck) : option Z :=
  TimeSlotCapacity.id <$> slot c.

Definition getNextBusinessDay (now : Date) : Date :=
  let tomorrow := setHours (addDate now 1) 0 0 0 0 in
  if getDay tomorrow =? 0 then addDate tomorrow 1 else tomorrow.

Definition isDropPointOpen (operatingHours : option (gmap string Hours))
    (dayOfWeek : string) (now : Date) : bool :=
  match operatingHours with
  | None => false
  | Some table =>
      match table !! dayOfWeek with
      | None => false
      | Some todayHours =>
          if String.eqb (open todayHours) "00:00"
             && String.eqb (close todayHours) "00:00"
          then false
          else
            let currentHour := getHours now in
            let currentMinute := getMinutes now in
            let currentTime := currentHour * 60 + currentMinute in
            let openParts := List.map Number (split ":" (open todayHours)) in
            let closeParts := List.map Number (split ":" (close todayHours)) in
            let openTime :=
              mulAdd (mjoin (openParts !! 0%nat)) 60 (mjoin (openParts !! 1%nat)) in
            let closeTime :=
              mulAdd (mjoin (closeParts !! 0%nat)) 60 (mjoin (closeParts !! 1%nat)) in
            geNum currentTime openTime && ltNum currentTime closeTime
      end
  end.

Definition publicFields (dp : DropPoint.t) (distanceKm : Q) : DropPointInfo :=
  {| dp_id := DropPoint.id dp;
     dp_name := DropPoint.name dp;
     dp_address := DropPoint.address dp;
     dp_location := {| latitude := DropPoint.latitude dp;
                       longitude := DropPoint.longitude dp |};
     dp_distanceKm := distanceKm |}.

Section Service.

Variable calculateHaversineDistance : GeoLocation -> GeoLocation -> Q.

Local Abbreviation findNearby := (findNearby calculateHaversineDistance).

(** The [for (const dropPoint of nearbyDropPoints)] loop of
    [assignDropPoint]; it returns the two variables it assigns,
    [assignedDropPoint] and [slotId], both [null] at the start. *)
Fixpoint scanCandidates (preferredDate : Date) (cropType : string)
    (quantityKg cratesNeeded : Z) (nearbyDropPoints : list DropPointWithDistance)
  : M (option DropPointWithDistance * option Z) :=
  match nearbyDropPoints with
  | [] => ret (None, None)
  | dropPoint :: rest =>
      let* capacityCheck :=
        checkSlotCapacity (DropPoint.id (point dropPoint)) preferredDate
          DEFAULT_TIME_SLOT_START_HOUR quantityKg in
      if negb (hasCapacity capacityCheck)
      then scanCandidates preferredDate cropType quantityKg cratesNeeded rest
      else
        let* crateCheck :=
          checkCrateAvailability (DropPoint.id (point dropPoint)) cropType
            cratesNeeded in
        if negb (hasAvailability crateCheck)
        then scanCandidates preferredDate cropType quantityKg cratesNeeded rest
        else ret (Some dropPoint, slotIdOf capacityCheck)
  end.

(** [now] is the clock reading of [new Date()]. *)
Definition assignDropPoint (now : Date) (input : AssignDropPointInput)
  : M DropPointAssignmentResult :=
  let preferredDate := default (getNextBusinessDay now) (preferredDate input) in
  let cratesNeeded := cratesNeededFor (quantityKg input) in
  let* nearbyDropPoints :=
    findNearby (farmerLocation input) DEFAULT_SEARCH_RADIUS_KM 20 false in
  match nearbyDropPoints with
  | [] => throw (DropPointAssignmentError NO_DROP_POINTS)
  | nearest :: _ =>
      let* found :=
        scanCandidates preferredDate (cropType input) (quantityKg input)
          cratesNeeded nearbyDropPoints in
      let* chosen :=
        match fst found with
        | Some dp => ret (dp, snd found)
        | None =>
            let* capacityCheck :=
              checkSlotCapacity (DropPoint.id (point nearest)) preferredDate
                DEFAULT_TIME_SLOT_START_HOUR (quantityKg input) in
            ret (nearest, slotIdOf capacityCheck)
        end in
      let assignedDropPoint := fst chosen in
      let slotId := snd chosen in
      let* _ :=
        match slotId with
        | Some n =>
            if truthy slotId
            then let* _ := reserveCapacity n (quantityKg input) in ret tt
            else ret tt
        | None => ret tt
        end in
      let pickupWindowStart :=
        setHours preferredDate DEFAULT_TIME_SLOT_START_HOUR 0 0 0 in
      let pickupWindowEnd :=
        setHours preferredDate
          (DEFAULT_TIME_SLOT_START_HOUR + DEFAULT_TIME_SLOT_DURATION_HOURS)
          0 0 0 in
      let* assignment :=
        createAssignment
          {| ca_listingId := listingId input;
             ca_dropPointId := DropPoint.id (point assignedDropPoint);
             ca_farmerId := farmerId input;
             ca_farmerLocation := farmerLocation input;
             ca_distanceKm := distanceKm assignedDropPoint;
             ca_pickupWindowStart := pickupWindowStart;
             ca_pickupWindowEnd := pickupWindowEnd;
             ca_cratesNeeded := cratesNeeded |} in
      ret {| assignment := assignment;
             dropPoint := publicFields (point assignedDropPoint)
                            (distanceKm assignedDropPoint);
             pickupWindow := {| start := pickupWindowStart;
                                end_ := pickupWindowEnd |};
             cratesNeeded := cratesNeeded |}
  end.

Definition getAssignment (listingId : Z) : M (option DropPointAssignmentResult) :=
  let* assignmentWithDp := getAssignmentWithDropPoint listingId in
  match assignmentWithDp with
  | None => ret None
  | Some (assignment, dropPoint) =>
      ret (Some
        {| assignment := assignment;
           dropPoint := publicFields dropPoint
                          (DropPointAssignment.distanceKm assignment);
           pickupWindow :=
             {| start := DropPointAssignment.pickupWindowStart assignment;
                end_ := DropPointAssignment.pickupWindowEnd assignment |};
           cratesNeeded := DropPointAssignment.cratesNeeded assignment |})
  end.

Definition nearbyInfo (dayOfWeek : string) (now : Date)
    (dp : DropPointWithDistance) : NearbyDropPointInfo :=
  {| nb_id := DropPoint.id (point dp);
     nb_name := DropPoint.name (point dp);
     nb_address := DropPoint.address (point dp);
     nb_location := {| latitude := DropPoint.latitude (point dp);
                       longitude := DropPoint.longitude (point dp) |};
     nb_distanceKm := distanceKm dp;
     isOpen := isDropPointOpen (DropPoint.operatingHours (point dp))
                 dayOfWeek now |}.

Definition getNearbyDropPoints (now : Date) (location : GeoLocation)
    (radiusKm : Q) : M (list NearbyDropPointInfo) :=
  let* nearby := findNearby location radiusKm 10 false in
  match toLocaleDateString_weekday now "lowercase" with
  | Throw e => throw e
  | Ok dayOfWeek => ret (List.map (nearbyInfo dayOfWeek now) nearby)
  end.

Definition reassignDropPoint (listingId : Z) (newDropPointId : string)
    (changeReason : string) : M DropPointAssignmentResult :=
  let* existing := getAssignmentWithDropPoint listingId in
  match existing with
  | None => throw (DropPointAssignmentError NOT_FOUND)
  | Some (existingAssignment, _) =>
      let* newDropPoint := findById newDropPointId in
      match newDropPoint with
      | None => throw (DropPointAssignmentError DROP_POINT_NOT_FOUND)
      | Some _ =>
          let* _ :=
            updateAssignment listingId
              {| up_dropPointId := Some newDropPointId;
                 up_pickupWindowStart := None;
                 up_pickupWindowEnd := None;
                 up_status := Some REASSIGNED;
                 up_changeReason := Some changeReason;
                 up_previousDropPointId :=
                   Some (DropPointAssignment.dropPointId existingAssignment) |} in
          let* updated := getAssignment listingId in
          match updated with
          | None => throw (DropPointAssignmentError UPDATE_FAILED)
          | Some result => ret result
          end
      end
  end.

End Service.

(* ====================================================================== *)
(** * Vocabulary of the statements *)
(* ====================================================================== *)

(** The slot row [checkSlotCapacity] finds for a point on a date at the
    default start hour, if there is one. *)
Definition slotFor (db : Db) (dropPointId : string) (date : Date)
  : option TimeSlotCapacity.t :=
  List.find (Prisma.slotMatches dropPointId date DEFAULT_TIME_SLOT_START_HOUR)
            (timeSlotCapacities db).

(** The capacity check of a candidate, read off the database: the
    slot's head room, or that of the default slot a first query would
    create. *)
Definition capacityPasses (db : Db) (date : Date) (quantityKg : Z)
    (c : DropPointWithDistance) : bool :=
  match slotFor db (DropPoint.id (point c)) date with
  | Some s =>
      TimeSlotCapacity.maxCapacityKg s - TimeSlotCapacity.usedCapacityKg s
      >=? quantityKg
  | None => 1000 - 0 >=? quantityKg
  end.

(** The crate check of a candidate, read off the database. *)
Definition cratesPass (db : Db) (cropType : string) (cratesNeeded : Z)
    (c : DropPointWithDistance) : bool :=
  match List.find (fun dp => String.eqb (DropPoint.id dp) (DropPoint.id (point c)))
                  (dropPoints db) ≫= DropPoint.crateInventory with
  | Some inventory =>
      default 0 (inventory !! toLowerCase cropType) >=? cratesNeeded
  | None => false
  end.

Definition feasible (db : Db) (date : Date) (cropType : string)
    (quantityKg cratesNeeded : Z) (c : DropPointWithDistance) : bool :=
  capacityPasses db date quantityKg c && cratesPass db cropType cratesNeeded c.

(** The date an assignment request is served for. *)
Definition dateOf (now : Date) (input : AssignDropPointInput) : Date :=
  default (getNextBusinessDay now) (preferredDate input).

Definition feasibleFor (db : Db) (now : Date) (input : AssignDropPointInput)
    (c : DropPointWithDistance) : bool :=
  feasible db (dateOf now input) (cropType input) (quantityKg input)
           (cratesNeededFor (quantityKg input)) c.

(** A slot as [checkSlotCapacity] creates it for one of the points
    [ids] on [date]. *)
Definition defaultSlotOf (date : Date) (ids : list string)
    (s : TimeSlotCapacity.t) : Prop :=
  In (TimeSlotCapacity.dropPointId s) ids
  /\ TimeSlotCapacity.slotDate s = date
  /\ TimeSlotCapacity.slotStartHour s = DEFAULT_TIME_SLOT_START_HOUR
  /\ TimeSlotCapacity.slotEndHour s = DEFAULT_TIME_SLOT_START_HOUR + 2
  /\ TimeSlotCapacity.maxCapacityKg s = 1000
  /\ TimeSlotCapacity.usedCapacityKg s = 0.

(** [db'] is [db] with default slots for points of [ids] appended under
    the next ids of the counter, and nothing else changed. *)
Definition slotsAdded (date : Date) (ids : list string) (db db' : Db) : Prop :=
  dropPoints db' = dropPoints db
  /\ dropPointAssignments db' = dropPointAssignments db
  /\ nextAssignmentId db' = nextAssignmentId db
  /\ exists extra,
       timeSlotCapacities db' = timeSlotCapacities db ++ extra
       /\ Forall (defaultSlotOf date ids) extra
       /\ List.map TimeSlotCapacity.id extra
          = seqZ (nextSlotId db) (Z.of_nat (length extra))
       /\ nextSlotId db' = nextSlotId db + Z.of_nat (length extra).

(** Slot ids come from an auto-increment counter that starts at 1: they
    are positive, below the counter, and no two rows share one. *)
Fixpoint distinct (l : list Z) : bool :=
  match l with
  | [] => true
  | x :: r => negb (existsb (Z.eqb x) r) && distinct r
  end.

Definition slotIdsOk (db : Db) : bool :=
  (0 <? nextSlotId db)
  && forallb (fun s => (0 <? TimeSlotCapacity.id s)
                    && (TimeSlotCapacity.id s <? nextSlotId db))
          (timeSlotCapacities db)
  && distinct (List.map TimeSlotCapacity.id (timeSlotCapacities db)).

(** The order candidates are returned in. *)
Definition nearerOrEqual (a b : DropPointWithDistance) : Prop :=
  (distanceKm a <= distanceKm b)%Q.

(** Every assignment refers to a drop point of the table (the foreign
    key of the relation [include: { dropPoint: true }] follows). *)
Definition referencesOk (db : Db) : bool :=
  forallb
    (fun a =>
       existsb (fun dp => String.eqb (DropPoint.id dp)
                                     (DropPointAssignment.dropPointId a))
               (dropPoints db))
    (dropPointAssignments db).

(** The ids of the candidate points. *)
Definition idsOf (l : list DropPointWithDistance) : list string :=
  List.map (fun c => DropPoint.id (point c)) l.

(** The assignment row a reassignment leaves behind. *)
Definition reassigned (a : DropPointAssignment.t) (newDropPointId : string)
    (changeReason : string) : DropPointAssignment.t :=
  DropPointAssignment.mk
    (DropPointAssignment.id a)
    (DropPointAssignment.listingId a)
    newDropPointId
    (DropPointAssignment.farmerId a)
    (DropPointAssignment.farmerLatitude a)
    (DropPointAssignment.farmerLongitude a)
    (DropPointAssignment.distanceKm a)
    (DropPointAssignment.pickupWindowStart a)
    (DropPointAssignment.pickupWindowEnd a)
    (DropPointAssignment.cratesNeeded a)
    REASSIGNED
    (Some changeReason)
    (Some (DropPointAssignment.dropPointId a)).

(** The fields [reassignDropPoint] passes to [updateAssignment] when the
    listing's assignment is [a]. *)
Definition reassignData (a : DropPointAssignment.t) (newDropPointId : string)
    (changeReason : string) : AssignmentUpdate :=
  {| up_dropPointId := Some newDropPointId;
     up_pickupWindowStart := None;
     up_pickupWindowEnd := None;
     up_status := Some REASSIGNED;
     up_changeReason := Some changeReason;
     up_previousDropPointId := Some (DropPointAssignment.dropPointId a) |}.

(** Minute of the day of an ["HH:MM"] string made of digits. *)
Definition minuteOfDay (hhmm : string) : option Z :=
  let parts := List.map Number (split ":" hhmm) in
  mulAdd (mjoin (parts !! 0%nat)) 60 (mjoin (parts !! 1%nat)).

(** The database after step 5 of [assignDropPoint] when the slot in hand
    is [s]: the guard [if (slotId)] skips the increment for id 0. *)
Definition reserved (db : Db) (s : TimeSlotCapacity.t) (kg : Z) : Db :=
  if TimeSlotCapacity.id s =? 0 then db
  else withSlots db
         (Prisma.updateFirst
            (fun x => TimeSlotCapacity.id x =? TimeSlotCapacity.id s)
            (Prisma.incrementUsed kg) (timeSlotCapacities db))
         (nextSlotId db).

(** The assignment row [assignDropPoint] writes for the point it chose. *)
Definition assignmentRow (id : Z) (now : Date) (input : AssignDropPointInput)
    (chosen : DropPointWithDistance) : DropPointAssignment.t :=
  DropPointAssignment.mk id
    (listingId input)
    (DropPoint.id (point chosen))
    (farmerId input)
    (latitude (farmerLocation input))
    (longitude (farmerLocation input))
    (distanceKm chosen)
    (setHours (dateOf now input) 7 0 0 0)
    (setHours (dateOf now input) 9 0 0 0)
    (cratesNeededFor (quantityKg input))
    ASSIGNED None None.

(** The result [assignDropPoint] returns with that row. *)
Definition resultFor (a : DropPointAssignment.t) (now : Date)
    (input : AssignDropPointInput) (chosen : DropPointWithDistance)
  : DropPointAssignmentResult :=
  {| assignment := a;
     dropPoint := publicFields (point chosen) (distanceKm chosen);
     pickupWindow := {| start := setHours (dateOf now input) 7 0 0 0;
                        end_ := setHours (dateOf now input) 9 0 0 0 |};
     cratesNeeded := cratesNeededFor (quantityKg input) |}.

(** Steps 6 and 7 of [assignDropPoint] and its return value, on the
    database [db] that steps 1 to 5 leave. *)
Definition persisted (db : Db) (now : Date) (input : AssignDropPointInput)
    (chosen : DropPointWithDistance) : Db * Result DropPointAssignmentResult :=
  match List.find (Prisma.forListing (listingId input))
                  (dropPointAssignments db) with
  | Some _ => (db, Throw (PrismaClientKnownRequestError P2002))
  | None =>
      let a := assignmentRow (nextAssignmentId db) now input chosen in
      (withAssignments db (dropPointAssignments db ++ [a])
         (nextAssignmentId db + 1),
       Ok (resultFor a now input chosen))
  end.

(* ====================================================================== *)
(** * A small database to run the code on *)
(* ====================================================================== *)

Module Example.

(** A stand-in for the Haversine distance: the Manhattan distance in
    degrees. *)
Definition planar (p q : GeoLocation) : Q :=
  (Qabs (latitude p - latitude q) + Qabs (longitude p - longitude q))%Q.

Definition everyDay (o c : string) : gmap string Hours :=
  list_to_map
    (List.map (fun d => (d, {| open := o; close := c |}))
       ["monday"; "tuesday"; "wednesday"; "thursday"; "friday"; "saturday";
        "sunday"]%string).

(** One degree from the farmer below, tomato crates in stock. *)
Definition kolarMain : DropPoint.t :=
  DropPoint.mk "dp-kolar" "Kolar Main Drop Point" "Station Road, Kolar" "Kolar"
    (1 # 1) (1 # 1) true
    (Some (everyDay "06:00" "18:00"))
    (Some (list_to_map [("tomato"%string, 100); ("potato"%string, 80)])).

(** Three degrees away, a single tomato crate. *)
Definition bangarpet : DropPoint.t :=
  DropPoint.mk "dp-bangarpet" "Bangarpet Collection Center" "Market Road"
    "Kolar" (3 # 1) (1 # 1) true
    (Some (everyDay "05:30" "17:00"))
    (Some (list_to_map [("tomato"%string, 1)])).

(** Half a degree away, no mango crates. *)
Definition malur : DropPoint.t :=
  DropPoint.mk "dp-malur" "Malur Agri Depot" "Old Madras Road" "Kolar"
    (1 # 2) (1 # 1) true
    (Some (everyDay "05:00" "18:00"))
    (Some (list_to_map [("potato"%string, 40)])).

Definition farmer : GeoLocation := {| latitude := 0; longitude := 1 |}.

Definition candidate (dp : DropPoint.t) (km : Q) : DropPointWithDistance :=
  {| point := dp; distanceKm := km |}.

Definition emptyDb (points : list DropPoint.t) : Db :=
  {| dropPoints := points;
     timeSlotCapacities := [];
     dropPointAssignments := [];
     nextSlotId := 1;
     nextAssignmentId := 1 |}.

(** Two points, both able to take a tomato listing. *)
Definition db2 : Db := emptyDb [bangarpet; kolarMain].

(** The nearest point has no tomato crates, the next one has. *)
Definition db3 : Db := emptyDb [bangarpet; kolarMain; malur].

(** Only the point without tomato crates. *)
Definition db1 : Db := emptyDb [malur].

(** Monday 1970-01-05, 00:00 and 12:00. *)
Definition monday : Date := 4 * msPerDay.
Definition mondayNoon : Date := 4 * msPerDay + 12 * msPerHour.

Definition request (listing : Z) (kg : Z) : AssignDropPointInput :=
  {| listingId := listing;
     farmerId := 3;
     farmerLocation := farmer;
     cropType := "Tomato";
     quantityKg := kg;
     preferredDate := Some (monday + 15 * msPerHour) |}.

(** [db2] after listing 7 has been assigned. *)
Definition db2assigned : Db :=
  fst (assignDropPoint planar mondayNoon (request 7 120) db2).

End Example.

(* ====================================================================== *)
(** * The rest of the repository and of the service *)
(* ====================================================================== *)

(** [orderBy: { key: 'asc' }]: rows in ascending order of a key, rows
    with equal keys in table order. *)
Fixpoint insertOrdered {A} (le : A -> A -> bool) (x : A) (l : list A) : list A :=
  match l with
  | [] => [x]
  | y :: r => if le x y then x :: y :: r else y :: insertOrdered le x r
  end.

Fixpoint sortOrdered {A} (le : A -> A -> bool) (l : list A) : list A :=
  match l with
  | [] => []
  | x :: r => insertOrdered le x (sortOrdered le r)
  end.

Definition statusEqb (a b : AssignmentStatus) : bool :=
  match a, b with
  | ASSIGNED, ASSIGNED | REASSIGNED, REASSIGNED => true
  | _, _ => false
  end.

(** Modelled from the spec: [timeSlotCapacity.findMany] of the generated
    client, which is not part of the sources: the slots of a point on a
    date, at one start hour when it is given, by ascending start hour. *)
Definition timeSlotCapacity_findMany (dropPointId : string) (slotDate : Date)
    (slotStartHour : option Z) : M (list TimeSlotCapacity.t) :=
  query (fun db =>
    sortOrdered
      (fun a b => TimeSlotCapacity.slotStartHour a
                  <=? TimeSlotCapacity.slotStartHour b)
      (List.filter
         (fun s =>
            String.eqb (TimeSlotCapacity.dropPointId s) dropPointId
            && (TimeSlotCapacity.slotDate s =? slotDate)
            && match slotStartHour with
               | Some h => TimeSlotCapacity.slotStartHour s =? h
               | None => true
               end)
         (timeSlotCapacities db))).

(** Modelled from the spec: [dropPointAssignment.findMany] of the
    generated client with [include: { dropPoint: true }]: the
    assignments of a supplier, of one status when it is given, each
    joined with its drop point, by ascending pickup-window start. *)
Definition dropPointAssignment_findMany (farmerId : Z)
    (status : option AssignmentStatus)
  : M (list (DropPointAssignment.t * DropPoint.t)) :=
  query (fun db =>
    sortOrdered
      (fun a b => DropPointAssignment.pickupWindowStart (fst a)
                  <=? DropPointAssignment.pickupWindowStart (fst b))
      (omap
         (fun a =>
            match List.find
                    (fun dp => String.eqb (DropPoint.id dp)
                                          (DropPointAssignment.dropPointId a))
                    (dropPoints db) with
            | Some dp => Some (a, dp)
            | None => None
            end)
         (List.filter
            (fun a =>
               (DropPointAssignment.farmerId a =? farmerId)
               && match status with
                  | Some s => statusEqb (DropPointAssignment.status a) s
                  | None => true
                  end)
            (dropPointAssignments db)))).

(** [TimeSlotFilter] *)
Record TimeSlotFilter : Type := {
  tf_dropPointId : string;
  tf_date : Date;
  tf_startHour : option Z
}.

Definition getAvailableSlots (filter : TimeSlotFilter)
  : M (list TimeSlotCapacity.t) :=
  timeSlotCapacity_findMany (tf_dropPointId filter) (tf_date filter)
    (tf_startHour filter).

(** [status] is optional: [...(status && { status })]. *)
Definition findAssignmentsByFarmerId (farmerId : Z)
    (status : option AssignmentStatus)
  : M (list (DropPointAssignment.t * DropPoint.t)) :=
  dropPointAssignment_findMany farmerId status.

Definition deliveryOf (a : DropPointAssignment.t * DropPoint.t)
  : DropPointAssignmentResult :=
  {| assignment := fst a;
     dropPoint := publicFields (snd a) (DropPointAssignment.distanceKm (fst a));
     pickupWindow :=
       {| start := DropPointAssignment.pickupWindowStart (fst a);
          end_ := DropPointAssignment.pickupWindowEnd (fst a) |};
     cratesNeeded := DropPointAssignment.cratesNeeded (fst a) |}.

Definition getUpcomingDeliveries (farmerId : Z)
  : M (list DropPointAssignmentResult) :=
  let* assignments := findAssignmentsByFarmerId farmerId (Some ASSIGNED) in
  ret (List.map deliveryOf assignments).

(* ====================================================================== *)
(** * Dates in a time zone *)
(* ====================================================================== *)

(** A [Date] object holds a UTC time value; its methods read and write
    local time through [LocalTime] and [UTC] of ECMA-262, which add and
    subtract the zone's offset [LocalTZA].  A local time that the zone
    skips (clocks put forward) is written as the time after the gap, so
    [LocalTime (UTC t)] need not be [t].  In a zone whose offset never
    changes the methods below are those of [JS] on the local time
    value. *)
Module TimeZone.

Section Zone.

(** [LocalTZA(t, isUTC)], in milliseconds. *)
Variable LocalTZA : Z -> bool -> Z.

Definition LocalTime (t : Z) : Z := t + LocalTZA t true.
Definition UTC (t : Z) : Z := t - LocalTZA t false.

(** [d.getDay()] *)
Definition getDay (tv : Z) : Z := WeekDay (LocalTime tv).

(** [d.setHours(hour, min, sec, ms)] *)
Definition setHours (tv : Z) (hour min sec ms : Z) : Z :=
  UTC (MakeDate (Day (LocalTime tv)) (MakeTime hour min sec ms)).

(** [d.setDate(d.getDate() + n)] *)
Definition addDate (tv : Z) (n : Z) : Z :=
  UTC (MakeDate (Day (LocalTime tv) + n) (TimeWithinDay (LocalTime tv))).

(** [getNextBusinessDay] on the time value [now] of [new Date()]. *)
Definition getNextBusinessDay (now : Z) : Z :=
  let tomorrow := setHours (addDate now 1) 0 0 0 0 in
  if getDay tomorrow =? 0 then addDate tomorrow 1 else tomorrow.

(** The zone has the local time [t]: writing it and reading it back
    gives [t]. *)
Definition hasLocalTime (t : Z) : Prop := LocalTime (UTC t) = t.

End Zone.

End TimeZone.

(* ====================================================================== *)
(** * The gRPC handlers of the drop point service *)
(* ====================================================================== *)

Module grpc.
(** The members of [grpc.status] the handlers use. *)
Inductive status : Type := INVALID_ARGUMENT | NOT_FOUND | INTERNAL.
End grpc.

(** What a handler passes to [callback]: a response, or a status with a
    message. *)
Inductive Callback (A : Type) : Type :=
| Reply (response : A)
| Fail (code : grpc.status) (message : string).
Arguments Reply {A} response.
Arguments Fail {A} code message.

Record AssignDropPointRequest : Type := {
  rq_listingId : Z;
  rq_farmerId : Z;
  rq_farmerLocation : option GeoLocation;
  rq_cropType : string;
  rq_quantityKg : Z;
  (** a date string, or absent *)
  rq_preferredDate : option string
}.

Record NearbyDropPointsRequest : Type := {
  rq_location : option GeoLocation;
  rq_radiusKm : Q
}.

Record WireWindow : Type := { w_start : string; w_end : string }.

Record AssignmentResponse : Type := {
  assignmentId : string;
  rs_listingId : Z;
  rs_dropPoint : NearbyDropPointInfo;
  rs_pickupWindow : WireWindow;
  rs_cratesNeeded : Z;
  rs_status : AssignmentStatus;
  listingStatus : string
}.

(** The message a [DropPointAssignmentError] is constructed with. *)
Definition messageOfCode (c : ErrorCode) : string :=
  match c with
  | NO_DROP_POINTS => "No drop points found within search radius"
  | JS.NOT_FOUND => "No existing assignment found"
  | DROP_POINT_NOT_FOUND => "New drop point not found"
  | UPDATE_FAILED => "Failed to update assignment"
  end.

(** [s || fallback] on strings: the empty string is falsy. *)
Definition orElse (s fallback : string) : string :=
  if String.eqb s EmptyString then fallback else s.

(** [radiusKm || 20]: 0 is falsy. *)
Definition radiusOrDefault (radiusKm : Q) : Q :=
  if Qeq_bool radiusKm 0 then 20 # 1 else radiusKm.

Section Handlers.

Variable calculateHaversineDistance : GeoLocation -> GeoLocation -> Q.

(** Platform functions the handlers render with: [Date.toISOString],
    [String(n)], [new Date(s)] on a date string ([None] is the Invalid
    Date), and the message text of an exception the platform or the
    Prisma client raised. *)
Variable toISOString : Date -> string.
Variable numberToString : Z -> string.
Variable parseDate : string -> option Date.
Variable platformMessage : Exception -> string.

(** [error.message] *)
Definition messageOf (e : Exception) : string :=
  match e with
  | DropPointAssignmentError c => messageOfCode c
  | _ => platformMessage e
  end.

(** [error.code === c], for the code of a [DropPointAssignmentError]; no
    other exception carries one of these codes. *)
Definition hasCode (e : Exception) (c : ErrorCode) : bool :=
  match e, c with
  | DropPointAssignmentError NO_DROP_POINTS, NO_DROP_POINTS
  | DropPointAssignmentError JS.NOT_FOUND, JS.NOT_FOUND
  | DropPointAssignmentError DROP_POINT_NOT_FOUND, DROP_POINT_NOT_FOUND
  | DropPointAssignmentError UPDATE_FAILED, UPDATE_FAILED => true
  | _, _ => false
  end.

Definition mapAssignmentToResponse (result : DropPointAssignmentResult)
  : AssignmentResponse :=
  {| assignmentId := numberToString (DropPointAssignment.id (assignment result));
     rs_listingId := DropPointAssignment.listingId (assignment result);
     rs_dropPoint :=
       {| nb_id := dp_id (dropPoint result);
          nb_name := dp_name (dropPoint result);
          nb_address := dp_address (dropPoint result);
          nb_location :=
            {| latitude := latitude (dp_location (dropPoint result));
               longitude := longitude (dp_location (dropPoint result)) |};
          nb_distanceKm := dp_distanceKm (dropPoint result);
          isOpen := true |};
     rs_pickupWindow :=
       {| w_start := toISOString (start (pickupWindow result));
          w_end := toISOString (end_ (pickupWindow result)) |};
     rs_cratesNeeded := cratesNeeded result;
     rs_status := DropPointAssignment.status (assignment result);
     listingStatus := "ASSIGNED" |}.

(** [preferredDate ? new Date(preferredDate) : undefined]: [Some None]
    is [undefined], [None] the Invalid Date. *)
Definition requestedDate (preferredDate : option string)
  : option (option Date) :=
  match preferredDate with
  | Some s =>
      if String.eqb s EmptyString then Some None
      else match parseDate s with
           | Some d => Some (Some d)
           | None => None
           end
  | None => Some None
  end.

(** Handler [AssignDropPoint]; [now] is the clock reading.  The
    service takes dates that are valid, so a request with a location
    whose preferred date is an Invalid Date is outside the model: the
    handler is [None] there. *)
Definition AssignDropPoint (now : Date) (request : AssignDropPointRequest)
  : Db -> option (Db * Callback AssignmentResponse) :=
  fun db =>
    match rq_farmerLocation request with
    | None =>
        Some (db, Fail grpc.INVALID_ARGUMENT "Farmer location is required")
    | Some farmerLocation =>
        match requestedDate (rq_preferredDate request) with
        | None => None
        | Some preferred =>
            Some
              match assignDropPoint calculateHaversineDistance now
                      {| listingId := rq_listingId request;
                         farmerId := rq_farmerId request;
                         farmerLocation :=
                           {| latitude := latitude farmerLocation;
                              longitude := longitude farmerLocation |};
                         cropType := rq_cropType request;
                         quantityKg := rq_quantityKg request;
                         preferredDate := preferred |}
                      db with
              | (db', Ok result) =>
                  (db', Reply (mapAssignmentToResponse result))
              | (db', Throw error) =>
                  if hasCode error NO_DROP_POINTS
                  then (db', Fail grpc.NOT_FOUND (messageOf error))
                  else (db', Fail grpc.INTERNAL
                               (orElse (messageOf error)
                                       "Failed to assign drop point"))
              end
        end
    end.

(** Handler [GetDropPointAssignment]. *)
Definition GetDropPointAssignment (listingId : Z)
  : Db -> Db * Callback AssignmentResponse :=
  fun db =>
    match getAssignment listingId db with
    | (db', Ok None) =>
        (db', Fail grpc.NOT_FOUND
                ("No assignment found for listing " ++ numberToString listingId))
    | (db', Ok (Some result)) => (db', Reply (mapAssignmentToResponse result))
    | (db', Throw error) =>
        (db', Fail grpc.INTERNAL
                (orElse (messageOf error) "Failed to get assignment"))
    end.

(** Handler [GetNearbyDropPoints]. *)
Definition GetNearbyDropPoints (now : Date) (request : NearbyDropPointsRequest)
  : Db -> Db * Callback (list NearbyDropPointInfo) :=
  fun db =>
    match rq_location request with
    | None => (db, Fail grpc.INVALID_ARGUMENT "Location is required")
    | Some location =>
        match getNearbyDropPoints calculateHaversineDistance now
                {| latitude := latitude location;
                   longitude := longitude location |}
                (radiusOrDefault (rq_radiusKm request)) db with
        | (db', Ok dropPoints) =>
            (db', Reply
               (List.map
                  (fun dp =>
                     {| nb_id := nb_id dp;
                        nb_name := nb_name dp;
                        nb_address := nb_address dp;
                        nb_location := nb_location dp;
                        nb_distanceKm := nb_distanceKm dp;
                        isOpen := isOpen dp |})
                  dropPoints))
        | (db', Throw error) =>
            (db', Fail grpc.INTERNAL
                    (orElse (messageOf error) "Failed to get nearby drop points"))
        end
    end.

(** Handler [ReassignDropPoint]. *)
Definition ReassignDropPoint (listingId : Z) (newDropPointId : string)
    (changeReason : string) : Db -> Db * Callback AssignmentResponse :=
  fun db =>
    match reassignDropPoint listingId newDropPointId changeReason db with
    | (db', Ok result) => (db', Reply (mapAssignmentToResponse result))
    | (db', Throw error) =>
        if hasCode error JS.NOT_FOUND || hasCode error DROP_POINT_NOT_FOUND
        then (db', Fail grpc.NOT_FOUND (messageOf error))
        else (db', Fail grpc.INTERNAL
                     (orElse (messageOf error) "Failed to reassign drop point"))
    end.

(** Handler [GetUpcomingDeliveries]. *)
Definition GetUpcomingDeliveries (farmerId : Z)
  : Db -> Db * Callback (list AssignmentResponse) :=
  fun db =>
    match getUpcomingDeliveries farmerId db with
    | (db', Ok deliveries) =>
        (db', Reply (List.map mapAssignmentToResponse deliveries))
    | (db', Throw error) =>
        (db', Fail grpc.INTERNAL
                (orElse (messageOf error) "Failed to get upcoming deliveries"))
    end.

End Handlers.

(* ====================================================================== *)
(** * More vocabulary *)
(* ====================================================================== *)

(** The row a point lookup returns. *)
Definition pointOf (db : Db) (id : string) : option DropPoint.t :=
  List.find (fun dp => String.eqb (DropPoint.id dp) id) (dropPoints db).

(** The row a listing lookup returns. *)
Definition assignmentOf (db : Db) (listingId : Z)
  : option DropPointAssignment.t :=
  List.find (Prisma.forListing listingId) (dropPointAssignments db).

Fixpoint distinctStrings (l : list string) : bool :=
  match l with
  | [] => true
  | x :: r => negb (existsb (String.eqb x) r) && distinctStrings r
  end.

(** Drop point ids are a key of their table. *)
Definition pointIdsOk (db : Db) : bool :=
  distinctStrings (List.map DropPoint.id (dropPoints db)).

(** A listing has at most one assignment row. *)
Definition listingsOk (db : Db) : bool :=
  distinct (List.map DropPointAssignment.listingId (dropPointAssignments db)).

(** The distance [findNearby] computes for a point before rounding. *)
Definition rawDistance (haversine : GeoLocation -> GeoLocation -> Q)
    (location : GeoLocation) (dp : DropPoint.t) : Q :=
  haversine location
    {| latitude := DropPoint.latitude dp; longitude := DropPoint.longitude dp |}.

(** What is used, and the capacity, of the slot a point has on a date
    at the default start hour: the row's, or 0 of 1000 where the point
    has no slot yet (the slot [checkSlotCapacity] then creates). *)
Definition slotUsedKg (db : Db) (dropPointId : string) (date : Date) : Z :=
  match slotFor db dropPointId date with
  | Some s => TimeSlotCapacity.usedCapacityKg s
  | None => 0
  end.

Definition slotMaxKg (db : Db) (dropPointId : string) (date : Date) : Z :=
  match slotFor db dropPointId date with
  | Some s => TimeSlotCapacity.maxCapacityKg s
  | None => 1000
  end.

(** A string of ASCII characters: on these [toLowerCase] is the
    platform's. *)
Definition asciiOnly (s : string) : bool :=
  forallb (fun c => (nat_of_ascii c <? 128)%nat) (list_ascii_of_string s).

(* ====================================================================== *)
(** * Lists: first match and first-match update *)
(* ====================================================================== *)

Section ListFacts.

Context {A : Type}.
Implicit Types (p : A -> bool) (l : list A).

Lemma find_app p l1 l2 :
  List.find p (l1 ++ l2)
  = match List.find p l1 with
    | Some x => Some x
    | None => List.find p l2
    end.
Proof.
  induction l1 as [|x l1 IH]; simpl; [reflexivity|].
  destruct (p x); [reflexivity | exact IH].
Qed.

Lemma find_ext p p' l :
  (forall x, In x l -> p x = p' x) -> List.find p l = List.find p' l.
Proof.
  induction l as [|x l IH]; simpl; intros H; [reflexivity|].
  rewrite (H x) by (left; reflexivity).
  destruct (p' x); [reflexivity|].
  apply IH. intros y Hy. apply H. right. exact Hy.
Qed.

Lemma find_split p l x :
  List.find p l = Some x ->
  exists pre post,
    l = pre ++ x :: post /\ Forall (fun y => p y = false) pre /\ p x = true.
Proof.
  induction l as [|y l IH]; simpl; intros H; [discriminate|].
  destruct (p y) eqn:Hy.
  - injection H as ->. exists [], l. repeat split; [constructor | exact Hy].
  - destruct (IH H) as (pre & post & -> & Hpre & Hx).
    exists (y :: pre), post. repeat split; [constructor; assumption | exact Hx].
Qed.

Lemma find_first p pre x post :
  Forall (fun y => p y = false) pre -> p x = true ->
  List.find p (pre ++ x :: post) = Some x.
Proof.
  induction 1 as [|y pre Hy _ IH]; simpl; intros Hx.
  - rewrite Hx. reflexivity.
  - rewrite Hy. apply IH, Hx.
Qed.

Lemma find_all_false p l :
  Forall (fun y => p y = false) l -> List.find p l = None.
Proof.
  induction 1 as [|y l Hy _ IH]; simpl; [reflexivity|].
  rewrite Hy. exact IH.
Qed.

Lemma updateFirst_first p (f : A -> A) pre x post :
  Forall (fun y => p y = false) pre -> p x = true ->
  Prisma.updateFirst p f (pre ++ x :: post) = pre ++ f x :: post.
Proof.
  induction 1 as [|y pre Hy _ IH]; simpl; intros Hx.
  - rewrite Hx. reflexivity.
  - rewrite Hy, IH by exact Hx. reflexivity.
Qed.

End ListFacts.

(* ====================================================================== *)
(** * Running the repository calls *)
(* ====================================================================== *)

Ltac run := unfold bind, ret, throw, query; simpl.

Lemma slotMatches_refl dropPointId date startHour endHour cap used n :
  Prisma.slotMatches dropPointId date startHour
    (TimeSlotCapacity.mk n dropPointId date startHour endHour cap used) = true.
Proof.
  unfold Prisma.slotMatches; simpl.
  rewrite String.eqb_refl, !Z.eqb_refl. reflexivity.
Qed.

Lemma slotMatches_key dropPointId date startHour s :
  Prisma.slotMatches dropPointId date startHour s = true ->
  TimeSlotCapacity.dropPointId s = dropPointId
  /\ TimeSlotCapacity.slotDate s = date
  /\ TimeSlotCapacity.slotStartHour s = startHour.
Proof.
  unfold Prisma.slotMatches. intros H.
  apply andb_prop in H as [H H3]. apply andb_prop in H as [H1 H2].
  apply String.eqb_eq in H1. apply Z.eqb_eq in H2, H3. auto.
Qed.

(** A slot that exists is returned as it is, and nothing is written. *)
Lemma checkSlotCapacity_found dropPointId date startHour requiredKg db s :
  List.find (Prisma.slotMatches dropPointId date startHour)
            (timeSlotCapacities db) = Some s ->
  checkSlotCapacity dropPointId date startHour requiredKg db
  = (db,
     Ok {| hasCapacity :=
             TimeSlotCapacity.maxCapacityKg s - TimeSlotCapacity.usedCapacityKg s
             >=? requiredKg;
           availableKg :=
             TimeSlotCapacity.maxCapacityKg s - TimeSlotCapacity.usedCapacityKg s;
           slot := Some s |}).
Proof.
  intros H. unfold checkSlotCapacity, Prisma.timeSlotCapacity_findFirst.
  run. rewrite H. reflexivity.
Qed.

(** A slot that does not exist is created with the default capacity. *)
Lemma checkSlotCapacity_fresh dropPointId date startHour requiredKg db :
  List.find (Prisma.slotMatches dropPointId date startHour)
            (timeSlotCapacities db) = None ->
  let row := TimeSlotCapacity.mk (nextSlotId db) dropPointId date startHour
               (startHour + 2) 1000 0 in
  checkSlotCapacity dropPointId date startHour requiredKg db
  = (withSlots db (timeSlotCapacities db ++ [row]) (nextSlotId db + 1),
     Ok {| hasCapacity := 1000 - 0 >=? requiredKg;
           availableKg := 1000 - 0;
           slot := Some row |}).
Proof.
  intros H. unfold checkSlotCapacity, Prisma.timeSlotCapacity_findFirst,
    Prisma.timeSlotCapacity_create.
  run. rewrite H. reflexivity.
Qed.

Lemma checkCrateAvailability_run db cropType cratesNeeded c :
  exists check,
    checkCrateAvailability (DropPoint.id (point c)) cropType cratesNeeded db
    = (db, Ok check)
    /\ hasAvailability check = cratesPass db cropType cratesNeeded c.
Proof.
  unfold checkCrateAvailability, cratesPass, Prisma.dropPoint_findUnique. run.
  destruct (List.find _ (dropPoints db) ≫= DropPoint.crateInventory);
    eexists; split; reflexivity.
Qed.

Lemma createAssignment_fresh input db :
  List.find (Prisma.forListing (ca_listingId input)) (dropPointAssignments db)
  = None ->
  exists a,
    createAssignment input db
    = (withAssignments db (dropPointAssignments db ++ [a])
         (nextAssignmentId db + 1), Ok a)
    /\ a = DropPointAssignment.mk (nextAssignmentId db)
             (ca_listingId input) (ca_dropPointId input) (ca_farmerId input)
             (latitude (ca_farmerLocation input))
             (longitude (ca_farmerLocation input))
             (ca_distanceKm input) (ca_pickupWindowStart input)
             (ca_pickupWindowEnd input) (ca_cratesNeeded input)
             ASSIGNED None None.
Proof.
  intros H. unfold createAssignment, Prisma.dropPointAssignment_create. simpl.
  rewrite H. eexists. split; reflexivity.
Qed.

Lemma createAssignment_taken input db a :
  List.find (Prisma.forListing (ca_listingId input)) (dropPointAssignments db)
  = Some a ->
  createAssignment input db = (db, Throw (PrismaClientKnownRequestError P2002)).
Proof.
  intros H. unfold createAssignment, Prisma.dropPointAssignment_create. simpl.
  rewrite H. reflexivity.
Qed.

(* ====================================================================== *)
(** * Lazily created slots *)
(* ====================================================================== *)

Lemma slotsAdded_refl date ids db : slotsAdded date ids db db.
Proof.
  repeat split. exists []. rewrite app_nil_r. simpl.
  repeat split; [constructor | lia].
Qed.

Lemma seqZ_append (n : Z) (k1 k2 : nat) :
  seqZ n (Z.of_nat k1) ++ seqZ (n + Z.of_nat k1) (Z.of_nat k2)
  = seqZ n (Z.of_nat (k1 + k2)).
Proof. rewrite Nat2Z.inj_add, seqZ_app by lia. reflexivity. Qed.

Lemma defaultSlotOf_mono date ids ids' s :
  (forall i, In i ids -> In i ids') ->
  defaultSlotOf date ids s -> defaultSlotOf date ids' s.
Proof. intros Hsub (Hin & H). split; [apply Hsub, Hin | exact H]. Qed.

Lemma slotsAdded_trans date ids1 ids2 ids db1 db2 db3 :
  (forall i, In i ids1 -> In i ids) ->
  (forall i, In i ids2 -> In i ids) ->
  slotsAdded date ids1 db1 db2 -> slotsAdded date ids2 db2 db3 ->
  slotsAdded date ids db1 db3.
Proof.
  intros S1 S2 (P1 & A1 & N1 & e1 & E1 & F1 & I1 & L1)
    (P2 & A2 & N2 & e2 & E2 & F2 & I2 & L2).
  repeat split; try congruence.
  exists (e1 ++ e2). repeat split.
  - rewrite E2, E1, app_assoc. reflexivity.
  - apply Forall_app. split.
    + eapply Forall_impl; [exact F1|]. intros s. apply defaultSlotOf_mono, S1.
    + eapply Forall_impl; [exact F2|]. intros s. apply defaultSlotOf_mono, S2.
  - rewrite map_app, I1, I2, L1, length_app. apply seqZ_append.
  - rewrite L2, L1, length_app, Nat2Z.inj_add. lia.
Qed.

(** The slot a first query creates. *)
Lemma slotsAdded_fresh date dropPointId db :
  slotsAdded date [dropPointId] db
    (withSlots db
       (timeSlotCapacities db
        ++ [TimeSlotCapacity.mk (nextSlotId db) dropPointId date
              DEFAULT_TIME_SLOT_START_HOUR (DEFAULT_TIME_SLOT_START_HOUR + 2)
              1000 0])
       (nextSlotId db + 1)).
Proof.
  repeat split. eexists. split; [reflexivity|]. simpl.
  split; [|split; [reflexivity | lia]].
  constructor; [|constructor]. unfold defaultSlotOf. simpl. tauto.
Qed.

(** A slot that is found stays the one that is found. *)
Lemma slotsAdded_slotFor date ids db db' dropPointId date' s :
  slotsAdded date ids db db' ->
  slotFor db dropPointId date' = Some s ->
  slotFor db' dropPointId date' = Some s.
Proof.
  intros (_ & _ & _ & extra & E & _) H. unfold slotFor in *.
  rewrite E, find_app, H. reflexivity.
Qed.

(** Creating default slots changes no capacity check. *)
Lemma slotsAdded_capacityPasses date ids db db' date' quantityKg c :
  slotsAdded date ids db db' ->
  capacityPasses db' date' quantityKg c = capacityPasses db date' quantityKg c.
Proof.
  intros (_ & _ & _ & extra & E & F & _). unfold capacityPasses, slotFor.
  rewrite E, find_app.
  destruct (List.find _ (timeSlotCapacities db)) as [s|]; [reflexivity|].
  destruct (List.find _ extra) as [s|] eqn:Hs; [|reflexivity].
  apply find_some in Hs as [Hin _].
  rewrite List.Forall_forall in F. destruct (F s Hin) as (_ & _ & _ & _ & -> & ->).
  reflexivity.
Qed.

Lemma slotsAdded_cratesPass date ids db db' cropType cratesNeeded c :
  slotsAdded date ids db db' ->
  cratesPass db' cropType cratesNeeded c = cratesPass db cropType cratesNeeded c.
Proof. intros (P & _). unfold cratesPass. rewrite P. reflexivity. Qed.

Lemma slotsAdded_feasible date ids db db' date' cropType quantityKg cratesNeeded c :
  slotsAdded date ids db db' ->
  feasible db' date' cropType quantityKg cratesNeeded c
  = feasible db date' cropType quantityKg cratesNeeded c.
Proof.
  intros H. unfold feasible.
  rewrite (slotsAdded_capacityPasses _ _ _ _ _ _ _ H),
          (slotsAdded_cratesPass _ _ _ _ _ _ _ H).
  reflexivity.
Qed.

(** [checkSlotCapacity] at the default start hour: it never fails, the
    slot it returns is the one [slotFor] finds afterwards, and at most a
    default slot is written. *)
Lemma checkSlotCapacity_run date quantityKg c db :
  exists db' check s,
    checkSlotCapacity (DropPoint.id (point c)) date
      DEFAULT_TIME_SLOT_START_HOUR quantityKg db = (db', Ok check)
    /\ slot check = Some s
    /\ hasCapacity check = capacityPasses db date quantityKg c
    /\ slotFor db' (DropPoint.id (point c)) date = Some s
    /\ slotsAdded date [DropPoint.id (point c)] db db'.
Proof.
  destruct (slotFor db (DropPoint.id (point c)) date) as [s|] eqn:Hs.
  - exists db. eexists. exists s. split.
    + apply checkSlotCapacity_found. exact Hs.
    + simpl. unfold capacityPasses. rewrite Hs.
      split; [reflexivity|]. split; [reflexivity|].
      split; [reflexivity | apply slotsAdded_refl].
  - eexists. eexists. eexists. split.
    + apply checkSlotCapacity_fresh. exact Hs.
    + simpl. unfold capacityPasses. rewrite Hs.
      split; [reflexivity|]. split; [reflexivity|]. split.
      * unfold slotFor in *. simpl. rewrite find_app, Hs. simpl.
        rewrite slotMatches_refl. reflexivity.
      * apply slotsAdded_fresh.
Qed.

(* ====================================================================== *)
(** * The candidate scan *)
(* ====================================================================== *)

(** The loop returns the first candidate that passes both checks on the
    database it started from, with the id of that candidate's slot; on
    the way it only creates default slots. *)
Lemma scanCandidates_run date cropType quantityKg cratesNeeded cands :
  forall db,
  exists db1,
    slotsAdded date (idsOf cands) db db1
    /\ match List.find (feasible db date cropType quantityKg cratesNeeded) cands with
       | Some c =>
           exists s,
             slotFor db1 (DropPoint.id (point c)) date = Some s
             /\ scanCandidates date cropType quantityKg cratesNeeded cands db
                = (db1, Ok (Some c, Some (TimeSlotCapacity.id s)))
       | None =>
           scanCandidates date cropType quantityKg cratesNeeded cands db
           = (db1, Ok (None, None))
       end.
Proof.
  induction cands as [|c rest IH]; intros db.
  - exists db. split; [apply slotsAdded_refl | reflexivity].
  - destruct (checkSlotCapacity_run date quantityKg c db)
      as (db' & check & s & Hrun & Hslot & Hcap & Hfor & Hadd).
    destruct (checkCrateAvailability_run db' cropType cratesNeeded c)
      as (crate & Hcrate & Havail).
    rewrite (slotsAdded_cratesPass _ _ _ _ _ _ _ Hadd) in Havail.
    assert (Hsub : forall i, In i [DropPoint.id (point c)] ->
                             In i (idsOf (c :: rest))).
    { intros i [<-|[]]. left. reflexivity. }
    assert (Hsub' : forall i, In i (idsOf rest) -> In i (idsOf (c :: rest))).
    { intros i Hi. right. exact Hi. }
    assert (Hskip :
      feasible db date cropType quantityKg cratesNeeded c = false ->
      scanCandidates date cropType quantityKg cratesNeeded rest db'
      = scanCandidates date cropType quantityKg cratesNeeded (c :: rest) db).
    { unfold feasible. rewrite <- Hcap, <- Havail. intros Hf.
      simpl. unfold bind at 1. rewrite Hrun.
      destruct (hasCapacity check); simpl; [|reflexivity].
      unfold bind at 1. rewrite Hcrate. simpl in Hf. rewrite Hf. reflexivity. }
    simpl List.find.
    destruct (feasible db date cropType quantityKg cratesNeeded c) eqn:Hf.
    + exists db'. split.
      * eapply slotsAdded_trans; [exact Hsub | exact Hsub' | exact Hadd
                                 | apply slotsAdded_refl].
      * exists s. split; [exact Hfor|].
        unfold feasible in Hf. rewrite <- Hcap, <- Havail in Hf.
        apply andb_prop in Hf as [Hc Ha].
        simpl. unfold bind at 1. rewrite Hrun, Hc. simpl.
        unfold bind at 1. rewrite Hcrate, Ha. simpl.
        unfold ret, slotIdOf. rewrite Hslot. reflexivity.
    + destruct (IH db') as (db1 & Hadd1 & Hres).
      exists db1. split.
      * eapply slotsAdded_trans; [exact Hsub | exact Hsub' | exact Hadd
                                 | exact Hadd1].
      * rewrite <- (Hskip eq_refl).
        erewrite find_ext in Hres; [exact Hres|].
        intros x _. apply (slotsAdded_feasible _ _ _ _ _ _ _ _ _ Hadd).
Qed.

(* ====================================================================== *)
(** * Running [assignDropPoint] *)
(* ====================================================================== *)

(** Step 5: the increment is applied to the row whose id is in hand,
    unless that id is 0; it cannot fail for a slot of the table. *)
Lemma reserve_run db s kg :
  In s (timeSlotCapacities db) ->
  (if truthy (Some (TimeSlotCapacity.id s))
   then let* _ := reserveCapacity (TimeSlotCapacity.id s) kg in ret tt
   else ret tt) db
  = (reserved db s kg, Ok tt).
Proof.
  intros Hin. unfold reserved, truthy.
  destruct (TimeSlotCapacity.id s =? 0); simpl; [reflexivity|].
  unfold bind, reserveCapacity, Prisma.timeSlotCapacity_update_increment.
  destruct (List.find _ (timeSlotCapacities db)) as [s'|] eqn:Hfind.
  - reflexivity.
  - apply find_none with (x := s) in Hfind; [|exact Hin].
    simpl in Hfind. rewrite Z.eqb_refl in Hfind. discriminate.
Qed.

(** Steps 6 and 7 and the return value. *)
Lemma persist_run db now input chosen :
  (let* assignment :=
     createAssignment
       {| ca_listingId := listingId input;
          ca_dropPointId := DropPoint.id (point chosen);
          ca_farmerId := farmerId input;
          ca_farmerLocation := farmerLocation input;
          ca_distanceKm := distanceKm chosen;
          ca_pickupWindowStart :=
            setHours (dateOf now input) DEFAULT_TIME_SLOT_START_HOUR 0 0 0;
          ca_pickupWindowEnd :=
            setHours (dateOf now input)
              (DEFAULT_TIME_SLOT_START_HOUR + DEFAULT_TIME_SLOT_DURATION_HOURS)
              0 0 0;
          ca_cratesNeeded := cratesNeededFor (quantityKg input) |} in
   ret {| assignment := assignment;
          dropPoint := publicFields (point chosen) (distanceKm chosen);
          pickupWindow :=
            {| start :=
                 setHours (dateOf now input) DEFAULT_TIME_SLOT_START_HOUR 0 0 0;
               end_ :=
                 setHours (dateOf now input)
                   (DEFAULT_TIME_SLOT_START_HOUR
                    + DEFAULT_TIME_SLOT_DURATION_HOURS) 0 0 0 |};
          cratesNeeded := cratesNeededFor (quantityKg input) |}) db
  = persisted db now input chosen.
Proof.
  unfold persisted, bind, createAssignment, Prisma.dropPointAssignment_create.
  simpl.
  destruct (List.find _ (dropPointAssignments db)); reflexivity.
Qed.

Section AssignDropPoint.

Variable calculateHaversineDistance : GeoLocation -> GeoLocation -> Q.

Local Abbreviation haversine := calculateHaversineDistance.

(** Candidate retrieval is a query. *)
Lemma findNearby_query location radiusKm limit includeInactive db :
  exists cands,
    findNearby haversine location radiusKm limit includeInactive db
    = (db, Ok cands).
Proof.
  unfold findNearby, bind, Prisma.dropPoint_findMany, query, ret.
  eexists. reflexivity.
Qed.

(** Whatever the candidates are worth, the call goes through the same
    three steps: default slots are created while scanning, the slot of
    the chosen point is incremented, the assignment row is written.  The
    chosen point is the first feasible candidate, or the first candidate
    when none is feasible. *)
Lemma assignDropPoint_run now input db c0 rest :
  snd (findNearby haversine (farmerLocation input) DEFAULT_SEARCH_RADIUS_KM
         20 false db)
  = Ok (c0 :: rest) ->
  let chosen := default c0 (List.find (feasibleFor db now input) (c0 :: rest)) in
  exists db1 s,
    slotsAdded (dateOf now input) (idsOf (c0 :: rest)) db db1
    /\ slotFor db1 (DropPoint.id (point chosen)) (dateOf now input) = Some s
    /\ assignDropPoint haversine now input db
       = persisted (reserved db1 s (quantityKg input)) now input chosen.
Proof.
  intros Hnear chosen.
  destruct (findNearby_query (farmerLocation input) DEFAULT_SEARCH_RADIUS_KM
              20 false db) as (cands & Hq).
  rewrite Hq in Hnear. simpl in Hnear. injection Hnear as ->.
  destruct (scanCandidates_run (dateOf now input) (cropType input)
              (quantityKg input) (cratesNeededFor (quantityKg input))
              (c0 :: rest) db) as (db1 & Hadd & Hscan).
  change (List.find (feasible db _ _ _ _) (c0 :: rest))
    with (List.find (feasibleFor db now input) (c0 :: rest)) in Hscan.
  unfold assignDropPoint.
  fold (dateOf now input).
  unfold bind at 1. rewrite Hq.
  subst chosen.
  destruct (List.find (feasibleFor db now input) (c0 :: rest)) as [c|] eqn:Hfind.
  - destruct Hscan as (s & Hfor & Hscan).
    exists db1, s. split; [exact Hadd|]. split; [exact Hfor|].
    unfold bind at 1. rewrite Hscan. cbn [fst snd].
    unfold bind at 1. unfold ret at 1.
    unfold bind at 1. cbn [fst snd default].
    rewrite reserve_run by (apply find_some in Hfor as [Hin _]; exact Hin).
    apply persist_run.
  - destruct (checkSlotCapacity_run (dateOf now input) (quantityKg input) c0 db1)
      as (db2 & check & s & Hrun & Hslot & _ & Hfor & Hadd2).
    exists db2, s. split.
    { eapply slotsAdded_trans; [| |exact Hadd|exact Hadd2]; [auto|].
      intros i [<-|[]]. left. reflexivity. }
    split; [exact Hfor|].
    unfold bind at 1. rewrite Hscan. cbn [fst snd].
    unfold bind at 1. unfold bind at 1. rewrite Hrun.
    unfold ret at 1. cbn [fst snd]. unfold slotIdOf. rewrite Hslot.
    cbn [fmap option_fmap option_map].
    unfold bind at 1. cbn [fst snd default].
    rewrite reserve_run by (apply find_some in Hfor as [Hin _]; exact Hin).
    apply persist_run.
Qed.

End AssignDropPoint.

(* ====================================================================== *)
(** * Candidates come nearest first *)
(* ====================================================================== *)

Lemma round2_mono (x y : Q) : (x <= y)%Q -> (round2 x <= round2 y)%Q.
Proof.
  intros H. unfold round2, Qdiv.
  apply Qmult_le_compat_r; [|discriminate].
  rewrite <- Zle_Qle. apply Qfloor_resp_le.
  apply Qplus_le_compat; [|apply Qle_refl].
  apply Qmult_le_compat_r; [exact H | discriminate].
Qed.

Section Sorting.

Variable calculateHaversineDistance : GeoLocation -> GeoLocation -> Q.

Lemma Forall_insertByDistance (P : DropPointWithDistance -> Prop) x l :
  P x -> Forall P l -> Forall P (insertByDistance x l).
Proof.
  intros Hx. induction 1 as [|y l Hy Hl IH]; simpl.
  - constructor; [exact Hx | constructor].
  - destruct (Qle_bool (distanceKm x) (distanceKm y)).
    + constructor; [exact Hx|]. constructor; assumption.
    + constructor; assumption.
Qed.

Lemma insertByDistance_sorted x l :
  StronglySorted nearerOrEqual l ->
  StronglySorted nearerOrEqual (insertByDistance x l).
Proof.
  induction 1 as [|y l Hl IH Hy]; simpl.
  - constructor; constructor.
  - destruct (Qle_bool (distanceKm x) (distanceKm y)) eqn:Hxy.
    + apply Qle_bool_iff in Hxy.
      constructor; [constructor; assumption|].
      constructor; [exact Hxy|].
      eapply Forall_impl; [exact Hy|].
      intros z Hz. unfold nearerOrEqual in *. eapply Qle_trans; eassumption.
    + constructor; [exact IH|].
      apply Forall_insertByDistance; [|exact Hy].
      unfold nearerOrEqual. apply Qlt_le_weak, Qnot_le_lt.
      intros Hle. apply Qle_bool_iff in Hle. congruence.
Qed.

Lemma sortByDistance_sorted l : StronglySorted nearerOrEqual (sortByDistance l).
Proof.
  induction l as [|x l IH]; simpl; [constructor|].
  apply insertByDistance_sorted, IH.
Qed.

Lemma take_sorted n (l : list DropPointWithDistance) :
  StronglySorted nearerOrEqual l -> StronglySorted nearerOrEqual (firstn n l).
Proof.
  intros H. revert n. induction H as [|x l Hl IH Hx]; intros [|n]; simpl;
    try constructor.
  - apply IH.
  - apply Forall_take. exact Hx.
Qed.

Lemma roundDistance_sorted l :
  StronglySorted nearerOrEqual l ->
  StronglySorted nearerOrEqual (List.map roundDistance l).
Proof.
  induction 1 as [|x l Hl IH Hx]; simpl; constructor; [exact IH|].
  apply Forall_map. eapply Forall_impl; [exact Hx|].
  intros y Hy. unfold nearerOrEqual in *. simpl. apply round2_mono, Hy.
Qed.

(** [findNearby] returns its candidates in ascending order of the
    distance it reports. *)
Lemma findNearby_sorted location radiusKm limit includeInactive db cands :
  snd (findNearby calculateHaversineDistance location radiusKm limit
         includeInactive db) = Ok cands ->
  StronglySorted nearerOrEqual cands.
Proof.
  unfold findNearby, bind, Prisma.dropPoint_findMany, query, ret. simpl.
  intros H. injection H as <-.
  apply roundDistance_sorted, take_sorted, sortByDistance_sorted.
Qed.

Lemma sorted_after before c after :
  StronglySorted nearerOrEqual (before ++ c :: after) ->
  Forall (nearerOrEqual c) after.
Proof.
  induction before as [|b before IH]; simpl; intros H.
  - apply StronglySorted_inv in H as [_ H]. exact H.
  - apply StronglySorted_inv in H as [H _]. apply IH, H.
Qed.

End Sorting.

(* ====================================================================== *)
(** * Slot ids *)
(* ====================================================================== *)

Lemma distinct_NoDup (l : list Z) : distinct l = true <-> NoDup l.
Proof.
  induction l as [|x l IH]; simpl.
  - split; [constructor | reflexivity].
  - rewrite andb_true_iff, negb_true_iff, IH, NoDup_cons.
    apply and_iff_compat_r.
    split.
    + intros Hx Hin. apply list_elem_of_In in Hin.
      assert (existsb (Z.eqb x) l = true) as E; [|congruence].
      apply existsb_exists. exists x. split; [exact Hin | apply Z.eqb_refl].
    + intros Hx. destruct (existsb (Z.eqb x) l) eqn:E; [|reflexivity].
      apply existsb_exists in E as (y & Hin & Hy). apply Z.eqb_eq in Hy as <-.
      exfalso. apply Hx, list_elem_of_In, Hin.
Qed.

Lemma slotIdsOk_spec db :
  slotIdsOk db = true
  <-> 0 < nextSlotId db
      /\ Forall (fun s => 0 < TimeSlotCapacity.id s < nextSlotId db)
                (timeSlotCapacities db)
      /\ NoDup (List.map TimeSlotCapacity.id (timeSlotCapacities db)).
Proof.
  unfold slotIdsOk.
  rewrite !andb_true_iff, Z.ltb_lt, distinct_NoDup, forallb_forall,
    List.Forall_forall.
  split.
  - intros [[H0 H] Hd]. repeat split; try assumption;
      apply H in H1; apply andb_prop in H1 as [Ha Hb]; lia.
  - intros (H0 & H & Hd). repeat split; try assumption.
    intros s Hs. apply H in Hs. apply andb_true_intro. split; lia.
Qed.

(** Slots created on the way take fresh ids. *)
Lemma slotsAdded_slotIdsOk date ids db db' :
  slotsAdded date ids db db' -> slotIdsOk db = true -> slotIdsOk db' = true.
Proof.
  intros (_ & _ & _ & extra & E & _ & I & L).
  rewrite !slotIdsOk_spec. intros (H0 & H & Hd).
  rewrite E, L, map_app, I. repeat split.
  - lia.
  - apply Forall_app. split.
    + eapply Forall_impl; [exact H|]. simpl. intros s Hs. lia.
    + apply List.Forall_forall. intros s Hs.
      assert (TimeSlotCapacity.id s ∈ seqZ (nextSlotId db) (Z.of_nat (length extra)))
        as Hin.
      { rewrite <- I. apply list_elem_of_In, in_map, Hs. }
      apply elem_of_seqZ in Hin. lia.
  - apply NoDup_app. split; [exact Hd|]. split; [|apply NoDup_seqZ].
    intros x Hx Hx'. apply elem_of_seqZ in Hx'.
    apply list_elem_of_In, in_map_iff in Hx as (s & <- & Hs).
    rewrite List.Forall_forall in H. apply H in Hs. lia.
Qed.

(** With distinct ids, the row a slot id designates is the slot. *)
Lemma slotIdsOk_designates db dropPointId date s (f : TimeSlotCapacity.t -> TimeSlotCapacity.t) :
  slotIdsOk db = true ->
  slotFor db dropPointId date = Some s ->
  TimeSlotCapacity.id s <> 0
  /\ exists pre post,
       timeSlotCapacities db = pre ++ s :: post
       /\ Prisma.updateFirst
            (fun x => TimeSlotCapacity.id x =? TimeSlotCapacity.id s) f
            (timeSlotCapacities db)
          = pre ++ f s :: post.
Proof.
  rewrite slotIdsOk_spec. intros (_ & H & Hd) Hfor.
  unfold slotFor in Hfor.
  destruct (find_split _ _ _ Hfor) as (pre & post & E & _ & _).
  rewrite E in H, Hd |- *. split.
  - apply Forall_app in H as [_ H]. apply Forall_cons in H as [H _]. lia.
  - exists pre, post. split; [reflexivity|].
    apply updateFirst_first; [|apply Z.eqb_refl].
    apply List.Forall_forall. intros y Hy. apply Z.eqb_neq. intros Heq.
    rewrite map_app in Hd. simpl in Hd.
    apply NoDup_app in Hd as (_ & Hd & _).
    apply (Hd (TimeSlotCapacity.id y)).
    + apply list_elem_of_In, in_map, Hy.
    + rewrite Heq. left.
Qed.

(** Under distinct positive ids the reservation increments exactly the
    slot in hand. *)
Lemma reserved_exact db dropPointId date s kg :
  slotIdsOk db = true ->
  slotFor db dropPointId date = Some s ->
  exists pre post,
    timeSlotCapacities db = pre ++ s :: post
    /\ reserved db s kg
       = withSlots db (pre ++ Prisma.incrementUsed kg s :: post) (nextSlotId db).
Proof.
  intros Hok Hfor.
  destruct (slotIdsOk_designates db dropPointId date s
              (Prisma.incrementUsed kg) Hok Hfor) as (Hid & pre & post & E & U).
  exists pre, post. split; [exact E|].
  unfold reserved. apply Z.eqb_neq in Hid. rewrite Hid, U. reflexivity.
Qed.

(* ====================================================================== *)
(** * Outcomes of [assignDropPoint] *)
(* ====================================================================== *)

Lemma reserved_frame db s kg :
  dropPoints (reserved db s kg) = dropPoints db
  /\ dropPointAssignments (reserved db s kg) = dropPointAssignments db
  /\ nextAssignmentId (reserved db s kg) = nextAssignmentId db
  /\ nextSlotId (reserved db s kg) = nextSlotId db.
Proof.
  unfold reserved. destruct (TimeSlotCapacity.id s =? 0); simpl; auto.
Qed.

Section Outcomes.

Variable calculateHaversineDistance : GeoLocation -> GeoLocation -> Q.

Local Abbreviation haversine := calculateHaversineDistance.

Lemma assignDropPoint_empty now input db :
  snd (findNearby haversine (farmerLocation input) DEFAULT_SEARCH_RADIUS_KM
         20 false db) = Ok [] ->
  assignDropPoint haversine now input db
  = (db, Throw (DropPointAssignmentError NO_DROP_POINTS)).
Proof.
  intros Hnear.
  destruct (findNearby_query haversine (farmerLocation input)
              DEFAULT_SEARCH_RADIUS_KM 20 false db) as (cands & Hq).
  rewrite Hq in Hnear. simpl in Hnear. injection Hnear as ->.
  unfold assignDropPoint, bind at 1. rewrite Hq. reflexivity.
Qed.

(** A call that returns went through a non-empty candidate list for a
    listing that had no assignment, and its effects and result are
    these. *)
Lemma assignDropPoint_Ok now input db db' r :
  assignDropPoint haversine now input db = (db', Ok r) ->
  exists c0 rest db1 s,
    let chosen :=
      default c0 (List.find (feasibleFor db now input) (c0 :: rest)) in
    let a := assignmentRow (nextAssignmentId db) now input chosen in
    snd (findNearby haversine (farmerLocation input) DEFAULT_SEARCH_RADIUS_KM
           20 false db) = Ok (c0 :: rest)
    /\ slotsAdded (dateOf now input) (idsOf (c0 :: rest)) db db1
    /\ slotFor db1 (DropPoint.id (point chosen)) (dateOf now input) = Some s
    /\ List.find (Prisma.forListing (listingId input)) (dropPointAssignments db)
       = None
    /\ r = resultFor a now input chosen
    /\ db' = withAssignments (reserved db1 s (quantityKg input))
               (dropPointAssignments db ++ [a]) (nextAssignmentId db + 1).
Proof.
  intros Hrun.
  destruct (findNearby_query haversine (farmerLocation input)
              DEFAULT_SEARCH_RADIUS_KM 20 false db) as ([|c0 rest] & Hq).
  - rewrite assignDropPoint_empty in Hrun by (rewrite Hq; reflexivity).
    discriminate.
  - destruct (assignDropPoint_run haversine now input db c0 rest)
      as (db1 & s & Hadd & Hfor & Heq); [rewrite Hq; reflexivity|].
    exists c0, rest, db1, s. cbv zeta.
    rewrite Heq in Hrun. unfold persisted in Hrun.
    destruct (reserved_frame db1 s (quantityKg input)) as (_ & RA & RN & _).
    destruct Hadd as (P & A & N & E).
    rewrite RA, RN, A, N in Hrun.
    destruct (List.find _ (dropPointAssignments db)); [discriminate|].
    injection Hrun as <- <-.
    rewrite Hq. repeat split; try assumption; reflexivity.
Qed.

(** A call on a non-empty candidate list for a listing without an
    assignment returns. *)
Lemma assignDropPoint_returns now input db c0 rest :
  snd (findNearby haversine (farmerLocation input) DEFAULT_SEARCH_RADIUS_KM
         20 false db) = Ok (c0 :: rest) ->
  List.find (Prisma.forListing (listingId input)) (dropPointAssignments db)
  = None ->
  exists db' r, assignDropPoint haversine now input db = (db', Ok r).
Proof.
  intros Hnear Hnew.
  destruct (assignDropPoint_run haversine now input db c0 rest Hnear)
    as (db1 & s & (_ & A & _) & _ & Heq).
  rewrite Heq. unfold persisted.
  destruct (reserved_frame db1 s (quantityKg input)) as (_ & -> & _).
  rewrite A, Hnew. eexists. eexists. reflexivity.
Qed.

End Outcomes.

(* ====================================================================== *)
(** * C4: crates needed *)
(* ====================================================================== *)

Lemma cratesNeededFor_eq quantityKg :
  cratesNeededFor quantityKg = - ((- quantityKg) / 50).
Proof.
  unfold cratesNeededFor, ceilDiv, CRATES_PER_50KG, Qceiling, Qfloor.
  simpl. rewrite !Z.mul_1_r. reflexivity.
Qed.

(** [cratesNeededFor q] is the ceiling of [q / 50], for every integer
    [q]: the least [n] with [q <= 50 * n]. *)
Lemma cratesNeededFor_ceiling quantityKg :
  50 * (cratesNeededFor quantityKg - 1) < quantityKg
  <= 50 * cratesNeededFor quantityKg.
Proof.
  rewrite cratesNeededFor_eq.
  pose proof (Z.div_mod (- quantityKg) 50 ltac:(lia)) as Hdm.
  pose proof (Z.mod_pos_bound (- quantityKg) 50 ltac:(lia)) as Hb.
  lia.
Qed.

Lemma cratesNeededFor_examples :
  cratesNeededFor 1 = 1 /\ cratesNeededFor 50 = 1
  /\ cratesNeededFor 51 = 2 /\ cratesNeededFor 100 = 2.
Proof. repeat split. Qed.

(** The number a call returns and stores is [cratesNeededFor] of the
    request's quantity. *)
Lemma assignDropPoint_cratesNeeded haversine now input db db' r :
  assignDropPoint haversine now input db = (db', Ok r) ->
  cratesNeeded r = cratesNeededFor (quantityKg input)
  /\ DropPointAssignment.cratesNeeded (assignment r)
     = cratesNeededFor (quantityKg input).
Proof.
  intros H. apply assignDropPoint_Ok in H
    as (c0 & rest & db1 & s & _ & _ & _ & _ & -> & _).
  split; reflexivity.
Qed.

(** C4 (code bug): the crates needed have no minimum.  For a whole
    number of kilograms from 0 to below 2^53 (where the division of the
    code is exact enough, see [cratesNeededFor]), a call that returns
    reports and stores the ceiling of quantity / 50, the integer [n]
    with [50 * (n - 1) < q <= 50 * n]; this is at least 1 exactly when
    the quantity is at least 1, and a request for 0 kg is served with 0
    crates. *)
Theorem crates_needed_no_minimum haversine now input db db' r :
  0 <= quantityKg input < 2 ^ 53 ->
  assignDropPoint haversine now input db = (db', Ok r) ->
  50 * (cratesNeeded r - 1) < quantityKg input <= 50 * cratesNeeded r
  /\ DropPointAssignment.cratesNeeded (assignment r) = cratesNeeded r
  /\ (1 <= cratesNeeded r <-> 1 <= quantityKg input)
  /\ (quantityKg input = 0 -> cratesNeeded r = 0).
Proof.
  intros Hq Hrun.
  apply assignDropPoint_cratesNeeded in Hrun as (-> & ->).
  pose proof (cratesNeededFor_ceiling (quantityKg input)) as H.
  split; [exact H|]. split; [reflexivity|]. split; [lia|].
  intros H0. rewrite H0. reflexivity.
Qed.

Lemma crates_needed_no_minimum_witness :
  exists db' r,
    assignDropPoint Example.planar Example.mondayNoon (Example.request 7 0)
      Example.db2 = (db', Ok r)
    /\ quantityKg (Example.request 7 0) = 0
    /\ cratesNeeded r = 0
    /\ DropPointAssignment.cratesNeeded (assignment r) = 0
    /\ ~ (1 <= cratesNeeded r).
Proof.
  eexists. eexists. split; [vm_compute; reflexivity|].
  destruct (crates_needed_no_minimum Example.planar Example.mondayNoon
              (Example.request 7 0) Example.db2 _ _ ltac:(simpl; lia) eq_refl)
    as (_ & Hstored & Hmin & Hzero).
  split; [reflexivity|]. split; [exact (Hzero eq_refl)|].
  split; [exact (eq_trans Hstored (Hzero eq_refl))|].
  intros H. apply Hmin in H. change (1 <= 0) in H. lia.
Defined.

(* ====================================================================== *)
(** * C6: no candidates *)
(* ====================================================================== *)

(** C6: when the retrieval of active points within 20 km (at most 20 of
    them) finds none, [assignDropPoint] throws the error with code
    [NO_DROP_POINTS] at once and the database is as it was. *)
Theorem no_drop_points haversine now input db :
  snd (findNearby haversine (farmerLocation input) DEFAULT_SEARCH_RADIUS_KM
         20 false db) = Ok [] ->
  assignDropPoint haversine now input db
  = (db, Throw (DropPointAssignmentError NO_DROP_POINTS)).
Proof. apply assignDropPoint_empty. Qed.

Lemma no_drop_points_witness :
  snd (findNearby Example.planar (farmerLocation (Example.request 7 120))
         DEFAULT_SEARCH_RADIUS_KM 20 false (Example.emptyDb [])) = Ok []
  /\ assignDropPoint Example.planar Example.mondayNoon (Example.request 7 120)
       (Example.emptyDb [])
     = (Example.emptyDb [], Throw (DropPointAssignmentError NO_DROP_POINTS)).
Proof.
  split; [reflexivity|]. apply no_drop_points. reflexivity.
Defined.

(** The error is thrown only then. *)
Lemma no_drop_points_only_then haversine now input db db' :
  assignDropPoint haversine now input db
  = (db', Throw (DropPointAssignmentError NO_DROP_POINTS)) ->
  snd (findNearby haversine (farmerLocation input) DEFAULT_SEARCH_RADIUS_KM
         20 false db) = Ok [].
Proof.
  intros Hrun.
  destruct (findNearby_query haversine (farmerLocation input)
              DEFAULT_SEARCH_RADIUS_KM 20 false db) as ([|c0 rest] & Hq);
    rewrite Hq; [reflexivity|].
  destruct (assignDropPoint_run haversine now input db c0 rest)
    as (db1 & s & _ & _ & Heq); [rewrite Hq; reflexivity|].
  rewrite Heq in Hrun. unfold persisted in Hrun.
  destruct (List.find _ _); discriminate.
Qed.

(* ====================================================================== *)
(** * C9: the pickup window *)
(* ====================================================================== *)

(** [setHours(h, 0, 0, 0)] keeps the day and sets the time of day. *)
Lemma setHours_fields (d : Date) (h : Z) :
  0 <= h < 24 ->
  Day (setHours d h 0 0 0) = Day d
  /\ getHours (setHours d h 0 0 0) = h
  /\ getMinutes (setHours d h 0 0 0) = 0
  /\ getSeconds (setHours d h 0 0 0) = 0
  /\ getMilliseconds (setHours d h 0 0 0) = 0.
Proof.
  intros Hh.
  unfold getHours, getMinutes, getSeconds, getMilliseconds, HourFromTime,
    MinFromTime, SecFromTime, msFromTime, setHours, MakeDate, MakeTime, Day,
    msPerDay, msPerHour, msPerMinute, msPerSecond.
  repeat split; Z.div_mod_to_equations; lia.
Qed.

(** C9: in every call that returns, the pickup window starts on the day
    of the preferred date at 07:00:00.000 and ends on that day at
    09:00:00.000, two hours later on the clock; the stored assignment
    carries the same window. *)
Theorem pickup_window haversine now input db db' r :
  assignDropPoint haversine now input db = (db', Ok r) ->
  let date := dateOf now input in
  let w := pickupWindow r in
  (Day (start w) = Day date
   /\ getHours (start w) = 7 /\ getMinutes (start w) = 0
   /\ getSeconds (start w) = 0 /\ getMilliseconds (start w) = 0)
  /\ (Day (end_ w) = Day date
      /\ getHours (end_ w) = 9 /\ getMinutes (end_ w) = 0
      /\ getSeconds (end_ w) = 0 /\ getMilliseconds (end_ w) = 0)
  /\ end_ w - start w = 2 * msPerHour
  /\ DropPointAssignment.pickupWindowStart (assignment r) = start w
  /\ DropPointAssignment.pickupWindowEnd (assignment r) = end_ w.
Proof.
  intros H. apply assignDropPoint_Ok in H
    as (c0 & rest & db1 & s & _ & _ & _ & _ & -> & _).
  cbv zeta. unfold resultFor, assignmentRow. cbn [pickupWindow start end_
    assignment DropPointAssignment.pickupWindowStart
    DropPointAssignment.pickupWindowEnd].
  split; [apply setHours_fields; lia|].
  split; [apply setHours_fields; lia|].
  split; [|split; reflexivity].
  unfold setHours, MakeDate, MakeTime, msPerHour, msPerMinute, msPerSecond. lia.
Qed.

Lemma pickup_window_witness :
  let run :=
    assignDropPoint Example.planar Example.mondayNoon (Example.request 7 120)
      Example.db2 in
  exists r,
    snd run = Ok r
    /\ getHours (start (pickupWindow r)) = 7
    /\ getHours (end_ (pickupWindow r)) = 9
    /\ end_ (pickupWindow r) - start (pickupWindow r) = 2 * msPerHour.
Proof.
  eexists. split; [reflexivity|].
  pose proof (pickup_window Example.planar Example.mondayNoon
                (Example.request 7 120) Example.db2 _ _ eq_refl) as H.
  cbv zeta in H. destruct H as ((_ & H7 & _) & (_ & H9 & _) & Hspan & _).
  split; [exact H7|]. split; [exact H9 | exact Hspan].
Defined.

(** Without a preferred date the window is on the next business day:
    tomorrow, or the day after when tomorrow is a Sunday. *)
Lemma getNextBusinessDay_day now :
  Day (getNextBusinessDay now)
  = if (Day now + 1 + 4) mod 7 =? 0 then Day now + 2 else Day now + 1.
Proof.
  unfold getNextBusinessDay, getDay, WeekDay.
  assert (Hd : Day (setHours (addDate now 1) 0 0 0 0) = Day now + 1).
  { unfold setHours, addDate, MakeDate, MakeTime, Day, TimeWithinDay, msPerDay,
      msPerHour, msPerMinute, msPerSecond.
    Z.div_mod_to_equations; lia. }
  rewrite Hd. destruct ((Day now + 1 + 4) mod 7 =? 0); [|exact Hd].
  unfold addDate, setHours, MakeDate, MakeTime, Day, TimeWithinDay, msPerDay,
    msPerHour, msPerMinute, msPerSecond.
  Z.div_mod_to_equations; lia.
Qed.

(* ====================================================================== *)
(** * C1: the first feasible candidate wins *)
(* ====================================================================== *)

(** The two checks, as the repository computes them on the database the
    call starts from. *)
Lemma checkSlotCapacity_hasCapacity date quantityKg c db :
  exists db' check,
    checkSlotCapacity (DropPoint.id (point c)) date
      DEFAULT_TIME_SLOT_START_HOUR quantityKg db = (db', Ok check)
    /\ hasCapacity check = capacityPasses db date quantityKg c.
Proof.
  destruct (checkSlotCapacity_run date quantityKg c db)
    as (db' & check & s & H & _ & Hc & _).
  exists db', check. split; assumption.
Qed.

(** C1: when the candidates, in the order [findNearby] returns them, are
    [before ++ c :: after], no candidate of [before] passes both the
    capacity check (head room of its slot on the preferred date at hour
    7 at least the quantity) and the crate check (count for the
    lower-cased crop type, 0 when the crop is absent, at least the
    crates needed), and [c] passes both, then the call assigns [c]: the
    returned drop point and the stored assignment are [c]'s, and no
    candidate that passes both checks is nearer than the one returned. *)
Theorem first_feasible_wins haversine now input db before c after :
  snd (findNearby haversine (farmerLocation input) DEFAULT_SEARCH_RADIUS_KM
         20 false db) = Ok (before ++ c :: after) ->
  Forall (fun d => feasibleFor db now input d = false) before ->
  feasibleFor db now input c = true ->
  List.find (Prisma.forListing (listingId input)) (dropPointAssignments db)
  = None ->
  exists db' r,
    assignDropPoint haversine now input db = (db', Ok r)
    /\ dropPoint r = publicFields (point c) (distanceKm c)
    /\ DropPointAssignment.dropPointId (assignment r) = DropPoint.id (point c)
    /\ DropPointAssignment.status (assignment r) = ASSIGNED
    /\ Forall (fun d => feasibleFor db now input d = true ->
                        (dp_distanceKm (dropPoint r) <= distanceKm d)%Q)
              (before ++ c :: after).
Proof.
  intros Hnear Hbefore Hc Hnew.
  assert (exists c0 rest, before ++ c :: after = c0 :: rest) as (c0 & rest & E).
  { destruct before; simpl; eauto. }
  rewrite E in Hnear.
  destruct (assignDropPoint_returns haversine now input db c0 rest Hnear Hnew)
    as (db' & r & Hrun).
  exists db', r. split; [exact Hrun|].
  apply assignDropPoint_Ok in Hrun
    as (c1 & rest1 & db1 & s & Hnear1 & _ & _ & _ & -> & _).
  rewrite Hnear in Hnear1. injection Hnear1 as <- <-.
  rewrite <- E, (find_first _ _ _ _ Hbefore Hc). simpl.
  repeat split.
  apply findNearby_sorted in Hnear. rewrite <- E in Hnear.
  apply Forall_app. split; [|constructor].
  - eapply Forall_impl; [exact Hbefore|]. simpl. intros d Hd Hd'. congruence.
  - intros _. apply Qle_refl.
  - apply sorted_after in Hnear.
    eapply Forall_impl; [exact Hnear|]. intros d Hd _. exact Hd.
Qed.

Lemma first_feasible_wins_witness :
  let before := [Example.candidate Example.malur (50 # 100)] in
  let c := Example.candidate Example.kolarMain (100 # 100) in
  let after := [Example.candidate Example.bangarpet (300 # 100)] in
  let input := Example.request 7 120 in
  exists db' r,
    assignDropPoint Example.planar Example.mondayNoon input Example.db3
    = (db', Ok r)
    /\ dropPoint r = publicFields (point c) (distanceKm c)
    /\ DropPointAssignment.dropPointId (assignment r) = DropPoint.id (point c)
    /\ DropPointAssignment.status (assignment r) = ASSIGNED
    /\ Forall (fun d => feasibleFor Example.db3 Example.mondayNoon input d = true ->
                        (dp_distanceKm (dropPoint r) <= distanceKm d)%Q)
              (before ++ c :: after).
Proof.
  cbv zeta. apply first_feasible_wins.
  - reflexivity.
  - constructor; [reflexivity | constructor].
  - reflexivity.
  - reflexivity.
Defined.

(* ====================================================================== *)
(** * Slots after the reservation *)
(* ====================================================================== *)

Lemma find_updateFirst {A} (p q : A -> bool) (f : A -> A) l x :
  (forall y, p (f y) = p y) ->
  List.find p l = Some x ->
  exists x', List.find p (Prisma.updateFirst q f l) = Some x'.
Proof.
  intros Hf. induction l as [|y l IH]; simpl; intros H; [discriminate|].
  destruct (q y); simpl.
  - rewrite Hf. destruct (p y); eauto.
  - destruct (p y); eauto.
Qed.

Lemma reserved_slotFor db s kg dropPointId date x :
  slotFor db dropPointId date = Some x ->
  exists x', slotFor (reserved db s kg) dropPointId date = Some x'.
Proof.
  unfold reserved, slotFor. intros H.
  destruct (TimeSlotCapacity.id s =? 0); simpl; [eauto|].
  eapply find_updateFirst; [|exact H]. intros y. reflexivity.
Qed.

(* ====================================================================== *)
(** * C3: what the scan writes *)
(* ====================================================================== *)

(** C3 (as the code has it): in every call of [assignDropPoint], slot ids
    being positive and distinct, the candidate scan only appends default
    slots (capacity 1000, nothing used) for candidates on the preferred
    date, under fresh ids, and changes no drop point, no assignment and
    no existing slot.  Over the whole call the drop points are unchanged;
    with no candidate nothing is written; otherwise the slot table ends
    as the one with the lazily created slots in which one row has
    [usedCapacityKg] raised by the quantity; and the assignment table is
    unchanged or, when the call returns, has the returned assignment
    appended. *)
Theorem scan_writes_default_slots_only haversine now input db db' res :
  slotIdsOk db = true ->
  assignDropPoint haversine now input db = (db', res) ->
  exists cands,
    snd (findNearby haversine (farmerLocation input) DEFAULT_SEARCH_RADIUS_KM
           20 false db) = Ok cands
    /\ (forall dbs found,
          scanCandidates (dateOf now input) (cropType input) (quantityKg input)
            (cratesNeededFor (quantityKg input)) cands db = (dbs, found) ->
          slotsAdded (dateOf now input) (idsOf cands) db dbs)
    /\ dropPoints db' = dropPoints db
    /\ (cands = [] -> db' = db)
    /\ (cands <> [] ->
        exists db1 pre s post,
          slotsAdded (dateOf now input) (idsOf cands) db db1
          /\ timeSlotCapacities db1 = pre ++ s :: post
          /\ timeSlotCapacities db'
             = pre ++ Prisma.incrementUsed (quantityKg input) s :: post)
    /\ (dropPointAssignments db' = dropPointAssignments db
        \/ exists r,
             res = Ok r
             /\ dropPointAssignments db'
                = dropPointAssignments db ++ [assignment r]).
Proof.
  intros Hok Hrun.
  destruct (findNearby_query haversine (farmerLocation input)
              DEFAULT_SEARCH_RADIUS_KM 20 false db) as (cands & Hq).
  exists cands. split; [rewrite Hq; reflexivity|]. split.
  { intros dbs found Hscan.
    destruct (scanCandidates_run (dateOf now input) (cropType input)
                (quantityKg input) (cratesNeededFor (quantityKg input))
                cands db) as (db1 & Hadd & Hres).
    destruct (List.find _ cands).
    - destruct Hres as (s & _ & Hres). rewrite Hres in Hscan.
      injection Hscan as <- _. exact Hadd.
    - rewrite Hres in Hscan. injection Hscan as <- _. exact Hadd. }
  destruct cands as [|c0 rest].
  - rewrite assignDropPoint_empty in Hrun by (rewrite Hq; reflexivity).
    injection Hrun as <- <-.
    split; [reflexivity|]. split; [reflexivity|].
    split; [intros []; reflexivity | left; reflexivity].
  - destruct (assignDropPoint_run haversine now input db c0 rest)
      as (db1 & s & Hadd & Hfor & Heq); [rewrite Hq; reflexivity|].
    rewrite Heq in Hrun.
    pose proof (slotsAdded_slotIdsOk _ _ _ _ Hadd Hok) as Hok1.
    destruct (reserved_exact db1 _ _ s (quantityKg input) Hok1 Hfor)
      as (pre & post & E & R).
    destruct (reserved_frame db1 s (quantityKg input)) as (RP & RA & _).
    pose proof Hadd as (P & A & _).
    assert (Hslots :
      timeSlotCapacities db'
      = pre ++ Prisma.incrementUsed (quantityKg input) s :: post
      /\ dropPoints db' = dropPoints db
      /\ (dropPointAssignments db' = dropPointAssignments db
          \/ exists r,
               res = Ok r
               /\ dropPointAssignments db'
                  = dropPointAssignments db ++ [assignment r])).
    { unfold persisted in Hrun.
      destruct (List.find _ _); injection Hrun as <- <-; simpl.
      - rewrite R at 1. simpl. rewrite RP, RA, P, A. auto.
      - rewrite R at 1. simpl. rewrite RP, RA, P, A.
        split; [reflexivity|]. split; [reflexivity|].
        right. eexists. split; reflexivity. }
    destruct Hslots as (Hs & Hp & Ha).
    split; [exact Hp|]. split; [discriminate|].
    split; [|exact Ha].
    intros _. exists db1, pre, s, post. auto.
Qed.

Lemma scan_writes_default_slots_only_witness :
  let input := Example.request 7 120 in
  let now := Example.mondayNoon in
  let db := Example.db3 in
  exists db' res,
    assignDropPoint Example.planar now input db = (db', res)
    /\ exists cands,
         snd (findNearby Example.planar (farmerLocation input)
                DEFAULT_SEARCH_RADIUS_KM 20 false db) = Ok cands
         /\ (forall dbs found,
               scanCandidates (dateOf now input) (cropType input)
                 (quantityKg input) (cratesNeededFor (quantityKg input))
                 cands db = (dbs, found) ->
               slotsAdded (dateOf now input) (idsOf cands) db dbs)
         /\ dropPoints db' = dropPoints db
         /\ (cands = [] -> db' = db)
         /\ (cands <> [] ->
             exists db1 pre s post,
               slotsAdded (dateOf now input) (idsOf cands) db db1
               /\ timeSlotCapacities db1 = pre ++ s :: post
               /\ timeSlotCapacities db'
                  = pre ++ Prisma.incrementUsed (quantityKg input) s :: post)
         /\ (dropPointAssignments db' = dropPointAssignments db
             \/ exists r,
                  res = Ok r
                  /\ dropPointAssignments db'
                     = dropPointAssignments db ++ [assignment r]).
Proof.
  cbv zeta. eexists. eexists. split; [vm_compute; reflexivity|].
  apply (scan_writes_default_slots_only Example.planar Example.mondayNoon
           (Example.request 7 120) Example.db3); reflexivity.
Defined.

(** C3, counterexample: with no slot in the table, scanning the three
    candidates of [Example.db3] for a tomato listing writes two slot
    rows before the loop is left, and both are there when the call is
    over, beside the increment and the assignment. *)
Lemma scan_creates_slots :
  let input := Example.request 7 120 in
  let date := dateOf Example.mondayNoon input in
  let cands :=
    [Example.candidate Example.malur (50 # 100);
     Example.candidate Example.kolarMain (100 # 100);
     Example.candidate Example.bangarpet (300 # 100)] in
  let scanned :=
    fst (scanCandidates date (cropType input) (quantityKg input)
           (cratesNeededFor (quantityKg input)) cands Example.db3) in
  snd (findNearby Example.planar (farmerLocation input)
         DEFAULT_SEARCH_RADIUS_KM 20 false Example.db3) = Ok cands
  /\ timeSlotCapacities Example.db3 = []
  /\ timeSlotCapacities scanned
     = [TimeSlotCapacity.mk 1 "dp-malur" date 7 9 1000 0;
        TimeSlotCapacity.mk 2 "dp-kolar" date 7 9 1000 0]
  /\ scanned <> Example.db3
  /\ timeSlotCapacities
       (fst (assignDropPoint Example.planar Example.mondayNoon input
               Example.db3))
     = [TimeSlotCapacity.mk 1 "dp-malur" date 7 9 1000 0;
        TimeSlotCapacity.mk 2 "dp-kolar" date 7 9 1000 120].
Proof.
  cbv zeta. split; [reflexivity|]. split; [reflexivity|].
  split; [reflexivity|]. split; [|reflexivity].
  intros H. apply (f_equal timeSlotCapacities) in H.
  vm_compute in H. discriminate.
Qed.

(* ====================================================================== *)
(** * C5: open or closed *)
(* ====================================================================== *)

(** The helper [isDropPointOpen], given the key of today's entry. *)
Lemma isDropPointOpen_no_table dayOfWeek now :
  isDropPointOpen None dayOfWeek now = false.
Proof. reflexivity. Qed.

Lemma isDropPointOpen_no_entry (table : gmap string Hours) dayOfWeek now :
  table !! dayOfWeek = None ->
  isDropPointOpen (Some table) dayOfWeek now = false.
Proof. intros H. unfold isDropPointOpen. rewrite H. reflexivity. Qed.

Lemma isDropPointOpen_sentinel (table : gmap string Hours) dayOfWeek now :
  table !! dayOfWeek = Some {| open := "00:00"; close := "00:00" |} ->
  isDropPointOpen (Some table) dayOfWeek now = false.
Proof. intros H. unfold isDropPointOpen. rewrite H. reflexivity. Qed.

Lemma isDropPointOpen_hours (table : gmap string Hours) dayOfWeek now h o c :
  table !! dayOfWeek = Some h ->
  String.eqb (open h) "00:00" && String.eqb (close h) "00:00" = false ->
  minuteOfDay (open h) = Some o ->
  minuteOfDay (close h) = Some c ->
  isDropPointOpen (Some table) dayOfWeek now = true
  <-> o <= getHours now * 60 + getMinutes now < c.
Proof.
  intros H Hs Ho Hc. unfold isDropPointOpen. rewrite H, Hs.
  unfold minuteOfDay in Ho, Hc. cbv zeta. rewrite Ho, Hc.
  unfold geNum, ltNum. rewrite andb_true_iff, Z.leb_le, Z.ltb_lt. reflexivity.
Qed.

(** A table entry 06:00 to 18:00 read under its own key: open at 12:00,
    closed at 19:00 and at 05:00. *)
Lemma isDropPointOpen_six_to_six :
  let table := DropPoint.operatingHours Example.kolarMain in
  isDropPointOpen table "monday" (Example.monday + 12 * msPerHour) = true
  /\ isDropPointOpen table "monday" (Example.monday + 19 * msPerHour) = false
  /\ isDropPointOpen table "monday" (Example.monday + 5 * msPerHour) = false.
Proof. repeat split. Qed.

(** ['lowercase'] is not a weekday style: the formatter throws, whatever
    the date. *)
Lemma weekday_lowercase_throws now :
  toLocaleDateString_weekday now "lowercase" = Throw RangeError.
Proof. reflexivity. Qed.

(** So [getNearbyDropPoints] never returns a list. *)
Lemma getNearbyDropPoints_throws haversine now location radiusKm db :
  getNearbyDropPoints haversine now location radiusKm db
  = (db, Throw RangeError).
Proof.
  unfold getNearbyDropPoints, bind.
  destruct (findNearby_query haversine location radiusKm 10 false db)
    as (cands & ->).
  reflexivity.
Qed.

(** The style ['long'] would give a capitalised name, which is no key of
    a table with lower-case day names. *)
Lemma weekday_long_is_capitalised :
  toLocaleDateString_weekday Example.mondayNoon "long" = Ok "Monday"%string
  /\ isDropPointOpen (DropPoint.operatingHours Example.kolarMain) "Monday"
       Example.mondayNoon = false.
Proof. split; reflexivity. Qed.

(** C5, at the failing input: Kolar Main is within the radius and its
    table, read under ["monday"], says open on Monday at 12:00; the
    query at that time returns no list but throws [RangeError]. *)
Theorem nearby_query_throws :
  Example.mondayNoon = Example.monday + 12 * msPerHour
  /\ getDay Example.mondayNoon = 1
  /\ In Example.kolarMain (dropPoints Example.db2)
  /\ isDropPointOpen (DropPoint.operatingHours Example.kolarMain) "monday"
       Example.mondayNoon = true
  /\ getNearbyDropPoints Example.planar Example.mondayNoon Example.farmer
       DEFAULT_SEARCH_RADIUS_KM Example.db2
     = (Example.db2, Throw RangeError).
Proof.
  split; [reflexivity|]. split; [reflexivity|].
  split; [right; left; reflexivity|]. split; reflexivity.
Qed.

(* ====================================================================== *)
(** * C7 and C8: reassignment *)
(* ====================================================================== *)

Lemma find_updateFirst_same {A} (p : A -> bool) (f : A -> A) l a :
  List.find p l = Some a -> p (f a) = true ->
  List.find p (Prisma.updateFirst p f l) = Some (f a).
Proof.
  induction l as [|y l IH]; simpl; intros H Hf; [discriminate|].
  destruct (p y) eqn:Hy; simpl.
  - injection H as ->. rewrite Hf. reflexivity.
  - rewrite Hy. apply IH; assumption.
Qed.


Lemma applyUpdate_reassignData a newDropPointId changeReason :
  applyUpdate (reassignData a newDropPointId changeReason) a
  = reassigned a newDropPointId changeReason.
Proof. reflexivity. Qed.

(** The three ways a reassignment goes, by what the two lookups find. *)
Lemma reassignDropPoint_run listingId newDropPointId changeReason db :
  reassignDropPoint listingId newDropPointId changeReason db
  = match snd (getAssignmentWithDropPoint listingId db) with
    | Ok (Some (a, _)) =>
        match snd (findById newDropPointId db) with
        | Ok (Some newDropPoint) =>
            (withAssignments db
               (Prisma.updateFirst (Prisma.forListing listingId)
                  (applyUpdate (reassignData a newDropPointId changeReason))
                  (dropPointAssignments db))
               (nextAssignmentId db),
             Ok {| assignment := reassigned a newDropPointId changeReason;
                   dropPoint := publicFields newDropPoint
                                  (DropPointAssignment.distanceKm a);
                   pickupWindow :=
                     {| start := DropPointAssignment.pickupWindowStart a;
                        end_ := DropPointAssignment.pickupWindowEnd a |};
                   cratesNeeded := DropPointAssignment.cratesNeeded a |})
        | _ => (db, Throw (DropPointAssignmentError DROP_POINT_NOT_FOUND))
        end
    | _ => (db, Throw (DropPointAssignmentError NOT_FOUND))
    end.
Proof.
  unfold reassignDropPoint, getAssignment, getAssignmentWithDropPoint, findById,
    updateAssignment, Prisma.dropPointAssignment_findUnique_include,
    Prisma.dropPoint_findUnique, Prisma.dropPointAssignment_update.
  unfold bind, query, throw, ret. cbn [fst snd].
  destruct (List.find (Prisma.forListing listingId) (dropPointAssignments db))
    as [a|] eqn:Ha; [|reflexivity].
  destruct (List.find _ (dropPoints db)) as [dp|] eqn:Hdp; [|reflexivity].
  destruct (List.find (fun dp => String.eqb (DropPoint.id dp) newDropPointId)
                      (dropPoints db)) as [newDp|] eqn:Hnew; [|reflexivity].
  fold (reassignData a newDropPointId changeReason).
  rewrite ?Ha.
  cbn [dropPointAssignments dropPoints withAssignments].
  assert (Hl : Prisma.forListing listingId
                 (applyUpdate (reassignData a newDropPointId changeReason) a)
               = true).
  { apply find_some in Ha as [_ Ha]. exact Ha. }
  rewrite (find_updateFirst_same _ _ _ _ Ha Hl).
  cbn [applyUpdate reassignData up_dropPointId default
       DropPointAssignment.dropPointId].
  unfold Datatypes.id. rewrite Hnew. reflexivity.
Qed.

(** Reading the assignment again after the update finds the rewritten
    row, joined with the new drop point. *)
Lemma getAssignment_after_update listingId newDropPointId changeReason db a
    newDropPoint :
  List.find (Prisma.forListing listingId) (dropPointAssignments db) = Some a ->
  List.find (fun dp => String.eqb (DropPoint.id dp) newDropPointId)
            (dropPoints db) = Some newDropPoint ->
  let db1 :=
    withAssignments db
      (Prisma.updateFirst (Prisma.forListing listingId)
         (applyUpdate (reassignData a newDropPointId changeReason))
         (dropPointAssignments db))
      (nextAssignmentId db) in
  updateAssignment listingId (reassignData a newDropPointId changeReason) db
  = (db1, Ok (reassigned a newDropPointId changeReason))
  /\ getAssignment listingId db1
     = (db1,
        Ok (Some
          {| assignment := reassigned a newDropPointId changeReason;
             dropPoint := publicFields newDropPoint
                            (DropPointAssignment.distanceKm a);
             pickupWindow :=
               {| start := DropPointAssignment.pickupWindowStart a;
                  end_ := DropPointAssignment.pickupWindowEnd a |};
             cratesNeeded := DropPointAssignment.cratesNeeded a |})).
Proof.
  intros Ha Hnew. cbv zeta. split.
  - unfold updateAssignment, Prisma.dropPointAssignment_update.
    rewrite Ha. reflexivity.
  - unfold getAssignment, getAssignmentWithDropPoint,
      Prisma.dropPointAssignment_findUnique_include, bind, query, ret.
    cbn [dropPointAssignments dropPoints withAssignments].
    assert (Hl : Prisma.forListing listingId
                   (applyUpdate (reassignData a newDropPointId changeReason) a)
                 = true).
    { apply find_some in Ha as [_ Ha]. exact Ha. }
    rewrite (find_updateFirst_same _ _ _ _ Ha Hl).
    cbn [applyUpdate reassignData up_dropPointId default
         DropPointAssignment.dropPointId].
    unfold Datatypes.id. rewrite Hnew. reflexivity.
Qed.

(** C7 (as the code has it): [reassignDropPoint] throws [NOT_FOUND]
    exactly when the lookup of the listing's assignment is empty; it
    throws [DROP_POINT_NOT_FOUND] exactly when that lookup finds an
    assignment and the new drop point id does not resolve; in both cases
    the database is untouched.  It returns exactly when both lookups
    succeed: the assignment is updated, reading it again finds the
    rewritten row joined with the new drop point, and that is the
    result.  The read after the update is never empty, so
    [UPDATE_FAILED] is never thrown, and no other exception is. *)
Theorem reassign_outcomes listingId newDropPointId changeReason db :
  let existing := snd (getAssignmentWithDropPoint listingId db) in
  let target := snd (findById newDropPointId db) in
  let run := reassignDropPoint listingId newDropPointId changeReason db in
  (snd run = Throw (DropPointAssignmentError NOT_FOUND)
   <-> existing = Ok None)
  /\ (snd run = Throw (DropPointAssignmentError DROP_POINT_NOT_FOUND)
      <-> existing <> Ok None /\ target = Ok None)
  /\ (existing = Ok None \/ target = Ok None -> fst run = db)
  /\ ((exists db' result, run = (db', Ok result))
      <-> existing <> Ok None /\ target <> Ok None)
  /\ (forall a dp newDropPoint,
        existing = Ok (Some (a, dp)) -> target = Ok (Some newDropPoint) ->
        let db1 :=
          fst (updateAssignment listingId
                 (reassignData a newDropPointId changeReason) db) in
        exists result,
          getAssignment listingId db1 = (db1, Ok (Some result))
          /\ run = (db1, Ok result)
          /\ DropPointAssignment.listingId (assignment result) = listingId
          /\ DropPointAssignment.dropPointId (assignment result)
             = newDropPointId
          /\ dropPoint result
             = publicFields newDropPoint (DropPointAssignment.distanceKm a)
          /\ dp_id (dropPoint result) = newDropPointId)
  /\ (forall e,
        snd run = Throw e ->
        e = DropPointAssignmentError NOT_FOUND
        \/ e = DropPointAssignmentError DROP_POINT_NOT_FOUND)
  /\ snd run <> Throw (DropPointAssignmentError UPDATE_FAILED).
Proof.
  cbv zeta.
  assert (Hcases :
    (exists a dp newDp,
       List.find (Prisma.forListing listingId) (dropPointAssignments db)
       = Some a
       /\ snd (getAssignmentWithDropPoint listingId db) = Ok (Some (a, dp))
       /\ List.find (fun dp => String.eqb (DropPoint.id dp) newDropPointId)
                    (dropPoints db) = Some newDp
       /\ snd (findById newDropPointId db) = Ok (Some newDp))
    \/ (exists a dp,
          snd (getAssignmentWithDropPoint listingId db) = Ok (Some (a, dp))
          /\ snd (findById newDropPointId db) = Ok None)
    \/ snd (getAssignmentWithDropPoint listingId db) = Ok None).
  { unfold getAssignmentWithDropPoint, findById,
      Prisma.dropPointAssignment_findUnique_include,
      Prisma.dropPoint_findUnique, query. cbn [snd].
    destruct (List.find (Prisma.forListing listingId) (dropPointAssignments db))
      as [a|]; [|right; right; reflexivity].
    destruct (List.find _ (dropPoints db)) as [dp|];
      [|right; right; reflexivity].
    destruct (List.find _ (dropPoints db)) as [newDp|].
    - left. exists a, dp, newDp. repeat split.
    - right. left. exists a, dp. split; reflexivity. }
  rewrite reassignDropPoint_run.
  destruct Hcases as [(a & dp & newDp & Ha & Hex & Hnew & Htarget)
                     |[(a & dp & Hex & Htarget)|Hex]];
    rewrite ?Hex, ?Htarget; cbn [fst snd].
  - split; [split; discriminate|].
    split; [split; [discriminate | intros [_ H]; discriminate]|].
    split; [intros [H|H]; discriminate|].
    split; [split; [intros _; split; discriminate | eauto]|].
    split; [|split; [intros e H; discriminate | discriminate]].
    intros a' dp' newDp' H1 H2. injection H1 as <- <-. injection H2 as <-.
    destruct (getAssignment_after_update listingId newDropPointId changeReason
                db a newDp Ha Hnew) as (Hup & Hget).
    rewrite Hup. cbn [fst]. eexists. split; [exact Hget|].
    split; [reflexivity|]. cbn [assignment dropPoint reassigned publicFields
      dp_id DropPointAssignment.listingId DropPointAssignment.dropPointId].
    apply find_some in Ha as [_ Ha], Hnew as [_ Hnew].
    apply Z.eqb_eq in Ha. apply String.eqb_eq in Hnew. auto.
  - split; [split; discriminate|].
    split; [split; [intros _; split; [discriminate | reflexivity]
                   | reflexivity]|].
    split; [reflexivity|].
    split; [split; [intros (db' & r & H); discriminate
                   | intros [_ H]; congruence]|].
    split; [intros a' dp' newDp' _ H; discriminate|].
    split; [|discriminate].
    intros e H. injection H as <-. right. reflexivity.
  - split; [split; reflexivity|].
    split; [split; [discriminate | intros [H _]; congruence]|].
    split; [reflexivity|].
    split; [split; [intros (db' & r & H); discriminate
                   | intros [H _]; congruence]|].
    split; [intros a' dp' newDp' H; discriminate|].
    split; [|discriminate].
    intros e H. injection H as <-. left. reflexivity.
Qed.

(** C7, counterexample: listing 7 has no assignment in [Example.db2] and
    ["dp-nowhere"] is no drop point there; the new id does not resolve,
    yet the error is [NOT_FOUND], not [DROP_POINT_NOT_FOUND]. *)
Lemma reassign_unknown_listing_unknown_point :
  let run := reassignDropPoint 7 "dp-nowhere" "moved" Example.db2 in
  snd (getAssignmentWithDropPoint 7 Example.db2) = Ok None
  /\ snd (findById "dp-nowhere" Example.db2) = Ok None
  /\ run = (Example.db2, Throw (DropPointAssignmentError NOT_FOUND))
  /\ ~ (snd run = Throw (DropPointAssignmentError DROP_POINT_NOT_FOUND)
        <-> snd (findById "dp-nowhere" Example.db2) = Ok None).
Proof.
  cbv zeta. split; [reflexivity|]. split; [reflexivity|].
  split; [reflexivity|].
  intros [_ H]. specialize (H eq_refl). vm_compute in H. discriminate.
Qed.

Lemma reassign_outcomes_witness :
  exists db' result,
    reassignDropPoint 7 "dp-bangarpet" "closer to home" Example.db2assigned
    = (db', Ok result)
    /\ getAssignment 7 db' = (db', Ok (Some result))
    /\ dp_id (dropPoint result) = "dp-bangarpet"%string.
Proof.
  destruct (reassign_outcomes 7 "dp-bangarpet" "closer to home"
              Example.db2assigned) as (_ & _ & _ & _ & H & _).
  destruct (H _ _ _ eq_refl eq_refl) as (result & Hget & Hrun & _ & _ & _ & Hid).
  eexists. exists result. split; [exact Hrun|]. split; [exact Hget | exact Hid].
Defined.

(** Both lookups succeeding is all a reassignment needs: no capacity or
    crate check stands in its way. *)
Lemma reassign_succeeds listingId newDropPointId changeReason db a dp newDp :
  snd (getAssignmentWithDropPoint listingId db) = Ok (Some (a, dp)) ->
  snd (findById newDropPointId db) = Ok (Some newDp) ->
  exists db' r,
    reassignDropPoint listingId newDropPointId changeReason db = (db', Ok r).
Proof.
  intros Hex Hnew. rewrite reassignDropPoint_run, Hex, Hnew.
  eexists. eexists. reflexivity.
Qed.

(** C8: a reassignment that returns rewrote exactly one row of the
    assignment table, the listing's; in it the drop point id is the new
    one, the status is [REASSIGNED], the change reason is stored and the
    previous drop point id is the old drop point id, and every other
    field (ids, farmer and location, recorded distance, pickup window,
    crates needed) is as before.  Drop points, slots and counters are
    unchanged, and the result carries the rewritten row with the old
    distance, window and crates. *)
Theorem reassign_rewrites_four_fields listingId newDropPointId changeReason
    db db' r :
  reassignDropPoint listingId newDropPointId changeReason db = (db', Ok r) ->
  exists a pre post,
    let a' := assignment r in
    (dropPointAssignments db = pre ++ a :: post
     /\ Forall (fun x => DropPointAssignment.listingId x <> listingId) pre
     /\ DropPointAssignment.listingId a = listingId
     /\ dropPointAssignments db' = pre ++ a' :: post)
    /\ (DropPointAssignment.dropPointId a' = newDropPointId
        /\ DropPointAssignment.status a' = REASSIGNED
        /\ DropPointAssignment.changeReason a' = Some changeReason
        /\ DropPointAssignment.previousDropPointId a'
           = Some (DropPointAssignment.dropPointId a))
    /\ (DropPointAssignment.id a' = DropPointAssignment.id a
        /\ DropPointAssignment.listingId a' = DropPointAssignment.listingId a
        /\ DropPointAssignment.farmerId a' = DropPointAssignment.farmerId a
        /\ DropPointAssignment.farmerLatitude a'
           = DropPointAssignment.farmerLatitude a
        /\ DropPointAssignment.farmerLongitude a'
           = DropPointAssignment.farmerLongitude a
        /\ DropPointAssignment.distanceKm a' = DropPointAssignment.distanceKm a
        /\ DropPointAssignment.pickupWindowStart a'
           = DropPointAssignment.pickupWindowStart a
        /\ DropPointAssignment.pickupWindowEnd a'
           = DropPointAssignment.pickupWindowEnd a
        /\ DropPointAssignment.cratesNeeded a'
           = DropPointAssignment.cratesNeeded a)
    /\ (dropPoints db' = dropPoints db
        /\ timeSlotCapacities db' = timeSlotCapacities db
        /\ nextSlotId db' = nextSlotId db
        /\ nextAssignmentId db' = nextAssignmentId db)
    /\ (dp_distanceKm (dropPoint r) = DropPointAssignment.distanceKm a
        /\ start (pickupWindow r) = DropPointAssignment.pickupWindowStart a
        /\ end_ (pickupWindow r) = DropPointAssignment.pickupWindowEnd a
        /\ cratesNeeded r = DropPointAssignment.cratesNeeded a).
Proof.
  rewrite reassignDropPoint_run.
  unfold getAssignmentWithDropPoint, findById,
    Prisma.dropPointAssignment_findUnique_include,
    Prisma.dropPoint_findUnique, query. cbn [snd].
  destruct (List.find (Prisma.forListing listingId) (dropPointAssignments db))
    as [a|] eqn:Ha; [|discriminate].
  destruct (List.find _ (dropPoints db)) as [dp|]; [|discriminate].
  destruct (List.find _ (dropPoints db)) as [newDp|]; [|discriminate].
  intros H. injection H as <- <-.
  destruct (find_split _ _ _ Ha) as (pre & post & E & Hpre & Hl).
  exists a, pre, post. cbv zeta. cbn [assignment].
  split; [|repeat split].
  rewrite E. split; [reflexivity|]. split; [|split].
  - eapply Forall_impl; [exact Hpre|]. simpl. intros x Hx.
    apply Z.eqb_neq. exact Hx.
  - apply Z.eqb_eq. exact Hl.
  - cbn [dropPointAssignments withAssignments].
    rewrite (updateFirst_first _ _ _ _ _ Hpre Hl). reflexivity.
Qed.

Lemma reassign_rewrites_four_fields_witness :
  exists db' r,
    reassignDropPoint 7 "dp-bangarpet" "closer to home" Example.db2assigned
    = (db', Ok r)
    /\ DropPointAssignment.dropPointId (assignment r) = "dp-bangarpet"%string
    /\ DropPointAssignment.status (assignment r) = REASSIGNED
    /\ DropPointAssignment.previousDropPointId (assignment r)
       = Some "dp-kolar"%string
    /\ timeSlotCapacities db' = timeSlotCapacities Example.db2assigned.
Proof.
  eexists. eexists. split; [vm_compute; reflexivity|].
  destruct (reassign_rewrites_four_fields 7 "dp-bangarpet" "closer to home"
              Example.db2assigned _ _ eq_refl)
    as (a & pre & post & _ & (Hid & Hst & _ & _) & _ & (_ & Hslots & _) & _).
  split; [exact Hid|]. split; [exact Hst|]. split; [reflexivity | exact Hslots].
Defined.

(* ====================================================================== *)
(** * The slot-id invariant is kept *)
(* ====================================================================== *)

Lemma slotIdsOk_ext db db' :
  List.map TimeSlotCapacity.id (timeSlotCapacities db')
  = List.map TimeSlotCapacity.id (timeSlotCapacities db) ->
  nextSlotId db' = nextSlotId db ->
  slotIdsOk db = true -> slotIdsOk db' = true.
Proof.
  intros Hids Hnext. rewrite !slotIdsOk_spec, Hids, Hnext.
  intros (H0 & H & Hd). repeat split; try assumption.
  apply List.Forall_forall. intros s Hs.
  apply (in_map TimeSlotCapacity.id) in Hs. rewrite Hids in Hs.
  apply in_map_iff in Hs as (s0 & <- & Hs0).
  rewrite List.Forall_forall in H. apply H, Hs0.
Qed.

(** Every call of [assignDropPoint], returning or not, leaves slot ids
    positive, below the counter and distinct. *)
Lemma assignDropPoint_slotIdsOk haversine now input db db' res :
  slotIdsOk db = true ->
  assignDropPoint haversine now input db = (db', res) ->
  slotIdsOk db' = true.
Proof.
  intros Hok Hrun.
  destruct (findNearby_query haversine (farmerLocation input)
              DEFAULT_SEARCH_RADIUS_KM 20 false db) as ([|c0 rest] & Hq).
  - rewrite assignDropPoint_empty in Hrun by (rewrite Hq; reflexivity).
    injection Hrun as <- _. exact Hok.
  - destruct (assignDropPoint_run haversine now input db c0 rest)
      as (db1 & s & Hadd & Hfor & Heq); [rewrite Hq; reflexivity|].
    rewrite Heq in Hrun.
    pose proof (slotsAdded_slotIdsOk _ _ _ _ Hadd Hok) as Hok1.
    destruct (reserved_exact db1 _ _ s (quantityKg input) Hok1 Hfor)
      as (pre & post & E & R).
    apply (slotIdsOk_ext db1); [| |exact Hok1].
    + unfold persisted in Hrun.
      destruct (List.find _ _); injection Hrun as <- _; simpl;
        rewrite R; simpl; rewrite E, !map_app; reflexivity.
    + unfold persisted in Hrun.
      destruct (List.find _ _); injection Hrun as <- _; simpl;
        rewrite R; reflexivity.
Qed.

(* ====================================================================== *)
(** * Referential integrity of assignments *)
(* ====================================================================== *)

Lemma find_existsb {A} (p : A -> bool) l :
  existsb p l = true <-> exists x, List.find p l = Some x.
Proof.
  induction l as [|y l IH]; simpl.
  - split; [discriminate | intros [x H]; discriminate].
  - destruct (p y); simpl; [split; eauto | exact IH].
Qed.

(** Under referential integrity the joined lookup is empty exactly when
    the listing has no assignment row. *)
Lemma getAssignmentWithDropPoint_None db listingId :
  referencesOk db = true ->
  snd (getAssignmentWithDropPoint listingId db) = Ok None
  <-> List.find (Prisma.forListing listingId) (dropPointAssignments db) = None.
Proof.
  intros Hok.
  unfold getAssignmentWithDropPoint, Prisma.dropPointAssignment_findUnique_include,
    query. cbn [snd].
  destruct (List.find (Prisma.forListing listingId) (dropPointAssignments db))
    as [a|] eqn:Ha; [|split; reflexivity].
  apply find_some in Ha as [Hin _].
  unfold referencesOk in Hok. rewrite forallb_forall in Hok.
  apply Hok, find_existsb in Hin as [dp ->].
  split; discriminate.
Qed.

Lemma In_insertByDistance x y l :
  In x (insertByDistance y l) -> x = y \/ In x l.
Proof.
  induction l as [|z l IH]; simpl.
  - intros [<-|[]]. left. reflexivity.
  - destruct (Qle_bool (distanceKm y) (distanceKm z)); simpl.
    + intros [<-|H]; [left; reflexivity | right; exact H].
    + intros [<-|H]; [right; left; reflexivity|].
      destruct (IH H) as [->|H']; [left; reflexivity | right; right; exact H'].
Qed.

Lemma In_sortByDistance x l : In x (sortByDistance l) -> In x l.
Proof.
  induction l as [|y l IH]; simpl; [tauto|].
  intros H. apply In_insertByDistance in H as [->|H]; [left; reflexivity|].
  right. apply IH, H.
Qed.

(** Candidates are drop points of the table. *)
Lemma findNearby_points haversine location radiusKm limit includeInactive db
    cands c :
  snd (findNearby haversine location radiusKm limit includeInactive db)
  = Ok cands ->
  In c cands -> In (point c) (dropPoints db).
Proof.
  unfold findNearby, bind, Prisma.dropPoint_findMany, query, ret. simpl.
  intros H. injection H as <-. intros Hc.
  apply in_map_iff in Hc as (c' & <- & Hc'). simpl.
  apply list_elem_of_In, elem_of_take in Hc' as (i & Hc' & _).
  apply list_elem_of_lookup_2, list_elem_of_In, In_sortByDistance in Hc'.
  apply filter_In in Hc' as [Hc' _].
  apply in_map_iff in Hc' as (dp & <- & Hdp). simpl.
  apply filter_In in Hdp as [Hdp _]. exact Hdp.
Qed.

Lemma referencesOk_app db next a :
  referencesOk db = true ->
  existsb (fun dp => String.eqb (DropPoint.id dp)
                                (DropPointAssignment.dropPointId a))
          (dropPoints db) = true ->
  referencesOk (withAssignments db (dropPointAssignments db ++ [a]) next) = true.
Proof.
  intros Hok Ha. unfold referencesOk in *. simpl.
  rewrite forallb_app, Hok. simpl. rewrite Ha. reflexivity.
Qed.

(** [assignDropPoint] keeps referential integrity: the row it writes
    refers to a candidate, and candidates come from the table. *)
Lemma assignDropPoint_referencesOk haversine now input db db' res :
  referencesOk db = true ->
  assignDropPoint haversine now input db = (db', res) ->
  referencesOk db' = true.
Proof.
  intros Hok Hrun.
  destruct (findNearby_query haversine (farmerLocation input)
              DEFAULT_SEARCH_RADIUS_KM 20 false db) as ([|c0 rest] & Hq).
  - rewrite assignDropPoint_empty in Hrun by (rewrite Hq; reflexivity).
    injection Hrun as <- _. exact Hok.
  - destruct (assignDropPoint_run haversine now input db c0 rest)
      as (db1 & s & (P & A & _) & _ & Heq); [rewrite Hq; reflexivity|].
    rewrite Heq in Hrun.
    destruct (reserved_frame db1 s (quantityKg input)) as (RP & RA & _).
    assert (Hok2 : referencesOk (reserved db1 s (quantityKg input)) = true).
    { unfold referencesOk in *. rewrite RP, RA, P, A. exact Hok. }
    set (chosen := default c0 (List.find (feasibleFor db now input) (c0 :: rest)))
      in *.
    assert (Hin : In chosen (c0 :: rest)).
    { subst chosen. destruct (List.find _ (c0 :: rest)) as [c|] eqn:Hf.
      - apply find_some in Hf as [Hf _]. exact Hf.
      - left. reflexivity. }
    apply (findNearby_points haversine (farmerLocation input)
             DEFAULT_SEARCH_RADIUS_KM 20 false db (c0 :: rest)) in Hin;
      [|rewrite Hq; reflexivity].
    unfold persisted in Hrun.
    destruct (List.find (Prisma.forListing _) _);
      injection Hrun as <- _; [exact Hok2|].
    apply referencesOk_app; [exact Hok2|].
    rewrite RP, P. apply existsb_exists. exists (point chosen).
    split; [exact Hin | apply String.eqb_refl].
Qed.

(** A listing that already has an assignment cannot be assigned again:
    the storage layer rejects the second row, after the slot has been
    reserved. *)
Lemma assignDropPoint_taken haversine now input db c0 rest a :
  snd (findNearby haversine (farmerLocation input) DEFAULT_SEARCH_RADIUS_KM
         20 false db) = Ok (c0 :: rest) ->
  List.find (Prisma.forListing (listingId input)) (dropPointAssignments db)
  = Some a ->
  exists db',
    assignDropPoint haversine now input db
    = (db', Throw (PrismaClientKnownRequestError P2002))
    /\ dropPointAssignments db' = dropPointAssignments db.
Proof.
  intros Hnear Ha.
  destruct (assignDropPoint_run haversine now input db c0 rest Hnear)
    as (db1 & s & (_ & A & _) & _ & Heq).
  rewrite Heq. unfold persisted.
  destruct (reserved_frame db1 s (quantityKg input)) as (_ & RA & _).
  rewrite RA, A, Ha. eexists. split; [reflexivity|]. rewrite RA, A. reflexivity.
Qed.

Lemma forallb_updateFirst {A} (P q : A -> bool) (f : A -> A) l :
  forallb P l = true ->
  (forall x, P (f x) = true) ->
  forallb P (Prisma.updateFirst q f l) = true.
Proof.
  intros Hl Hf. induction l as [|y l IH]; simpl in *; [reflexivity|].
  apply andb_prop in Hl as [Hy Hl].
  destruct (q y); simpl.
  - rewrite Hf, Hl. reflexivity.
  - rewrite Hy, IH by exact Hl. reflexivity.
Qed.

(** [reassignDropPoint] keeps referential integrity: the new drop point
    id has been looked up. *)
Lemma reassignDropPoint_referencesOk listingId newDropPointId changeReason
    db db' res :
  referencesOk db = true ->
  reassignDropPoint listingId newDropPointId changeReason db = (db', res) ->
  referencesOk db' = true.
Proof.
  intros Hok. rewrite reassignDropPoint_run.
  unfold getAssignmentWithDropPoint, findById,
    Prisma.dropPointAssignment_findUnique_include,
    Prisma.dropPoint_findUnique, query. cbn [snd].
  destruct (List.find (Prisma.forListing listingId) (dropPointAssignments db))
    as [a|]; [|intros H; injection H as <- _; exact Hok].
  destruct (List.find _ (dropPoints db)) as [dp|];
    [|intros H; injection H as <- _; exact Hok].
  destruct (List.find (fun dp => String.eqb (DropPoint.id dp) newDropPointId)
                      (dropPoints db)) as [newDp|] eqn:Hnew;
    [|intros H; injection H as <- _; exact Hok].
  intros H. injection H as <- _.
  unfold referencesOk in *. simpl.
  apply forallb_updateFirst; [exact Hok|].
  intros x. simpl. apply find_existsb. exists newDp. exact Hnew.
Qed.

(* ====================================================================== *)
(** * Candidate retrieval: [findNearby] *)
(* ====================================================================== *)

Lemma In_insertByDistance_iff x y l :
  In x (insertByDistance y l) <-> x = y \/ In x l.
Proof.
  split; [apply In_insertByDistance|].
  induction l as [|z l IH]; simpl.
  - intros [->|[]]. left. reflexivity.
  - destruct (Qle_bool (distanceKm y) (distanceKm z)); simpl.
    + intros [->|H]; [left; reflexivity | right; exact H].
    + intros [->|[->|H]]; [right; apply IH; left; reflexivity
                          | left; reflexivity
                          | right; apply IH; right; exact H].
Qed.

Lemma In_sortByDistance_iff x l : In x (sortByDistance l) <-> In x l.
Proof.
  induction l as [|y l IH]; simpl; [tauto|].
  rewrite In_insertByDistance_iff, IH. intuition congruence.
Qed.

Lemma sorted_app_le (l1 l2 : list DropPointWithDistance) a b :
  StronglySorted nearerOrEqual (l1 ++ l2) -> In a l1 -> In b l2 ->
  nearerOrEqual a b.
Proof.
  induction l1 as [|x l1 IH]; simpl; intros Hs Ha Hb; [contradiction|].
  apply StronglySorted_inv in Hs as [Hs Hx].
  destruct Ha as [<-|Ha]; [|apply IH; assumption].
  rewrite List.Forall_forall in Hx. apply Hx, in_or_app. right. exact Hb.
Qed.

Lemma sorted_lookup (l : list DropPointWithDistance) :
  StronglySorted nearerOrEqual l ->
  forall (i j : nat) a b,
    (i <= j)%nat -> l !! i = Some a -> l !! j = Some b -> nearerOrEqual a b.
Proof.
  induction 1 as [|x l Hl IH Hx]; intros i j a b Hij Ha Hb; [discriminate|].
  destruct i as [|i], j as [|j]; simpl in Ha, Hb.
  - injection Ha as <-. injection Hb as <-. apply Qle_refl.
  - injection Ha as <-. rewrite List.Forall_forall in Hx.
    apply Hx, list_elem_of_In, list_elem_of_lookup_2 with j, Hb.
  - lia.
  - apply (IH i j); [lia | assumption | assumption].
Qed.

(** X1: [findNearby] only reads.  It returns at most [limit] candidates;
    each is a drop point of the table, active unless inactive points
    were asked for, at a computed distance within the radius, and is
    reported with that distance rounded to two decimals. *)
Theorem findNearby_candidates haversine location radiusKm limit
    includeInactive db :
  exists cands,
    findNearby haversine location radiusKm limit includeInactive db
    = (db, Ok cands)
    /\ (length cands <= limit)%nat
    /\ Forall
         (fun c =>
            In (point c) (dropPoints db)
            /\ (includeInactive = false -> DropPoint.isActive (point c) = true)
            /\ (rawDistance haversine location (point c) <= radiusKm)%Q
            /\ distanceKm c
               = round2 (rawDistance haversine location (point c)))
         cands.
Proof.
  unfold findNearby, bind, Prisma.dropPoint_findMany, query, ret.
  eexists. split; [reflexivity|]. split.
  - rewrite length_map, length_take. lia.
  - apply List.Forall_forall. intros c Hc.
    apply in_map_iff in Hc as (c' & <- & Hc'). simpl.
    apply list_elem_of_In, elem_of_take in Hc' as (i & Hc' & _).
    apply list_elem_of_lookup_2, list_elem_of_In, In_sortByDistance in Hc'.
    apply filter_In in Hc' as [Hc' Hr].
    apply in_map_iff in Hc' as (dp & <- & Hdp). simpl in *.
    apply filter_In in Hdp as [Hdp Hact].
    split; [exact Hdp|]. split.
    + intros ->. exact Hact.
    + split; [apply Qle_bool_iff; exact Hr | reflexivity].
Qed.

(** X2: the cap keeps the nearest.  A drop point that qualifies (in the
    table, active unless inactive points were asked for, within the
    radius) is among the candidates, or else the list is full and every
    candidate in it is reported at most as far as that point would
    be. *)
Theorem findNearby_keeps_nearest haversine location radiusKm limit
    includeInactive db cands dp :
  snd (findNearby haversine location radiusKm limit includeInactive db)
  = Ok cands ->
  In dp (dropPoints db) ->
  includeInactive || DropPoint.isActive dp = true ->
  (rawDistance haversine location dp <= radiusKm)%Q ->
  (exists c, In c cands /\ point c = dp)
  \/ (length cands = limit
      /\ Forall (fun c => (distanceKm c
                           <= round2 (rawDistance haversine location dp))%Q)
                cands).
Proof.
  unfold findNearby, bind, Prisma.dropPoint_findMany, query, ret. simpl.
  intros H Hdp Hact Hr. injection H as <-.
  set (F := List.filter _ (List.map (withDistance haversine location) _)).
  set (x := withDistance haversine location dp).
  assert (Hx : In x (sortByDistance F)).
  { apply In_sortByDistance_iff. subst F. apply filter_In. split.
    - apply in_map, filter_In. split; assumption.
    - apply Qle_bool_iff. exact Hr. }
  pose proof (sortByDistance_sorted F) as Hs.
  rewrite <- (take_drop limit (sortByDistance F)) in Hx, Hs.
  apply in_app_or in Hx as [Hx|Hx].
  - left. exists (roundDistance x). split; [apply in_map, Hx | reflexivity].
  - right. split.
    + rewrite length_map, length_take.
      destruct (le_lt_dec limit (length (sortByDistance F))) as [Hle|Hlt];
        [lia|].
      rewrite drop_ge in Hx by lia. contradiction.
    + apply List.Forall_forall. intros c Hc.
      apply in_map_iff in Hc as (c' & <- & Hc'). simpl.
      apply round2_mono. apply (sorted_app_le _ _ c' x Hs Hc' Hx).
Qed.

(** X3: the candidates are in ascending order of reported distance. *)
Theorem findNearby_ascending haversine location radiusKm limit includeInactive
    db cands (i j : nat) a b :
  snd (findNearby haversine location radiusKm limit includeInactive db)
  = Ok cands ->
  (i <= j)%nat -> cands !! i = Some a -> cands !! j = Some b ->
  (distanceKm a <= distanceKm b)%Q.
Proof.
  intros H. apply findNearby_sorted in H.
  apply (sorted_lookup cands H).
Qed.

(* ====================================================================== *)
(** * Slots: [checkSlotCapacity] and [reserveCapacity] *)
(* ====================================================================== *)

(** X4: [checkSlotCapacity] is a get-or-create that can be repeated.  It
    never throws; the slot it returns belongs to the point, date and
    start hour asked for; the available weight is the slot's capacity
    less what is used, and there is capacity exactly when the required
    weight does not exceed it.  Asking again, for any weight, returns
    the same slot and writes nothing. *)
Theorem checkSlotCapacity_repeatable dropPointId date startHour requiredKg db :
  exists db1 check s,
    checkSlotCapacity dropPointId date startHour requiredKg db
    = (db1, Ok check)
    /\ slot check = Some s
    /\ (TimeSlotCapacity.dropPointId s = dropPointId
        /\ TimeSlotCapacity.slotDate s = date
        /\ TimeSlotCapacity.slotStartHour s = startHour)
    /\ availableKg check
       = TimeSlotCapacity.maxCapacityKg s - TimeSlotCapacity.usedCapacityKg s
    /\ (hasCapacity check = true <-> requiredKg <= availableKg check)
    /\ forall requiredKg',
         checkSlotCapacity dropPointId date startHour requiredKg' db1
         = (db1,
            Ok {| hasCapacity := availableKg check >=? requiredKg';
                  availableKg := availableKg check;
                  slot := Some s |}).
Proof.
  destruct (List.find (Prisma.slotMatches dropPointId date startHour)
                      (timeSlotCapacities db)) as [s|] eqn:Hs.
  - exists db. eexists. exists s.
    split; [apply checkSlotCapacity_found; exact Hs|]. simpl.
    split; [reflexivity|].
    split; [apply find_some in Hs as [_ Hs]; apply slotMatches_key, Hs|].
    split; [reflexivity|].
    split; [rewrite Z.geb_leb, Z.leb_le; reflexivity|].
    intros q'. apply checkSlotCapacity_found. exact Hs.
  - eexists. eexists. eexists.
    split; [apply checkSlotCapacity_fresh; exact Hs|]. simpl.
    split; [reflexivity|]. split; [auto|]. split; [reflexivity|].
    split; [rewrite Z.geb_leb, Z.leb_le; reflexivity|].
    intros q'.
    rewrite (checkSlotCapacity_found _ _ _ _ _
               (TimeSlotCapacity.mk (nextSlotId db) dropPointId date startHour
                  (startHour + 2) 1000 0)); [reflexivity|].
    simpl. rewrite find_app, Hs. simpl. rewrite slotMatches_refl. reflexivity.
Qed.

(** X5: the capacity check is monotone: what a slot can take, it can
    take for any smaller weight, and the effect on the table does not
    depend on the weight asked about. *)
Theorem checkSlotCapacity_monotone dropPointId date startHour kg kg' db
    check check' :
  snd (checkSlotCapacity dropPointId date startHour kg db) = Ok check ->
  snd (checkSlotCapacity dropPointId date startHour kg' db) = Ok check' ->
  kg' <= kg ->
  hasCapacity check = true ->
  hasCapacity check' = true
  /\ slot check' = slot check
  /\ fst (checkSlotCapacity dropPointId date startHour kg' db)
     = fst (checkSlotCapacity dropPointId date startHour kg db).
Proof.
  destruct (List.find (Prisma.slotMatches dropPointId date startHour)
                      (timeSlotCapacities db)) as [s|] eqn:Hs.
  - rewrite !(checkSlotCapacity_found _ _ _ _ _ _ Hs). simpl.
    intros H H'. injection H as <-. injection H' as <-. simpl.
    rewrite !Z.geb_leb, !Z.leb_le. intros Hle Hc. repeat split. lia.
  - rewrite !(checkSlotCapacity_fresh _ _ _ _ _ Hs). simpl.
    intros H H'. injection H as <-. injection H' as <-. simpl.
    rewrite !Z.geb_leb, !Z.leb_le. intros Hle Hc. repeat split. lia.
Qed.

Lemma slotIds_designate (p : TimeSlotCapacity.t -> bool)
    (f : TimeSlotCapacity.t -> TimeSlotCapacity.t) db s :
  slotIdsOk db = true ->
  List.find p (timeSlotCapacities db) = Some s ->
  exists pre post,
    timeSlotCapacities db = pre ++ s :: post
    /\ Forall (fun y => p y = false) pre
    /\ p s = true
    /\ List.find (fun x => TimeSlotCapacity.id x =? TimeSlotCapacity.id s)
                 (timeSlotCapacities db) = Some s
    /\ Prisma.updateFirst
         (fun x => TimeSlotCapacity.id x =? TimeSlotCapacity.id s) f
         (timeSlotCapacities db)
       = pre ++ f s :: post.
Proof.
  rewrite slotIdsOk_spec. intros (_ & _ & Hd) Hfind.
  destruct (find_split _ _ _ Hfind) as (pre & post & E & Hpre & Hs).
  exists pre, post. rewrite E in Hd |- *.
  assert (Hids : Forall (fun y => (TimeSlotCapacity.id y =? TimeSlotCapacity.id s)
                                  = false) pre).
  { apply List.Forall_forall. intros y Hy. apply Z.eqb_neq. intros Heq.
    rewrite map_app in Hd. simpl in Hd.
    apply NoDup_app in Hd as (_ & Hd & _).
    apply (Hd (TimeSlotCapacity.id y)).
    - apply list_elem_of_In, in_map, Hy.
    - rewrite Heq. left. }
  split; [reflexivity|]. split; [exact Hpre|]. split; [exact Hs|]. split.
  - apply find_first; [exact Hids | apply Z.eqb_refl].
  - apply updateFirst_first; [exact Hids | apply Z.eqb_refl].
Qed.

(** X6: reserving and then checking.  With slot ids positive and
    distinct, after [reserveCapacity] on the slot of a point, date and
    hour, [checkSlotCapacity] for them reports that slot with the
    reserved weight added to what is used and taken off what is
    available; the reservation is made whatever the capacity. *)
Theorem reserve_then_check dropPointId date startHour kg requiredKg db s :
  slotIdsOk db = true ->
  List.find (Prisma.slotMatches dropPointId date startHour)
            (timeSlotCapacities db) = Some s ->
  exists db1,
    reserveCapacity (TimeSlotCapacity.id s) kg db
    = (db1, Ok (Prisma.incrementUsed kg s))
    /\ checkSlotCapacity dropPointId date startHour requiredKg db1
       = (db1,
          Ok {| hasCapacity :=
                  TimeSlotCapacity.maxCapacityKg s
                  - TimeSlotCapacity.usedCapacityKg s - kg >=? requiredKg;
                availableKg :=
                  TimeSlotCapacity.maxCapacityKg s
                  - TimeSlotCapacity.usedCapacityKg s - kg;
                slot := Some (Prisma.incrementUsed kg s) |}).
Proof.
  intros Hok Hs.
  destruct (slotIds_designate _ (Prisma.incrementUsed kg) db s Hok Hs)
    as (pre & post & E & Hpre & Hm & Hfind & Hup).
  eexists. split.
  - unfold reserveCapacity, Prisma.timeSlotCapacity_update_increment.
    rewrite Hfind. reflexivity.
  - rewrite (checkSlotCapacity_found _ _ _ _ _ (Prisma.incrementUsed kg s)).
    + simpl.
      replace (TimeSlotCapacity.maxCapacityKg s
               - (TimeSlotCapacity.usedCapacityKg s + kg))
        with (TimeSlotCapacity.maxCapacityKg s
              - TimeSlotCapacity.usedCapacityKg s - kg) by lia.
      reflexivity.
    + simpl. rewrite Hup. apply find_first; [exact Hpre | exact Hm].
Qed.

Lemma updateFirst_twice {A} (p : A -> bool) (f g : A -> A) l :
  (forall x, p (g x) = p x) ->
  Prisma.updateFirst p f (Prisma.updateFirst p g l)
  = Prisma.updateFirst p (fun x => f (g x)) l.
Proof.
  intros Hg. induction l as [|y l IH]; simpl; [reflexivity|].
  destruct (p y) eqn:Hy; simpl.
  - rewrite Hg, Hy. reflexivity.
  - rewrite Hy, IH. reflexivity.
Qed.

Lemma updateFirst_ext {A} (p : A -> bool) (f g : A -> A) l :
  (forall x, f x = g x) -> Prisma.updateFirst p f l = Prisma.updateFirst p g l.
Proof.
  intros H. induction l as [|y l IH]; simpl; [reflexivity|].
  rewrite H, IH. reflexivity.
Qed.

Lemma reserveCapacity_db slotId kg db :
  fst (reserveCapacity slotId kg db)
  = match List.find (fun s => TimeSlotCapacity.id s =? slotId)
                    (timeSlotCapacities db) with
    | Some _ =>
        withSlots db
          (Prisma.updateFirst (fun s => TimeSlotCapacity.id s =? slotId)
             (Prisma.incrementUsed kg) (timeSlotCapacities db))
          (nextSlotId db)
    | None => db
    end.
Proof.
  unfold reserveCapacity, Prisma.timeSlotCapacity_update_increment.
  destruct (List.find _ _); reflexivity.
Qed.

(** X7: reservations add up.  Reserving [a] and then [b] kilograms in a
    slot leaves the database as one reservation of [a + b] does, and so
    does reserving them in the other order. *)
Theorem reserveCapacity_adds slotId a b db :
  fst (reserveCapacity slotId b (fst (reserveCapacity slotId a db)))
  = fst (reserveCapacity slotId (a + b) db)
  /\ fst (reserveCapacity slotId a (fst (reserveCapacity slotId b db)))
     = fst (reserveCapacity slotId (a + b) db).
Proof.
  assert (H : forall a b,
    fst (reserveCapacity slotId b (fst (reserveCapacity slotId a db)))
    = fst (reserveCapacity slotId (a + b) db)).
  { clear a b. intros a b. rewrite !reserveCapacity_db.
    destruct (List.find (fun s => TimeSlotCapacity.id s =? slotId)
                        (timeSlotCapacities db)) as [s|] eqn:Hs.
    - simpl.
      rewrite (find_updateFirst_same _ (Prisma.incrementUsed a) _ s Hs)
        by (apply find_some in Hs as [_ Hs]; exact Hs).
      unfold withSlots. simpl. f_equal.
      rewrite updateFirst_twice by reflexivity.
      apply updateFirst_ext. intros x. unfold Prisma.incrementUsed. simpl.
      f_equal. lia.
    - rewrite Hs. reflexivity. }
  split; [apply H|]. rewrite H. f_equal. f_equal. lia.
Qed.

(* ====================================================================== *)
(** * Crates: [checkCrateAvailability] *)
(* ====================================================================== *)

Lemma lowerAscii_idempotent c : lowerAscii (lowerAscii c) = lowerAscii c.
Proof. destruct c as [[] [] [] [] [] [] [] []]; reflexivity. Qed.

Lemma toLowerCase_idempotent s : toLowerCase (toLowerCase s) = toLowerCase s.
Proof.
  induction s as [|c s IH]; simpl; [reflexivity|].
  rewrite lowerAscii_idempotent, IH. reflexivity.
Qed.

(** X8: the crate check reads the inventory under the lower-cased crop
    type and writes nothing.  For a crop type written in ASCII whose
    lower-cased form is a key of the point's inventory with count [n],
    the check reports [n] crates, available exactly when [n] is at
    least the number required; every ASCII spelling with the same
    lower-casing gets that answer; and the entries stored under keys
    that are not in lower case are never read: an inventory that
    agrees on the lower-case keys gives the same answer. *)
Theorem checkCrateAvailability_ignores_case dropPointId cropType
    requiredCrates db dp inventory n :
  pointOf db dropPointId = Some dp ->
  DropPoint.crateInventory dp = Some inventory ->
  asciiOnly cropType = true ->
  inventory !! toLowerCase cropType = Some n ->
  checkCrateAvailability dropPointId cropType requiredCrates db
  = (db, Ok {| hasAvailability := n >=? requiredCrates;
               availableCrates := n |})
  /\ (forall cropType',
        asciiOnly cropType' = true ->
        toLowerCase cropType' = toLowerCase cropType ->
        checkCrateAvailability dropPointId cropType' requiredCrates db
        = (db, Ok {| hasAvailability := n >=? requiredCrates;
                     availableCrates := n |}))
  /\ (forall db' dp' inventory',
        pointOf db' dropPointId = Some dp' ->
        DropPoint.crateInventory dp' = Some inventory' ->
        (forall key, toLowerCase key = key ->
                     inventory' !! key = inventory !! key) ->
        checkCrateAvailability dropPointId cropType requiredCrates db'
        = (db', Ok {| hasAvailability := n >=? requiredCrates;
                      availableCrates := n |})).
Proof.
  unfold pointOf. intros Hdp Hinv _ Hn.
  assert (Hrun : forall db0 dp0 inv0 crop,
            List.find (fun dp => String.eqb (DropPoint.id dp) dropPointId)
                      (dropPoints db0) = Some dp0 ->
            DropPoint.crateInventory dp0 = Some inv0 ->
            inv0 !! toLowerCase crop = Some n ->
            checkCrateAvailability dropPointId crop requiredCrates db0
            = (db0, Ok {| hasAvailability := n >=? requiredCrates;
                          availableCrates := n |})).
  { intros db0 dp0 inv0 crop H0 H1 H2.
    unfold checkCrateAvailability, Prisma.dropPoint_findUnique, bind, query, ret.
    rewrite H0. simpl. rewrite H1, H2. reflexivity. }
  split; [exact (Hrun db dp inventory cropType Hdp Hinv Hn)|]. split.
  - intros cropType' _ Hsame. apply (Hrun db dp inventory cropType' Hdp Hinv).
    rewrite Hsame. exact Hn.
  - intros db' dp' inventory' Hdp' Hinv' Hagree.
    apply (Hrun db' dp' inventory' cropType Hdp' Hinv').
    rewrite Hagree; [exact Hn | apply toLowerCase_idempotent].
Qed.

(* ====================================================================== *)
(** * Assignment rows: create, look up, one per listing *)
(* ====================================================================== *)

Lemma distinct_app_cons (l1 l2 : list Z) x :
  distinct (l1 ++ x :: l2) = true ->
  ~ In x l1 /\ ~ In x l2 /\ distinct (l1 ++ l2) = true.
Proof.
  rewrite !distinct_NoDup. intros H.
  apply NoDup_app in H as (H1 & H12 & H2).
  apply NoDup_cons in H2 as [Hx H2].
  split; [|split].
  - intros Hin. apply (H12 x); [apply list_elem_of_In, Hin | left].
  - intros Hin. apply Hx, list_elem_of_In, Hin.
  - apply NoDup_app. split; [exact H1|]. split; [|exact H2].
    intros y Hy Hy'. apply (H12 y Hy). right. exact Hy'.
Qed.

Lemma distinct_snoc (l : list Z) x :
  distinct l = true -> ~ In x l -> distinct (l ++ [x]) = true.
Proof.
  rewrite !distinct_NoDup. intros H Hx.
  apply NoDup_app. split; [exact H|]. split.
  - intros y Hy Hy'. apply list_elem_of_In in Hy, Hy'.
    destruct Hy' as [<-|[]]. contradiction.
  - apply NoDup_singleton.
Qed.

Lemma find_forListing_None listingId rows :
  List.find (Prisma.forListing listingId) rows = None
  <-> ~ In listingId (List.map DropPointAssignment.listingId rows).
Proof.
  induction rows as [|a rows IH]; simpl; [tauto|].
  unfold Prisma.forListing at 1.
  destruct (DropPointAssignment.listingId a =? listingId) eqn:E.
  - apply Z.eqb_eq in E. split; [discriminate | tauto].
  - apply Z.eqb_neq in E. rewrite IH. tauto.
Qed.

(** X9: create, then look up.  For a listing without an assignment,
    [createAssignment] returns a row with status [ASSIGNED] under the
    next id; [getAssignmentByListingId] then returns that row, and the
    lookup of any other listing is as before. *)
Theorem createAssignment_then_lookup input db :
  assignmentOf db (ca_listingId input) = None ->
  exists db' a,
    createAssignment input db = (db', Ok a)
    /\ getAssignmentByListingId (ca_listingId input) db' = (db', Ok (Some a))
    /\ DropPointAssignment.id a = nextAssignmentId db
    /\ DropPointAssignment.listingId a = ca_listingId input
    /\ DropPointAssignment.dropPointId a = ca_dropPointId input
    /\ DropPointAssignment.status a = ASSIGNED
    /\ DropPointAssignment.changeReason a = None
    /\ DropPointAssignment.previousDropPointId a = None
    /\ forall listingId,
         listingId <> ca_listingId input ->
         getAssignmentByListingId listingId db'
         = (db', snd (getAssignmentByListingId listingId db)).
Proof.
  unfold assignmentOf. intros Hnew.
  destruct (createAssignment_fresh input db Hnew) as (a & Hrun & Ha).
  eexists. exists a. split; [exact Hrun|].
  unfold getAssignmentByListingId, Prisma.dropPointAssignment_findUnique, query.
  simpl. rewrite find_app, Hnew. subst a. simpl.
  unfold Prisma.forListing at 1. simpl. rewrite Z.eqb_refl.
  repeat split.
  intros l Hl. rewrite find_app.
  destruct (List.find (Prisma.forListing l) (dropPointAssignments db));
    [reflexivity|].
  simpl. unfold Prisma.forListing at 1. simpl.
  apply Z.eqb_neq in Hl. rewrite Z.eqb_sym, Hl. reflexivity.
Qed.

Lemma updateFirst_map {A B} (p : A -> bool) (f : A -> A) (g : A -> B) l :
  (forall x, g (f x) = g x) ->
  List.map g (Prisma.updateFirst p f l) = List.map g l.
Proof.
  intros H. induction l as [|y l IH]; simpl; [reflexivity|].
  destruct (p y); simpl; [rewrite H | rewrite IH]; reflexivity.
Qed.

Lemma reassignDropPoint_rows listingId newDropPointId changeReason db :
  let db' := fst (reassignDropPoint listingId newDropPointId changeReason db) in
  dropPoints db' = dropPoints db
  /\ timeSlotCapacities db' = timeSlotCapacities db
  /\ nextSlotId db' = nextSlotId db
  /\ List.map DropPointAssignment.listingId (dropPointAssignments db')
     = List.map DropPointAssignment.listingId (dropPointAssignments db).
Proof.
  cbv zeta. rewrite reassignDropPoint_run.
  destruct (snd (getAssignmentWithDropPoint listingId db)) as [[[a dp]|]|];
    [|repeat split..].
  destruct (snd (findById newDropPointId db)) as [[newDp|]|]; [|repeat split..].
  simpl. repeat split. apply updateFirst_map. reflexivity.
Qed.

(** X10: one assignment per listing.  When no two assignment rows share
    a listing, that is still so after [assignDropPoint] and after
    [reassignDropPoint], whether they return or throw. *)
Theorem one_assignment_per_listing haversine now input listingId newDropPointId
    changeReason db :
  listingsOk db = true ->
  listingsOk (fst (assignDropPoint haversine now input db)) = true
  /\ listingsOk
       (fst (reassignDropPoint listingId newDropPointId changeReason db))
     = true.
Proof.
  unfold listingsOk. intros Hok. split.
  - destruct (findNearby_query haversine (farmerLocation input)
                DEFAULT_SEARCH_RADIUS_KM 20 false db) as ([|c0 rest] & Hq).
    + rewrite assignDropPoint_empty by (rewrite Hq; reflexivity). exact Hok.
    + destruct (assignDropPoint_run haversine now input db c0 rest)
        as (db1 & s & (_ & A & _) & _ & ->); [rewrite Hq; reflexivity|].
      destruct (reserved_frame db1 s (quantityKg input)) as (_ & RA & _).
      unfold persisted. rewrite RA, A.
      destruct (List.find _ (dropPointAssignments db)) eqn:Hfind; simpl.
      * rewrite RA, A. exact Hok.
      * rewrite map_app. simpl. apply distinct_snoc; [exact Hok|].
        apply find_forListing_None. exact Hfind.
  - destruct (reassignDropPoint_rows listingId newDropPointId changeReason db)
      as (_ & _ & _ & ->).
    exact Hok.
Qed.

Lemma distinctStrings_find (l : list DropPoint.t) dp :
  distinctStrings (List.map DropPoint.id l) = true ->
  In dp l ->
  List.find (fun x => String.eqb (DropPoint.id x) (DropPoint.id dp)) l = Some dp.
Proof.
  induction l as [|y l IH]; simpl; intros Hd Hin; [contradiction|].
  apply andb_prop in Hd as [Hy Hd]. apply negb_true_iff in Hy.
  destruct Hin as [->|Hin].
  - rewrite String.eqb_refl. reflexivity.
  - destruct (String.eqb (DropPoint.id y) (DropPoint.id dp)) eqn:E.
    + exfalso. apply String.eqb_eq in E.
      assert (existsb (String.eqb (DropPoint.id y)) (List.map DropPoint.id l)
              = true) as Hex; [|congruence].
      apply existsb_exists. exists (DropPoint.id dp).
      split; [apply in_map, Hin | rewrite E; apply String.eqb_refl].
    + apply IH; assumption.
Qed.

Lemma assignDropPoint_points haversine now input db :
  dropPoints (fst (assignDropPoint haversine now input db)) = dropPoints db.
Proof.
  destruct (findNearby_query haversine (farmerLocation input)
              DEFAULT_SEARCH_RADIUS_KM 20 false db) as ([|c0 rest] & Hq).
  - rewrite assignDropPoint_empty by (rewrite Hq; reflexivity). reflexivity.
  - destruct (assignDropPoint_run haversine now input db c0 rest)
      as (db1 & s & (P & _) & _ & ->); [rewrite Hq; reflexivity|].
    destruct (reserved_frame db1 s (quantityKg input)) as (RP & _).
    unfold persisted. destruct (List.find _ _); simpl; congruence.
Qed.

(** X11: the keys and references of the tables are kept.  After
    [assignDropPoint] and after [reassignDropPoint], returning or
    throwing: slot ids are still positive, below the counter and
    distinct; every assignment still refers to a drop point of the
    table; drop point ids are still distinct (the drop point table is
    not written at all). *)
Theorem keys_and_references_kept haversine now input listingId newDropPointId
    changeReason db :
  let db1 := fst (assignDropPoint haversine now input db) in
  let db2 := fst (reassignDropPoint listingId newDropPointId changeReason db) in
  (slotIdsOk db = true -> slotIdsOk db1 = true /\ slotIdsOk db2 = true)
  /\ (referencesOk db = true ->
      referencesOk db1 = true /\ referencesOk db2 = true)
  /\ (pointIdsOk db = true -> pointIdsOk db1 = true /\ pointIdsOk db2 = true)
  /\ dropPoints db1 = dropPoints db
  /\ dropPoints db2 = dropPoints db.
Proof.
  cbv zeta.
  destruct (reassignDropPoint_rows listingId newDropPointId changeReason db)
    as (P2 & S2 & N2 & _).
  pose proof (assignDropPoint_points haversine now input db) as P1.
  split; [|split; [|split; [|split]]].
  - intros Hok. split.
    + eapply assignDropPoint_slotIdsOk; [exact Hok | apply surjective_pairing].
    + apply (slotIdsOk_ext db); [rewrite S2; reflexivity | exact N2 | exact Hok].
  - intros Hok. split.
    + eapply assignDropPoint_referencesOk; [exact Hok | apply surjective_pairing].
    + eapply reassignDropPoint_referencesOk;
        [exact Hok | apply surjective_pairing].
  - unfold pointIdsOk. rewrite P1, P2. auto.
  - exact P1.
  - exact P2.
Qed.

(* ====================================================================== *)
(** * Ordered queries *)
(* ====================================================================== *)

Section Ordered.

Context {A : Type}.

Lemma In_insertOrdered (le : A -> A -> bool) x y l :
  In x (insertOrdered le y l) <-> x = y \/ In x l.
Proof.
  induction l as [|z l IH]; simpl.
  - intuition congruence.
  - destruct (le y z); simpl; [intuition congruence|].
    rewrite IH. intuition congruence.
Qed.

Lemma In_sortOrdered (le : A -> A -> bool) x l :
  In x (sortOrdered le l) <-> In x l.
Proof.
  induction l as [|y l IH]; simpl; [tauto|].
  rewrite In_insertOrdered, IH. intuition congruence.
Qed.

Lemma Forall_insertOrdered (le : A -> A -> bool) (P : A -> Prop) x l :
  P x -> Forall P l -> Forall P (insertOrdered le x l).
Proof.
  intros Hx Hl. apply List.Forall_forall. intros y Hy.
  apply In_insertOrdered in Hy as [->|Hy]; [exact Hx|].
  rewrite List.Forall_forall in Hl. apply Hl, Hy.
Qed.

Lemma sortOrdered_by_key (key : A -> Z) l :
  StronglySorted (fun a b => key a <= key b)
    (sortOrdered (fun a b => key a <=? key b) l).
Proof.
  induction l as [|x l IH]; simpl; [constructor|].
  revert IH. generalize (sortOrdered (fun a b => key a <=? key b) l).
  intros s. induction 1 as [|y s Hs IHs Hy]; simpl.
  - constructor; constructor.
  - destruct (key x <=? key y) eqn:E.
    + apply Z.leb_le in E. constructor; [constructor; assumption|].
      constructor; [exact E|].
      eapply Forall_impl; [exact Hy|]. simpl. intros z Hz. lia.
    + apply Z.leb_gt in E. constructor; [exact IHs|].
      apply Forall_insertOrdered; [lia | exact Hy].
Qed.

End Ordered.

Lemma sorted_map {A B} (R : A -> A -> Prop) (R' : B -> B -> Prop) (f : A -> B) l :
  (forall a b, R a b -> R' (f a) (f b)) ->
  StronglySorted R l -> StronglySorted R' (List.map f l).
Proof.
  intros H. induction 1 as [|x l Hl IH Hx]; simpl; constructor; [exact IH|].
  apply Forall_map. eapply Forall_impl; [exact Hx|]. intros y. apply H.
Qed.

Lemma checkSlotCapacity_slot dropPointId date startHour requiredKg db :
  exists db1 check s,
    checkSlotCapacity dropPointId date startHour requiredKg db
    = (db1, Ok check)
    /\ slot check = Some s
    /\ In s (timeSlotCapacities db1)
    /\ Prisma.slotMatches dropPointId date startHour s = true.
Proof.
  destruct (List.find (Prisma.slotMatches dropPointId date startHour)
                      (timeSlotCapacities db)) as [s|] eqn:Hs.
  - exists db. eexists. exists s.
    split; [apply checkSlotCapacity_found; exact Hs|].
    apply find_some in Hs as [Hin Hm]. simpl. auto.
  - eexists. eexists. eexists.
    split; [apply checkSlotCapacity_fresh; exact Hs|]. simpl.
    split; [reflexivity|]. split.
    + apply in_or_app. right. left. reflexivity.
    + apply slotMatches_refl.
Qed.

(** X13: a slot that [checkSlotCapacity] has returned is listed.  After
    the check for a point, date and start hour, [getAvailableSlots]
    finds the returned slot, both under that start hour and under no
    start hour. *)
Theorem checked_slot_is_listed dropPointId date startHour requiredKg db :
  exists db1 check s slots slots',
    checkSlotCapacity dropPointId date startHour requiredKg db
    = (db1, Ok check)
    /\ slot check = Some s
    /\ getAvailableSlots
         {| tf_dropPointId := dropPointId; tf_date := date;
            tf_startHour := Some startHour |} db1 = (db1, Ok slots)
    /\ In s slots
    /\ getAvailableSlots
         {| tf_dropPointId := dropPointId; tf_date := date;
            tf_startHour := None |} db1 = (db1, Ok slots')
    /\ In s slots'.
Proof.
  destruct (checkSlotCapacity_slot dropPointId date startHour requiredKg db)
    as (db1 & check & s & Hrun & Hslot & Hin & Hm).
  exists db1, check, s. eexists. eexists.
  split; [exact Hrun|]. split; [exact Hslot|].
  unfold getAvailableSlots, timeSlotCapacity_findMany, query. simpl.
  unfold Prisma.slotMatches in Hm.
  apply andb_prop in Hm as [Hm H3].
  split; [reflexivity|]. split.
  - apply In_sortOrdered, filter_In. split; [exact Hin|].
    rewrite Hm, H3. reflexivity.
  - split; [reflexivity|].
    apply In_sortOrdered, filter_In. split; [exact Hin|].
    rewrite Hm. reflexivity.
Qed.

(* ====================================================================== *)
(** * Upcoming deliveries *)
(* ====================================================================== *)

Lemma statusEqb_eq a b : statusEqb a b = true <-> a = b.
Proof. destruct a, b; simpl; split; congruence. Qed.

(** The rows [getUpcomingDeliveries] is made of. *)
Lemma getUpcomingDeliveries_rows farmerId db :
  exists rows,
    getUpcomingDeliveries farmerId db = (db, Ok (List.map deliveryOf rows))
    /\ (forall a dp,
          In (a, dp) rows
          <-> In a (dropPointAssignments db)
              /\ DropPointAssignment.farmerId a = farmerId
              /\ DropPointAssignment.status a = ASSIGNED
              /\ pointOf db (DropPointAssignment.dropPointId a) = Some dp)
    /\ StronglySorted
         (fun x y => DropPointAssignment.pickupWindowStart (fst x)
                     <= DropPointAssignment.pickupWindowStart (fst y))
         rows.
Proof.
  unfold getUpcomingDeliveries, findAssignmentsByFarmerId,
    dropPointAssignment_findMany, bind, query, ret.
  eexists. split; [reflexivity|]. split.
  - intros a dp. rewrite In_sortOrdered, <- list_elem_of_In, list_elem_of_omap.
    unfold pointOf. split.
    + intros (a' & Hin & Hjoin).
      apply list_elem_of_In, filter_In in Hin as [Hin Hf].
      destruct (List.find _ (dropPoints db)) as [dp'|] eqn:Hdp; [|discriminate].
      injection Hjoin as -> ->.
      apply andb_prop in Hf as [Hf Hs].
      apply Z.eqb_eq in Hf. apply statusEqb_eq in Hs. auto.
    + intros (Hin & Hf & Hs & Hdp). exists a. split.
      * apply list_elem_of_In, filter_In. split; [exact Hin|].
        rewrite Hf, Hs, Z.eqb_refl. reflexivity.
      * rewrite Hdp. reflexivity.
  - apply (sortOrdered_by_key
             (fun x => DropPointAssignment.pickupWindowStart (fst x))).
Qed.

(** X15: [getUpcomingDeliveries] only reads.  Every delivery it lists
    is built from an assignment row of that supplier with status
    [ASSIGNED], joined with the drop point the row refers to, and
    reports the row's distance, window and crates; the list is in
    ascending order of pickup-window start. *)
Theorem getUpcomingDeliveries_contract farmerId db :
  exists deliveries,
    getUpcomingDeliveries farmerId db = (db, Ok deliveries)
    /\ Forall
         (fun d =>
            In (assignment d) (dropPointAssignments db)
            /\ DropPointAssignment.farmerId (assignment d) = farmerId
            /\ DropPointAssignment.status (assignment d) = ASSIGNED
            /\ dp_id (dropPoint d)
               = DropPointAssignment.dropPointId (assignment d)
            /\ dp_distanceKm (dropPoint d)
               = DropPointAssignment.distanceKm (assignment d)
            /\ start (pickupWindow d)
               = DropPointAssignment.pickupWindowStart (assignment d)
            /\ end_ (pickupWindow d)
               = DropPointAssignment.pickupWindowEnd (assignment d)
            /\ cratesNeeded d = DropPointAssignment.cratesNeeded (assignment d))
         deliveries
    /\ StronglySorted
         (fun x y => start (pickupWindow x) <= start (pickupWindow y))
         deliveries.
Proof.
  destruct (getUpcomingDeliveries_rows farmerId db) as (rows & Hrun & Hrows & Hs).
  eexists. split; [exact Hrun|]. split.
  - apply List.Forall_forall. intros d Hd.
    apply in_map_iff in Hd as ([a dp] & <- & Hin).
    apply Hrows in Hin as (Hin & Hf & Hst & Hdp). simpl.
    unfold pointOf in Hdp. apply find_some in Hdp as [_ Hid].
    apply String.eqb_eq in Hid. repeat split; assumption.
  - eapply sorted_map; [|exact Hs]. intros x y H. exact H.
Qed.

(** X16: an assignment that has just been made is an upcoming delivery
    of its supplier, with the window, crates, drop point id and
    distance that [assignDropPoint] returned. *)
Theorem assigned_is_upcoming haversine now input db db' r :
  assignDropPoint haversine now input db = (db', Ok r) ->
  exists deliveries d,
    getUpcomingDeliveries (farmerId input) db' = (db', Ok deliveries)
    /\ In d deliveries
    /\ assignment d = assignment r
    /\ pickupWindow d = pickupWindow r
    /\ cratesNeeded d = cratesNeeded r
    /\ dp_id (dropPoint d) = dp_id (dropPoint r)
    /\ dp_distanceKm (dropPoint d) = dp_distanceKm (dropPoint r).
Proof.
  intros Hrun.
  pose proof (assignDropPoint_points haversine now input db) as Hpts.
  rewrite Hrun in Hpts. simpl in Hpts.
  apply assignDropPoint_Ok in Hrun
    as (c0 & rest & db1 & s & Hnear & _ & _ & _ & -> & Hdb').
  set (chosen := default c0 (List.find (feasibleFor db now input) (c0 :: rest)))
    in *.
  assert (Hin : In chosen (c0 :: rest)).
  { subst chosen. destruct (List.find _ (c0 :: rest)) as [c|] eqn:Hf.
    - apply find_some in Hf as [Hf _]. exact Hf.
    - left. reflexivity. }
  apply (findNearby_points haversine (farmerLocation input)
           DEFAULT_SEARCH_RADIUS_KM 20 false db (c0 :: rest) chosen Hnear)
    in Hin.
  destruct (getUpcomingDeliveries_rows (farmerId input) db')
    as (rows & Hup & Hrows & _).
  set (a := assignmentRow (nextAssignmentId db) now input chosen) in *.
  assert (exists dp, pointOf db' (DropPointAssignment.dropPointId a) = Some dp
                     /\ DropPoint.id dp = DropPoint.id (point chosen))
    as (dp & Hdp & Hid).
  { unfold pointOf. rewrite Hpts.
    destruct (proj1 (find_existsb
                (fun dp => String.eqb (DropPoint.id dp) (DropPoint.id (point chosen)))
                (dropPoints db))) as (dp & Hdp).
    - apply existsb_exists. exists (point chosen).
      split; [exact Hin | apply String.eqb_refl].
    - exists dp. split; [exact Hdp|].
      apply find_some in Hdp as [_ Hdp]. apply String.eqb_eq, Hdp. }
  exists (List.map deliveryOf rows), (deliveryOf (a, dp)).
  split; [exact Hup|]. split.
  - apply in_map, Hrows. split; [|repeat split; exact Hdp].
    rewrite Hdb'. simpl. apply in_or_app. right. left. reflexivity.
  - simpl. rewrite Hid. repeat split.
Qed.

(** X17: a reassigned listing is no upcoming delivery.  When no two
    assignment rows share a listing, after a reassignment that returns,
    no supplier's upcoming deliveries contain that listing: its row now
    has status [REASSIGNED], and only [ASSIGNED] rows are listed. *)
Theorem reassigned_is_not_upcoming listingId newDropPointId changeReason
    db db' r farmerId :
  listingsOk db = true ->
  reassignDropPoint listingId newDropPointId changeReason db = (db', Ok r) ->
  exists deliveries,
    getUpcomingDeliveries farmerId db' = (db', Ok deliveries)
    /\ Forall (fun d => DropPointAssignment.listingId (assignment d)
                        <> listingId)
              deliveries.
Proof.
  unfold listingsOk. intros Hok Hrun.
  rewrite reassignDropPoint_run in Hrun.
  unfold getAssignmentWithDropPoint, findById,
    Prisma.dropPointAssignment_findUnique_include,
    Prisma.dropPoint_findUnique, query in Hrun. cbn [snd] in Hrun.
  destruct (List.find (Prisma.forListing listingId) (dropPointAssignments db))
    as [a|] eqn:Ha; [|discriminate].
  destruct (List.find _ (dropPoints db)) as [dp|]; [|discriminate].
  destruct (List.find _ (dropPoints db)) as [newDp|]; [|discriminate].
  injection Hrun as <- _.
  destruct (find_split _ _ _ Ha) as (pre & post & E & Hpre & Hl).
  apply Z.eqb_eq in Hl.
  rewrite E, map_app in Hok. simpl in Hok. rewrite Hl in Hok.
  apply distinct_app_cons in Hok as (Hnpre & Hnpost & _).
  match goal with
  | |- context [getUpcomingDeliveries farmerId ?d] =>
      destruct (getUpcomingDeliveries_rows farmerId d) as (rows & Hup & Hrows & _)
  end.
  eexists. split; [exact Hup|].
  apply List.Forall_forall. intros d Hd.
  apply in_map_iff in Hd as ([a' dp'] & <- & Hin).
  apply Hrows in Hin as (Hin & _ & Hst & _). simpl in Hin |- *.
  rewrite E, (updateFirst_first _ _ _ _ _ Hpre (proj2 (Z.eqb_eq _ _) Hl)) in Hin.
  apply in_app_or in Hin as [Hin|[<-|Hin]].
  - intros Heq. apply Hnpre. rewrite <- Heq. apply in_map, Hin.
  - discriminate.
  - intros Heq. apply Hnpost. rewrite <- Heq. apply in_map, Hin.
Qed.

(** X18: assign, then read back.  When drop point ids are distinct,
    after [assignDropPoint] has returned a result, [getAssignment] for
    the listing returns that same result and writes nothing. *)
Theorem assign_then_getAssignment haversine now input db db' r :
  pointIdsOk db = true ->
  assignDropPoint haversine now input db = (db', Ok r) ->
  getAssignment (listingId input) db' = (db', Ok (Some r)).
Proof.
  unfold pointIdsOk. intros Hok Hrun.
  pose proof (assignDropPoint_points haversine now input db) as Hpts.
  rewrite Hrun in Hpts. simpl in Hpts.
  apply assignDropPoint_Ok in Hrun
    as (c0 & rest & db1 & s & Hnear & _ & _ & Hnew & -> & Hdb').
  set (chosen := default c0 (List.find (feasibleFor db now input) (c0 :: rest)))
    in *.
  assert (Hin : In chosen (c0 :: rest)).
  { subst chosen. destruct (List.find _ (c0 :: rest)) as [c|] eqn:Hf.
    - apply find_some in Hf as [Hf _]. exact Hf.
    - left. reflexivity. }
  apply (findNearby_points haversine (farmerLocation input)
           DEFAULT_SEARCH_RADIUS_KM 20 false db (c0 :: rest) chosen Hnear)
    in Hin.
  assert (Hrows : dropPointAssignments db'
                  = dropPointAssignments db
                    ++ [assignmentRow (nextAssignmentId db) now input chosen]).
  { rewrite Hdb'. reflexivity. }
  unfold getAssignment, getAssignmentWithDropPoint,
    Prisma.dropPointAssignment_findUnique_include, bind, query, ret.
  cbv beta. rewrite Hpts, Hrows, find_app, Hnew. simpl.
  unfold Prisma.forListing at 1. simpl. rewrite Z.eqb_refl.
  change (DropPointAssignment.dropPointId
            (assignmentRow (nextAssignmentId db) now input chosen))
    with (DropPoint.id (point chosen)).
  rewrite (distinctStrings_find _ _ Hok Hin). reflexivity.
Qed.

(** X19: one level of history.  After a listing has been reassigned to
    one drop point and then to another, its row has the second as drop
    point, the first as previous drop point and the second change
    reason; the drop point it had before the first reassignment is no
    longer recorded, and distance, window and crates are still those of
    the original assignment. *)
Theorem reassigned_twice listingId first second reason1 reason2
    db db1 db2 r1 r2 :
  reassignDropPoint listingId first reason1 db = (db1, Ok r1) ->
  reassignDropPoint listingId second reason2 db1 = (db2, Ok r2) ->
  exists a,
    assignmentOf db listingId = Some a
    /\ assignment r2
       = DropPointAssignment.mk
           (DropPointAssignment.id a) (DropPointAssignment.listingId a)
           second
           (DropPointAssignment.farmerId a)
           (DropPointAssignment.farmerLatitude a)
           (DropPointAssignment.farmerLongitude a)
           (DropPointAssignment.distanceKm a)
           (DropPointAssignment.pickupWindowStart a)
           (DropPointAssignment.pickupWindowEnd a)
           (DropPointAssignment.cratesNeeded a)
           REASSIGNED (Some reason2) (Some first)
    /\ assignmentOf db2 listingId = Some (assignment r2).
Proof.
  unfold assignmentOf. intros H1 H2.
  rewrite reassignDropPoint_run in H1, H2.
  unfold getAssignmentWithDropPoint, findById,
    Prisma.dropPointAssignment_findUnique_include,
    Prisma.dropPoint_findUnique, query in H1, H2. cbn [snd] in H1, H2.
  destruct (List.find (Prisma.forListing listingId) (dropPointAssignments db))
    as [a|] eqn:Ha; [|discriminate].
  destruct (List.find _ (dropPoints db)) as [dp|] in H1; [|discriminate].
  destruct (List.find _ (dropPoints db)) as [newDp|] in H1; [|discriminate].
  injection H1 as <- <-.
  cbn [dropPointAssignments dropPoints withAssignments] in H2.
  assert (Hl : forall x d reason,
             Prisma.forListing listingId (applyUpdate (reassignData x d reason) a)
             = true).
  { intros x d reason. apply find_some in Ha as [_ Ha]. exact Ha. }
  rewrite (find_updateFirst_same _ _ _ _ Ha (Hl a first reason1)) in H2.
  destruct (List.find _ (dropPoints db)) as [dp1|] in H2; [|discriminate].
  destruct (List.find _ (dropPoints db)) as [newDp2|] in H2; [|discriminate].
  injection H2 as <- <-.
  exists a. split; [reflexivity|]. split; [reflexivity|].
  cbn [dropPointAssignments withAssignments assignment].
  apply (find_updateFirst_same (Prisma.forListing listingId)
           (applyUpdate (reassignData (applyUpdate (reassignData a first reason1) a)
                           second reason2))).
  - apply find_updateFirst_same; [exact Ha | apply Hl].
  - apply find_some in Ha as [_ Ha]. exact Ha.
Qed.

(* ====================================================================== *)
(** * Capacity after [assignDropPoint] *)
(* ====================================================================== *)

(** The numbers of a slot found after the scan are those the point had
    before it, or those of a fresh slot. *)
Lemma slotsAdded_numbers date ids db db1 dropPointId s :
  slotsAdded date ids db db1 ->
  slotFor db1 dropPointId date = Some s ->
  TimeSlotCapacity.usedCapacityKg s = slotUsedKg db dropPointId date
  /\ TimeSlotCapacity.maxCapacityKg s = slotMaxKg db dropPointId date.
Proof.
  intros Hadd Hfor. unfold slotUsedKg, slotMaxKg.
  destruct (slotFor db dropPointId date) as [s0|] eqn:H0.
  - apply (slotsAdded_slotFor _ _ _ _ _ _ _ Hadd) in H0.
    rewrite H0 in Hfor. injection Hfor as ->. split; reflexivity.
  - destruct Hadd as (_ & _ & _ & extra & Ex & F & _).
    unfold slotFor in Hfor, H0. rewrite Ex, find_app, H0 in Hfor.
    apply find_some in Hfor as [Hin _].
    rewrite List.Forall_forall in F.
    destruct (F s Hin) as (_ & _ & _ & _ & Hmax & Hused). auto.
Qed.

(** What a call leaves in the slot table, from the first candidate on:
    the table with the lazily created slots, in which the row of the
    chosen point is the one incremented. *)
Lemma assignDropPoint_reserved haversine now input db c0 rest :
  slotIdsOk db = true ->
  snd (findNearby haversine (farmerLocation input) DEFAULT_SEARCH_RADIUS_KM
         20 false db) = Ok (c0 :: rest) ->
  let chosen := default c0 (List.find (feasibleFor db now input) (c0 :: rest)) in
  let db' := fst (assignDropPoint haversine now input db) in
  exists db1 pre s post,
    slotsAdded (dateOf now input) (idsOf (c0 :: rest)) db db1
    /\ slotFor db1 (DropPoint.id (point chosen)) (dateOf now input) = Some s
    /\ TimeSlotCapacity.id s <> 0
    /\ timeSlotCapacities db1 = pre ++ s :: post
    /\ timeSlotCapacities db'
       = pre ++ Prisma.incrementUsed (quantityKg input) s :: post
    /\ slotFor db' (DropPoint.id (point chosen)) (dateOf now input)
       = Some (Prisma.incrementUsed (quantityKg input) s).
Proof.
  intros Hok Hnear. cbv zeta.
  destruct (assignDropPoint_run haversine now input db c0 rest Hnear)
    as (db1 & s & Hadd & Hfor & ->).
  set (chosen := default c0 (List.find (feasibleFor db now input) (c0 :: rest)))
    in *.
  pose proof (slotsAdded_slotIdsOk _ _ _ _ Hadd Hok) as Hok1.
  destruct (slotIds_designate _ (Prisma.incrementUsed (quantityKg input))
              db1 s Hok1 Hfor) as (pre & post & E & Hpre & Hm & _ & Hup).
  destruct (slotIdsOk_designates db1 _ _ s (fun x => x) Hok1 Hfor) as (Hid & _).
  assert (Hslots :
    timeSlotCapacities
      (fst (persisted (reserved db1 s (quantityKg input)) now input chosen))
    = pre ++ Prisma.incrementUsed (quantityKg input) s :: post).
  { pose proof Hid as Hid'. apply Z.eqb_neq in Hid'. unfold persisted.
    destruct (List.find (Prisma.forListing _) _); simpl;
      unfold reserved; rewrite Hid'; simpl; exact Hup. }
  exists db1, pre, s, post.
  split; [exact Hadd|]. split; [exact Hfor|]. split; [exact Hid|].
  split; [exact E|]. split; [exact Hslots|].
  unfold slotFor. rewrite Hslots. apply find_first; [exact Hpre | exact Hm].
Qed.

(** The slot table after step 5, whatever the ids: with the slot [s] in
    hand, nothing is written when its id is 0, and otherwise the first
    row that carries the id of [s] has the quantity added. *)
Lemma reserved_rows db s kg dropPointId date :
  slotFor db dropPointId date = Some s ->
  (TimeSlotCapacity.id s = 0 ->
   timeSlotCapacities (reserved db s kg) = timeSlotCapacities db)
  /\ (TimeSlotCapacity.id s <> 0 ->
      exists pre x post,
        timeSlotCapacities db = pre ++ x :: post
        /\ Forall (fun y => TimeSlotCapacity.id y <> TimeSlotCapacity.id s) pre
        /\ TimeSlotCapacity.id x = TimeSlotCapacity.id s
        /\ timeSlotCapacities (reserved db s kg)
           = pre ++ Prisma.incrementUsed kg x :: post).
Proof.
  intros Hfor. unfold reserved. split.
  - intros H0. apply Z.eqb_eq in H0. rewrite H0. reflexivity.
  - intros H0. pose proof H0 as H0'. apply Z.eqb_neq in H0'. rewrite H0'.
    cbn [timeSlotCapacities withSlots].
    unfold slotFor in Hfor. apply find_some in Hfor as [Hin _].
    destruct (proj1 (find_existsb
                (fun x => TimeSlotCapacity.id x =? TimeSlotCapacity.id s)
                (timeSlotCapacities db))) as (x & Hx).
    { apply existsb_exists. exists s. split; [exact Hin | apply Z.eqb_refl]. }
    destruct (find_split _ _ _ Hx) as (pre & post & E & Hpre & Hid).
    exists pre, x, post. split; [exact E|]. split.
    { eapply Forall_impl; [exact Hpre|]. simpl. intros y Hy.
      apply Z.eqb_neq. exact Hy. }
    split; [apply Z.eqb_eq; exact Hid|].
    rewrite E. apply updateFirst_first; assumption.
Qed.

(* ====================================================================== *)
(** * C2: the fallback to the nearest candidate *)
(* ====================================================================== *)

(** C2: when the candidate list is [c0 :: rest] and no candidate passes
    both checks, the call still returns: it assigns [c0], the nearest,
    with status [ASSIGNED], whatever its capacity and crates.  The row
    it returns is appended to the assignment table, with the listing,
    the supplier, [c0]'s id and distance and the crates needed; the drop
    points, and so the crate inventories, are as before.  The slot in
    hand after the fallback is the slot of [c0] for the preferred date
    at hour 7, found or created by the scan: the reservation goes to
    the first row that carries its id (to none when the id is 0), which
    gets the quantity added to what is used and is otherwise as it
    was.  So the database holds a slot for [c0] afterwards, and, slot
    ids being positive and distinct, that slot is the one reserved: its
    capacity is what the point had (1000 for a slot created on the way)
    and what is used is what was used (0 for such a slot) plus the
    quantity. *)
Theorem fallback_to_nearest haversine now input db c0 rest :
  snd (findNearby haversine (farmerLocation input) DEFAULT_SEARCH_RADIUS_KM
         20 false db) = Ok (c0 :: rest) ->
  Forall (fun d => feasibleFor db now input d = false) (c0 :: rest) ->
  List.find (Prisma.forListing (listingId input)) (dropPointAssignments db)
  = None ->
  exists db' r,
    assignDropPoint haversine now input db = (db', Ok r)
    /\ dropPoint r = publicFields (point c0) (distanceKm c0)
    /\ DropPointAssignment.dropPointId (assignment r) = DropPoint.id (point c0)
    /\ DropPointAssignment.status (assignment r) = ASSIGNED
    /\ (exists s, slotFor db' (DropPoint.id (point c0)) (dateOf now input)
                  = Some s)
    /\ (DropPointAssignment.id (assignment r) = nextAssignmentId db
        /\ DropPointAssignment.listingId (assignment r) = listingId input
        /\ DropPointAssignment.farmerId (assignment r) = farmerId input
        /\ DropPointAssignment.distanceKm (assignment r) = distanceKm c0
        /\ DropPointAssignment.cratesNeeded (assignment r) = cratesNeeded r)
    /\ dropPointAssignments db' = dropPointAssignments db ++ [assignment r]
    /\ dropPoints db' = dropPoints db
    /\ (exists db1 s,
          slotsAdded (dateOf now input) (idsOf (c0 :: rest)) db db1
          /\ slotFor db1 (DropPoint.id (point c0)) (dateOf now input) = Some s
          /\ (TimeSlotCapacity.id s = 0 ->
              timeSlotCapacities db' = timeSlotCapacities db1)
          /\ (TimeSlotCapacity.id s <> 0 ->
              exists pre x x' post,
                timeSlotCapacities db1 = pre ++ x :: post
                /\ Forall (fun y => TimeSlotCapacity.id y
                                    <> TimeSlotCapacity.id s) pre
                /\ TimeSlotCapacity.id x = TimeSlotCapacity.id s
                /\ timeSlotCapacities db' = pre ++ x' :: post
                /\ TimeSlotCapacity.usedCapacityKg x'
                   = TimeSlotCapacity.usedCapacityKg x + quantityKg input
                /\ TimeSlotCapacity.id x' = TimeSlotCapacity.id x
                /\ TimeSlotCapacity.dropPointId x'
                   = TimeSlotCapacity.dropPointId x
                /\ TimeSlotCapacity.slotDate x' = TimeSlotCapacity.slotDate x
                /\ TimeSlotCapacity.slotStartHour x'
                   = TimeSlotCapacity.slotStartHour x
                /\ TimeSlotCapacity.slotEndHour x'
                   = TimeSlotCapacity.slotEndHour x
                /\ TimeSlotCapacity.maxCapacityKg x'
                   = TimeSlotCapacity.maxCapacityKg x))
    /\ (slotIdsOk db = true ->
        exists s',
          slotFor db' (DropPoint.id (point c0)) (dateOf now input) = Some s'
          /\ TimeSlotCapacity.maxCapacityKg s'
             = slotMaxKg db (DropPoint.id (point c0)) (dateOf now input)
          /\ TimeSlotCapacity.usedCapacityKg s'
             = slotUsedKg db (DropPoint.id (point c0)) (dateOf now input)
               + quantityKg input).
Proof.
  intros Hnear Hnone Hnew.
  destruct (assignDropPoint_returns haversine now input db c0 rest Hnear Hnew)
    as (db' & r & Hrun).
  exists db', r. split; [exact Hrun|].
  pose proof Hrun as Hrun'.
  apply assignDropPoint_Ok in Hrun
    as (c1 & rest1 & db1 & s & Hnear1 & Hadd & Hfor & _ & -> & ->).
  rewrite Hnear in Hnear1. injection Hnear1 as <- <-.
  rewrite (find_all_false _ _ Hnone) in Hfor |- *. simpl in Hfor |- *.
  split; [reflexivity|]. split; [reflexivity|]. split; [reflexivity|].
  split.
  { apply (reserved_slotFor db1 s (quantityKg input)) in Hfor as (s' & Hs').
    exists s'. exact Hs'. }
  split; [repeat split|].
  destruct (reserved_frame db1 s (quantityKg input)) as (RP & _).
  pose proof Hadd as (P & _).
  split; [reflexivity|]. split; [rewrite RP; exact P|].
  split.
  { exists db1, s. split; [exact Hadd|]. split; [exact Hfor|].
    destruct (reserved_rows db1 s (quantityKg input) _ _ Hfor) as (Hzero & Hpos).
    split; [exact Hzero|].
    intros Hid. destruct (Hpos Hid) as (pre & x & post & E & Hpre & Hx & Hrows).
    exists pre, x, (Prisma.incrementUsed (quantityKg input) x), post.
    split; [exact E|]. split; [exact Hpre|]. split; [exact Hx|].
    split; [exact Hrows|]. repeat split. }
  intros Hok.
  destruct (assignDropPoint_reserved haversine now input db c0 rest Hok Hnear)
    as (db2 & pre & s2 & post & Hadd2 & Hfor2 & _ & _ & _ & Hafter).
  rewrite Hrun', (find_all_false _ _ Hnone) in Hafter. simpl in Hafter.
  rewrite (find_all_false _ _ Hnone) in Hfor2. simpl in Hfor2.
  destruct (slotsAdded_numbers _ _ _ _ _ _ Hadd2 Hfor2) as (Hused & Hmax).
  eexists. split; [exact Hafter|]. simpl. split; [exact Hmax|].
  rewrite Hused. reflexivity.
Qed.

Lemma fallback_to_nearest_witness :
  let input := Example.request 7 2000 in
  let c0 := Example.candidate Example.malur (50 # 100) in
  exists db' r,
    assignDropPoint Example.planar Example.mondayNoon input Example.db3
    = (db', Ok r)
    /\ dropPoint r = publicFields (point c0) (distanceKm c0)
    /\ DropPointAssignment.status (assignment r) = ASSIGNED
    /\ dropPointAssignments db' = [assignment r]
    /\ exists s',
         slotFor db' "dp-malur" (dateOf Example.mondayNoon input) = Some s'
         /\ TimeSlotCapacity.maxCapacityKg s' = 1000
         /\ TimeSlotCapacity.usedCapacityKg s' = 2000.
Proof.
  cbv zeta.
  destruct (fallback_to_nearest Example.planar Example.mondayNoon
              (Example.request 7 2000) Example.db3
              (Example.candidate Example.malur (50 # 100))
              [Example.candidate Example.kolarMain (100 # 100);
               Example.candidate Example.bangarpet (300 # 100)])
    as (db' & r & Hrun & Hdp & _ & Hst & _ & _ & Hrows & _ & _ & Hslot).
  - reflexivity.
  - constructor; [reflexivity|]. constructor; [reflexivity|].
    constructor; [reflexivity | constructor].
  - reflexivity.
  - exists db', r. split; [exact Hrun|]. split; [exact Hdp|].
    split; [exact Hst|]. split; [exact Hrows|].
    apply Hslot. reflexivity.
Defined.

(* ====================================================================== *)
(** * C10: the slot is never null and is incremented once *)
(* ====================================================================== *)




(* ====================================================================== *)
(** * Over-booking and the missing rollback *)
(* ====================================================================== *)

(** X20: over-booking happens exactly in the fallback on a full slot.
    With slot ids positive and distinct and at least one candidate,
    after the call the slot of the chosen point (the first feasible
    candidate, else the nearest) has the capacity the point had before
    (1000 where the slot was created on the way) and as used what was
    used before (0 for such a slot) plus the quantity; it is used
    beyond its capacity exactly when the chosen point failed the
    capacity check, and a chosen point that passed it is never
    over-booked. *)
Theorem overbooked_iff_capacity_failed haversine now input db c0 rest :
  slotIdsOk db = true ->
  snd (findNearby haversine (farmerLocation input) DEFAULT_SEARCH_RADIUS_KM
         20 false db) = Ok (c0 :: rest) ->
  let chosen := default c0 (List.find (feasibleFor db now input) (c0 :: rest)) in
  let db' := fst (assignDropPoint haversine now input db) in
  exists s',
    slotFor db' (DropPoint.id (point chosen)) (dateOf now input) = Some s'
    /\ TimeSlotCapacity.maxCapacityKg s'
       = slotMaxKg db (DropPoint.id (point chosen)) (dateOf now input)
    /\ TimeSlotCapacity.usedCapacityKg s'
       = slotUsedKg db (DropPoint.id (point chosen)) (dateOf now input)
         + quantityKg input
    /\ (TimeSlotCapacity.maxCapacityKg s' < TimeSlotCapacity.usedCapacityKg s'
        <-> capacityPasses db (dateOf now input) (quantityKg input) chosen
            = false)
    /\ (List.find (feasibleFor db now input) (c0 :: rest) <> None ->
        TimeSlotCapacity.usedCapacityKg s' <= TimeSlotCapacity.maxCapacityKg s').
Proof.
  intros Hok Hnear. cbv zeta.
  destruct (assignDropPoint_reserved haversine now input db c0 rest Hok Hnear)
    as (db1 & pre & s & post & Hadd & Hfor & _ & _ & _ & Hafter).
  destruct (slotsAdded_numbers _ _ _ _ _ _ Hadd Hfor) as (Hused & Hmax).
  assert (Hcap :
    capacityPasses db (dateOf now input) (quantityKg input)
      (default c0 (List.find (feasibleFor db now input) (c0 :: rest)))
    = (TimeSlotCapacity.maxCapacityKg s - TimeSlotCapacity.usedCapacityKg s
       >=? quantityKg input)).
  { rewrite <- (slotsAdded_capacityPasses _ _ _ _ _ _ _ Hadd).
    unfold capacityPasses. rewrite Hfor. reflexivity. }
  eexists. split; [exact Hafter|].
  cbn [Prisma.incrementUsed TimeSlotCapacity.maxCapacityKg
       TimeSlotCapacity.usedCapacityKg].
  rewrite <- Hused, <- Hmax.
  split; [reflexivity|]. split; [reflexivity|]. split.
  - rewrite Hcap, Z.geb_leb, Z.leb_gt. lia.
  - intros Hfeas.
    destruct (List.find (feasibleFor db now input) (c0 :: rest)) as [c|] eqn:Hf;
      [|contradiction].
    simpl in Hcap. apply find_some in Hf as [_ Hf].
    unfold feasibleFor, feasible in Hf. apply andb_prop in Hf as [Hf _].
    rewrite Hf in Hcap. symmetry in Hcap.
    rewrite Z.geb_leb, Z.leb_le in Hcap. lia.
Qed.

(** X21: nothing is rolled back.  With slot ids positive and distinct,
    when the listing already has an assignment and there is a
    candidate, [assignDropPoint] throws the storage layer's
    unique-constraint error and the assignment table is as before, and
    yet the slot of the point it had chosen is reserved: its capacity is
    what the point had (1000 for a slot created on the way) and what is
    used is what was used before (0 for such a slot) plus the
    quantity. *)
Theorem reservation_kept_on_duplicate_listing haversine now input db c0 rest a :
  slotIdsOk db = true ->
  snd (findNearby haversine (farmerLocation input) DEFAULT_SEARCH_RADIUS_KM
         20 false db) = Ok (c0 :: rest) ->
  assignmentOf db (listingId input) = Some a ->
  let chosen := default c0 (List.find (feasibleFor db now input) (c0 :: rest)) in
  exists db' s',
    assignDropPoint haversine now input db
    = (db', Throw (PrismaClientKnownRequestError P2002))
    /\ dropPointAssignments db' = dropPointAssignments db
    /\ slotFor db' (DropPoint.id (point chosen)) (dateOf now input) = Some s'
    /\ TimeSlotCapacity.maxCapacityKg s'
       = slotMaxKg db (DropPoint.id (point chosen)) (dateOf now input)
    /\ TimeSlotCapacity.usedCapacityKg s'
       = slotUsedKg db (DropPoint.id (point chosen)) (dateOf now input)
         + quantityKg input.
Proof.
  unfold assignmentOf. intros Hok Hnear Ha. cbv zeta.
  destruct (assignDropPoint_taken haversine now input db c0 rest a Hnear Ha)
    as (db' & Hrun & Hrows).
  destruct (assignDropPoint_reserved haversine now input db c0 rest Hok Hnear)
    as (db1 & pre & s & post & Hadd & Hfor & _ & _ & _ & Hafter).
  destruct (slotsAdded_numbers _ _ _ _ _ _ Hadd Hfor) as (Hused & Hmax).
  rewrite Hrun in Hafter. cbn [fst] in Hafter.
  exists db'. eexists. split; [exact Hrun|]. split; [exact Hrows|].
  split; [exact Hafter|].
  cbn [Prisma.incrementUsed TimeSlotCapacity.maxCapacityKg
       TimeSlotCapacity.usedCapacityKg].
  rewrite Hused, Hmax. split; reflexivity.
Qed.

(* ====================================================================== *)
(** * The default date and the opening hours *)
(* ====================================================================== *)

(** On local time values: the next business day is the start of
    tomorrow, or of the day after when tomorrow is a Sunday. *)
Lemma getNextBusinessDay_local now :
  let d := getNextBusinessDay now in
  getHours d = 0 /\ getMinutes d = 0 /\ getSeconds d = 0
  /\ getMilliseconds d = 0
  /\ getDay d <> 0
  /\ now < d
  /\ (Day d = Day now + 1 \/ (Day d = Day now + 2 /\ getDay (addDate now 1) = 0)).
Proof.
  cbv zeta. unfold getNextBusinessDay, getDay, WeekDay.
  assert (Hd : Day (setHours (addDate now 1) 0 0 0 0) = Day now + 1).
  { unfold setHours, addDate, MakeDate, MakeTime, Day, TimeWithinDay, msPerDay,
      msPerHour, msPerMinute, msPerSecond.
    Z.div_mod_to_equations; lia. }
  assert (Ha : Day (addDate now 1) = Day now + 1).
  { unfold addDate, MakeDate, Day, TimeWithinDay, msPerDay.
    Z.div_mod_to_equations; lia. }
  rewrite Hd, Ha.
  destruct ((Day now + 1 + 4) mod 7 =? 0) eqn:E.
  - apply Z.eqb_eq in E.
    unfold getHours, getMinutes, getSeconds, getMilliseconds, HourFromTime,
      MinFromTime, SecFromTime, msFromTime, addDate, setHours, MakeDate,
      MakeTime, Day, TimeWithinDay, msPerDay, msPerHour, msPerMinute,
      msPerSecond in *.
    repeat split; Z.div_mod_to_equations; lia.
  - apply Z.eqb_neq in E.
    unfold getHours, getMinutes, getSeconds, getMilliseconds, HourFromTime,
      MinFromTime, SecFromTime, msFromTime, addDate, setHours, MakeDate,
      MakeTime, Day, TimeWithinDay, msPerDay, msPerHour, msPerMinute,
      msPerSecond in *.
    repeat split; Z.div_mod_to_equations; lia.
Qed.

(** X22: the next business day, read in local time, is the start of
    tomorrow, or of the day after when tomorrow is a Sunday: it is at
    midnight, never on a Sunday, later than now and one or two days
    after today.  This is so where the zone has the local times the
    code writes: this time tomorrow, tomorrow's midnight and, when
    tomorrow is a Sunday, Monday's midnight; it is so at every time in
    a zone whose offset never changes.  (Where clocks are put forward
    at midnight the code returns 01:00.) *)
Theorem getNextBusinessDay_contract (LocalTZA : Z -> bool -> Z) (now : Z) :
  let local := TimeZone.LocalTime LocalTZA in
  let tomorrow := addDate (local now) 1 in
  let midnight := setHours tomorrow 0 0 0 0 in
  TimeZone.hasLocalTime LocalTZA tomorrow ->
  TimeZone.hasLocalTime LocalTZA midnight ->
  (getDay midnight = 0 ->
   TimeZone.hasLocalTime LocalTZA (addDate midnight 1)) ->
  let d := local (TimeZone.getNextBusinessDay LocalTZA now) in
  d = getNextBusinessDay (local now)
  /\ getHours d = 0 /\ getMinutes d = 0 /\ getSeconds d = 0
  /\ getMilliseconds d = 0
  /\ getDay d <> 0
  /\ local now < d
  /\ (Day d = Day (local now) + 1
      \/ (Day d = Day (local now) + 2 /\ getDay tomorrow = 0)).
Proof.
  cbv zeta. unfold TimeZone.hasLocalTime. intros H1 H2 H3.
  assert (E : TimeZone.LocalTime LocalTZA
                (TimeZone.getNextBusinessDay LocalTZA now)
              = getNextBusinessDay (TimeZone.LocalTime LocalTZA now)).
  { unfold TimeZone.getNextBusinessDay, TimeZone.getDay.
    assert (Ht : TimeZone.LocalTime LocalTZA
                   (TimeZone.setHours LocalTZA
                      (TimeZone.addDate LocalTZA now 1) 0 0 0 0)
                 = setHours (addDate (TimeZone.LocalTime LocalTZA now) 1)
                     0 0 0 0).
    { unfold TimeZone.setHours at 1. unfold TimeZone.addDate at 1.
      fold (addDate (TimeZone.LocalTime LocalTZA now) 1). rewrite H1.
      fold (setHours (addDate (TimeZone.LocalTime LocalTZA now) 1) 0 0 0 0).
      exact H2. }
    unfold getNextBusinessDay. cbv zeta. rewrite Ht.
    fold (getDay (setHours (addDate (TimeZone.LocalTime LocalTZA now) 1)
                    0 0 0 0)).
    destruct (getDay (setHours (addDate (TimeZone.LocalTime LocalTZA now) 1)
                        0 0 0 0) =? 0) eqn:Hsun; [|exact Ht].
    apply Z.eqb_eq in Hsun. unfold TimeZone.addDate at 1. rewrite Ht.
    fold (addDate (setHours (addDate (TimeZone.LocalTime LocalTZA now) 1)
                     0 0 0 0) 1).
    apply H3, Hsun. }
  rewrite E. split; [reflexivity|].
  exact (getNextBusinessDay_local (TimeZone.LocalTime LocalTZA now)).
Qed.

(** Where the hypotheses fail: in Asia/Tehran clocks went from 00:00 to
    01:00 on Monday 2021-03-22 (UTC+03:30 before, UTC+04:30 after), so
    that day has no local midnight.  On Sunday 2021-03-21 at noon the
    code returns Monday 01:00. *)
Lemma getNextBusinessDay_clocks_forward :
  let midnight := 18708 * msPerDay in
  let tehran : Z -> bool -> Z :=
    fun t isUTC =>
      if isUTC
      then if t <? midnight - 12600000 then 12600000 else 16200000
      else if t <? midnight + msPerHour then 12600000 else 16200000 in
  let now := TimeZone.UTC tehran (18707 * msPerDay + 12 * msPerHour) in
  let d := TimeZone.LocalTime tehran (TimeZone.getNextBusinessDay tehran now) in
  ~ TimeZone.hasLocalTime tehran midnight
  /\ Day d = 18708 /\ getDay d = 1 /\ getHours d = 1 /\ getMinutes d = 0.
Proof.
  cbv zeta. split; [vm_compute; discriminate|]. repeat split.
Qed.

Lemma minuteOfDay_no_colon s :
  length (split ":" s) = 1%nat -> minuteOfDay s = None.
Proof.
  unfold minuteOfDay. cbv zeta.
  destruct (split ":" s) as [|x [|y r]]; try discriminate.
  intros _. simpl. destruct (Number x); reflexivity.
Qed.

(** X23: no window runs past midnight, and an entry without minutes
    opens nothing.  Whatever the time, [isDropPointOpen] is false when
    both times of the day's entry read as hours and minutes and the
    closing time is not after the opening time, and when either time
    has no colon in it. *)
Theorem isDropPointOpen_never (table : gmap string Hours) dayOfWeek now h :
  table !! dayOfWeek = Some h ->
  (exists o c,
     minuteOfDay (open h) = Some o /\ minuteOfDay (close h) = Some c
     /\ c <= o)
  \/ length (split ":" (open h)) = 1%nat
  \/ length (split ":" (close h)) = 1%nat ->
  isDropPointOpen (Some table) dayOfWeek now = false.
Proof.
  intros H Hh. unfold isDropPointOpen. rewrite H.
  destruct (String.eqb (open h) "00:00" && String.eqb (close h) "00:00");
    [reflexivity|].
  cbv zeta. fold (minuteOfDay (open h)). fold (minuteOfDay (close h)).
  destruct Hh as [(o & c & -> & -> & Hle)|[Hn|Hn]].
  - simpl. apply andb_false_iff.
    destruct (o <=? getHours now * 60 + getMinutes now) eqn:E;
      [right | left; reflexivity].
    apply Z.leb_le in E. apply Z.ltb_ge. lia.
  - rewrite (minuteOfDay_no_colon _ Hn). reflexivity.
  - rewrite (minuteOfDay_no_colon _ Hn). apply andb_false_r.
Qed.

(* ====================================================================== *)
(** * The gRPC handlers *)
(* ====================================================================== *)

Ltac status_cases :=
  repeat match goal with
    | |- _ /\ _ => split
    | |- _ <-> _ => split
    | |- forall _, _ => intro
    | H : exists _, _ |- _ => destruct H
    | H : _ /\ _ |- _ => destruct H
    | H : _ \/ _ |- _ => destruct H
    | H : Some _ = Some _ |- _ => injection H as H; subst
    | H : Reply _ = Reply _ |- _ => injection H as H; subst
    end;
  try discriminate; try congruence; try contradiction; eauto 8;
  try (exfalso;
       match goal with
       | H : forall _, _ <> _ |- _ => solve [eapply H; reflexivity]
       end).

(** What a returning call has stored: the row of the result is the
    listing's row, and, drop point ids being distinct, the point it
    refers to is the chosen one, so the result is the row joined with
    its drop point. *)
Lemma assignDropPoint_stored haversine now input db db' r :
  pointIdsOk db = true ->
  assignDropPoint haversine now input db = (db', Ok r) ->
  assignmentOf db' (listingId input) = Some (assignment r)
  /\ In (assignment r) (dropPointAssignments db')
  /\ DropPointAssignment.farmerId (assignment r) = farmerId input
  /\ DropPointAssignment.status (assignment r) = ASSIGNED
  /\ exists dp,
       pointOf db' (DropPointAssignment.dropPointId (assignment r)) = Some dp
       /\ deliveryOf (assignment r, dp) = r.
Proof.
  unfold pointIdsOk, assignmentOf, pointOf. intros Hok Hrun.
  pose proof (assignDropPoint_points haversine now input db) as Hpts.
  rewrite Hrun in Hpts. simpl in Hpts.
  apply assignDropPoint_Ok in Hrun
    as (c0 & rest & db1 & s & Hnear & _ & _ & Hnew & -> & Hdb').
  set (chosen := default c0 (List.find (feasibleFor db now input) (c0 :: rest)))
    in *.
  assert (Hin : In chosen (c0 :: rest)).
  { subst chosen. destruct (List.find _ (c0 :: rest)) as [c|] eqn:Hf.
    - apply find_some in Hf as [Hf _]. exact Hf.
    - left. reflexivity. }
  apply (findNearby_points haversine (farmerLocation input)
           DEFAULT_SEARCH_RADIUS_KM 20 false db (c0 :: rest) chosen Hnear)
    in Hin.
  assert (Hrows : dropPointAssignments db'
                  = dropPointAssignments db
                    ++ [assignmentRow (nextAssignmentId db) now input chosen]).
  { rewrite Hdb'. reflexivity. }
  cbn [assignment resultFor]. rewrite Hpts, Hrows.
  split.
  { rewrite find_app, Hnew. simpl.
    unfold Prisma.forListing at 1. simpl. rewrite Z.eqb_refl. reflexivity. }
  split; [apply in_or_app; right; left; reflexivity|].
  split; [reflexivity|]. split; [reflexivity|].
  exists (point chosen). split; [|reflexivity].
  change (DropPointAssignment.dropPointId
            (assignmentRow (nextAssignmentId db) now input chosen))
    with (DropPoint.id (point chosen)).
  apply (distinctStrings_find _ _ Hok Hin).
Qed.

Section HandlerFacts.

Variable haversine : GeoLocation -> GeoLocation -> Q.
Variable toISOString : Date -> string.
Variable numberToString : Z -> string.
Variable parseDate : string -> option Date.
Variable platformMessage : Exception -> string.

Local Abbreviation AssignDropPoint' :=
  (AssignDropPoint haversine toISOString numberToString parseDate
     platformMessage).
Local Abbreviation ReassignDropPoint' :=
  (ReassignDropPoint toISOString numberToString platformMessage).
Local Abbreviation GetNearbyDropPoints' :=
  (GetNearbyDropPoints haversine platformMessage).
Local Abbreviation GetDropPointAssignment' :=
  (GetDropPointAssignment toISOString numberToString platformMessage).
Local Abbreviation GetUpcomingDeliveries' :=
  (GetUpcomingDeliveries toISOString numberToString platformMessage).

(** The three outcomes of [assignDropPoint]. *)
Lemma assignDropPoint_outcome now input db :
  let near :=
    snd (findNearby haversine (farmerLocation input) DEFAULT_SEARCH_RADIUS_KM
           20 false db) in
  (near = Ok []
   /\ assignDropPoint haversine now input db
      = (db, Throw (DropPointAssignmentError NO_DROP_POINTS)))
  \/ (near <> Ok []
      /\ assignmentOf db (listingId input) <> None
      /\ exists db',
           assignDropPoint haversine now input db
           = (db', Throw (PrismaClientKnownRequestError P2002)))
  \/ (near <> Ok []
      /\ assignmentOf db (listingId input) = None
      /\ exists db' r, assignDropPoint haversine now input db = (db', Ok r)).
Proof.
  cbv zeta. unfold assignmentOf.
  destruct (findNearby_query haversine (farmerLocation input)
              DEFAULT_SEARCH_RADIUS_KM 20 false db) as ([|c0 rest] & Hq).
  - left. rewrite Hq. split; [reflexivity|].
    apply assignDropPoint_empty. rewrite Hq. reflexivity.
  - right.
    assert (Hnear : snd (findNearby haversine (farmerLocation input)
                           DEFAULT_SEARCH_RADIUS_KM 20 false db)
                    = Ok (c0 :: rest)) by (rewrite Hq; reflexivity).
    destruct (List.find (Prisma.forListing (listingId input))
                        (dropPointAssignments db)) as [a|] eqn:Ha.
    + left. split; [rewrite Hnear; discriminate|]. split; [discriminate|].
      destruct (assignDropPoint_taken haversine now input db c0 rest a Hnear Ha)
        as (db' & Hrun & _).
      exists db'. exact Hrun.
    + right. split; [rewrite Hnear; discriminate|]. split; [reflexivity|].
      apply (assignDropPoint_returns haversine now input db c0 rest Hnear Ha).
Qed.

(** X24: the status of [AssignDropPoint].  Without a farmer location
    the handler answers [INVALID_ARGUMENT] and the service is not
    called.  With a location and a preferred date that is absent or
    valid it never answers [INVALID_ARGUMENT]; it answers [NOT_FOUND]
    exactly when no active drop point is within 20 km of the location,
    and then nothing is written; [INTERNAL] exactly when there are
    candidates but the listing already has an assignment; and it
    replies in the remaining case. *)
Theorem AssignDropPoint_status now request db :
  let noCandidates loc :=
    snd (findNearby haversine loc DEFAULT_SEARCH_RADIUS_KM 20 false db)
    = Ok [] in
  (rq_farmerLocation request = None ->
   AssignDropPoint' now request db
   = Some (db, Fail grpc.INVALID_ARGUMENT "Farmer location is required"))
  /\ forall loc preferred,
       rq_farmerLocation request = Some loc ->
       requestedDate parseDate (rq_preferredDate request) = Some preferred ->
       exists run,
         AssignDropPoint' now request db = Some run
         /\ (forall m, snd run <> Fail grpc.INVALID_ARGUMENT m)
         /\ ((exists m, snd run = Fail grpc.NOT_FOUND m) <-> noCandidates loc)
         /\ (noCandidates loc -> fst run = db)
         /\ ((exists m, snd run = Fail grpc.INTERNAL m)
             <-> ~ noCandidates loc
                 /\ assignmentOf db (rq_listingId request) <> None)
         /\ ((exists response, snd run = Reply response)
             <-> ~ noCandidates loc
                 /\ assignmentOf db (rq_listingId request) = None).
Proof.
  cbv zeta. unfold AssignDropPoint. split.
  { intros ->. reflexivity. }
  intros [lat lng] preferred -> ->. cbn [latitude longitude].
  eexists. split; [reflexivity|].
  match goal with
  | |- context [assignDropPoint haversine now ?i db] =>
      pose proof (assignDropPoint_outcome now i db) as H
  end.
  cbv zeta in H. cbn [farmerLocation listingId] in H.
  destruct H as [(Hn & ->)|[(Hn & Ha & db' & ->)|(Hn & Ha & db' & r & ->)]];
    cbn [fst snd hasCode]; status_cases.
Qed.

(** X25: the status of [ReassignDropPoint].  The handler answers
    [NOT_FOUND] exactly when the listing's assignment is not found or
    the new drop point id does not resolve, and then nothing is
    written; in every other case it replies, with status [REASSIGNED]
    and the new drop point; it never answers [INTERNAL] or
    [INVALID_ARGUMENT]. *)
Theorem ReassignDropPoint_status listingId newDropPointId changeReason db :
  let run := ReassignDropPoint' listingId newDropPointId changeReason db in
  let missing :=
    snd (getAssignmentWithDropPoint listingId db) = Ok None
    \/ snd (findById newDropPointId db) = Ok None in
  ((exists m, snd run = Fail grpc.NOT_FOUND m) <-> missing)
  /\ (missing -> fst run = db)
  /\ ((exists response, snd run = Reply response) <-> ~ missing)
  /\ (forall response,
        snd run = Reply response ->
        rs_status response = REASSIGNED
        /\ nb_id (rs_dropPoint response) = newDropPointId
        /\ rs_listingId response = listingId)
  /\ (forall m, snd run <> Fail grpc.INTERNAL m
                /\ snd run <> Fail grpc.INVALID_ARGUMENT m).
Proof.
  cbv zeta. unfold ReassignDropPoint. rewrite reassignDropPoint_run.
  unfold getAssignmentWithDropPoint, findById,
    Prisma.dropPointAssignment_findUnique_include,
    Prisma.dropPoint_findUnique, query. cbn [snd].
  destruct (List.find (Prisma.forListing listingId) (dropPointAssignments db))
    as [a|] eqn:Ha.
  2:{ simpl. repeat split; try discriminate; eauto;
        try (intros [x H]; discriminate); try tauto. }
  destruct (List.find _ (dropPoints db)) as [dp|].
  2:{ simpl. repeat split; try discriminate; eauto;
        try (intros [x H]; discriminate); try tauto. }
  destruct (List.find _ (dropPoints db)) as [newDp|] eqn:Hnew.
  2:{ simpl. repeat split; try discriminate; eauto;
        try (intros [x H]; discriminate); try tauto. }
  simpl. split; [split; [intros [m H]; discriminate
                        | intros [H|H]; discriminate]|].
  split; [intros [H|H]; discriminate|].
  split; [split; [intros _ [H|H]; discriminate | eauto]|].
  split; [|split; discriminate].
  intros response H. injection H as <-. simpl.
  apply find_some in Ha as [_ Ha], Hnew as [_ Hnew].
  apply Z.eqb_eq in Ha. apply String.eqb_eq in Hnew. auto.
Qed.

(** X26: [GetNearbyDropPoints] never replies.  Without a location the
    handler answers [INVALID_ARGUMENT]; with one it answers [INTERNAL],
    because the service call throws before any list is built; in both
    cases nothing is written. *)
Theorem GetNearbyDropPoints_status now request db :
  GetNearbyDropPoints' now request db
  = (db,
     match rq_location request with
     | None => Fail grpc.INVALID_ARGUMENT "Location is required"
     | Some _ =>
         Fail grpc.INTERNAL
           (orElse (platformMessage RangeError)
                   "Failed to get nearby drop points")
     end).
Proof.
  unfold GetNearbyDropPoints.
  destruct (rq_location request) as [loc|]; [|reflexivity].
  rewrite getNearbyDropPoints_throws. reflexivity.
Qed.

(** X27: what [AssignDropPoint] replied is what the read handlers reply
    afterwards.  Drop point ids being distinct, when [AssignDropPoint]
    has replied with a response, [GetDropPointAssignment] for the
    request's listing replies with that same response, and
    [GetUpcomingDeliveries] for the request's supplier replies with a
    list that holds it; neither writes. *)
Theorem handlers_read_back now request db db' response :
  pointIdsOk db = true ->
  AssignDropPoint' now request db = Some (db', Reply response) ->
  GetDropPointAssignment' (rq_listingId request) db' = (db', Reply response)
  /\ exists deliveries,
       GetUpcomingDeliveries' (rq_farmerId request) db'
       = (db', Reply deliveries)
       /\ In response deliveries.
Proof.
  intros Hok. unfold AssignDropPoint.
  destruct (rq_farmerLocation request) as [loc|]; [|discriminate].
  destruct (requestedDate parseDate (rq_preferredDate request))
    as [preferred|]; [|discriminate].
  match goal with
  | |- context [assignDropPoint haversine now ?i db] =>
      set (input := i);
      destruct (assignDropPoint haversine now input db) as [db1 [r|e]] eqn:Hrun
  end.
  2:{ destruct (hasCode e NO_DROP_POINTS); intros H; discriminate H. }
  intros H. injection H as -> <-.
  destruct (assignDropPoint_stored haversine now input db db' r Hok Hrun)
    as (Hrow & Hin & Hfarmer & Hstatus & dp & Hdp & Hr).
  change (listingId input) with (rq_listingId request) in Hrow.
  change (farmerId input) with (rq_farmerId request) in Hfarmer.
  unfold assignmentOf in Hrow. unfold pointOf in Hdp.
  split.
  - unfold GetDropPointAssignment, getAssignment, getAssignmentWithDropPoint,
      Prisma.dropPointAssignment_findUnique_include, bind, query, ret.
    rewrite Hrow, Hdp. do 3 apply f_equal. exact Hr.
  - unfold GetUpcomingDeliveries.
    destruct (getUpcomingDeliveries_rows (rq_farmerId request) db')
      as (rows & -> & Hrows & _).
    eexists. split; [reflexivity|].
    apply in_map. rewrite <- Hr. apply in_map. apply Hrows.
    repeat split; assumption.
Qed.

End HandlerFacts.

(* ====================================================================== *)
(** * The properties above, on the example database *)
(* ====================================================================== *)

Lemma findNearby_keeps_nearest_witness :
  let cands :=
    [Example.candidate Example.malur (50 # 100);
     Example.candidate Example.kolarMain (100 # 100);
     Example.candidate Example.bangarpet (300 # 100)] in
  (exists c, In c cands /\ point c = Example.kolarMain)
  \/ (length cands = 20%nat
      /\ Forall
           (fun c =>
              (distanceKm c
               <= round2 (rawDistance Example.planar Example.farmer
                            Example.kolarMain))%Q)
           cands).
Proof.
  cbv zeta.
  apply (findNearby_keeps_nearest Example.planar Example.farmer
           DEFAULT_SEARCH_RADIUS_KM 20 false Example.db3).
  - reflexivity.
  - right. left. reflexivity.
  - reflexivity.
  - vm_compute. discriminate.
Defined.

Lemma findNearby_ascending_witness :
  (distanceKm (Example.candidate Example.malur (50 # 100))
   <= distanceKm (Example.candidate Example.bangarpet (300 # 100)))%Q.
Proof.
  apply (findNearby_ascending Example.planar Example.farmer
           DEFAULT_SEARCH_RADIUS_KM 20 false Example.db3
           [Example.candidate Example.malur (50 # 100);
            Example.candidate Example.kolarMain (100 # 100);
            Example.candidate Example.bangarpet (300 # 100)] 0 2).
  - reflexivity.
  - lia.
  - reflexivity.
  - reflexivity.
Defined.

Lemma checkSlotCapacity_monotone_witness :
  exists check check',
    snd (checkSlotCapacity "dp-kolar" Example.monday 7 500 Example.db2)
    = Ok check
    /\ snd (checkSlotCapacity "dp-kolar" Example.monday 7 100 Example.db2)
       = Ok check'
    /\ hasCapacity check' = true
    /\ slot check' = slot check
    /\ fst (checkSlotCapacity "dp-kolar" Example.monday 7 100 Example.db2)
       = fst (checkSlotCapacity "dp-kolar" Example.monday 7 500 Example.db2).
Proof.
  eexists. eexists. split; [vm_compute; reflexivity|].
  split; [vm_compute; reflexivity|].
  apply (checkSlotCapacity_monotone "dp-kolar" Example.monday 7 500 100
           Example.db2); [reflexivity | reflexivity | lia | reflexivity].
Defined.

Lemma reserve_then_check_witness :
  let date := Example.monday + 15 * msPerHour in
  let s := TimeSlotCapacity.mk 1 "dp-kolar" date 7 9 1000 120 in
  exists db1,
    reserveCapacity (TimeSlotCapacity.id s) 50 Example.db2assigned
    = (db1, Ok (Prisma.incrementUsed 50 s))
    /\ checkSlotCapacity "dp-kolar" date 7 900 db1
       = (db1,
          Ok {| hasCapacity :=
                  TimeSlotCapacity.maxCapacityKg s
                  - TimeSlotCapacity.usedCapacityKg s - 50 >=? 900;
                availableKg :=
                  TimeSlotCapacity.maxCapacityKg s
                  - TimeSlotCapacity.usedCapacityKg s - 50;
                slot := Some (Prisma.incrementUsed 50 s) |}).
Proof.
  cbv zeta.
  apply (reserve_then_check "dp-kolar" (Example.monday + 15 * msPerHour) 7 50
           900 Example.db2assigned); reflexivity.
Defined.

Lemma createAssignment_then_lookup_witness :
  let input :=
    {| ca_listingId := 9; ca_dropPointId := "dp-kolar"; ca_farmerId := 3;
       ca_farmerLocation := Example.farmer; ca_distanceKm := 1 # 1;
       ca_pickupWindowStart := Example.monday + 7 * msPerHour;
       ca_pickupWindowEnd := Example.monday + 9 * msPerHour;
       ca_cratesNeeded := 2 |} in
  exists db' a,
    createAssignment input Example.db2assigned = (db', Ok a)
    /\ getAssignmentByListingId (ca_listingId input) db' = (db', Ok (Some a))
    /\ DropPointAssignment.id a = nextAssignmentId Example.db2assigned
    /\ DropPointAssignment.listingId a = ca_listingId input
    /\ DropPointAssignment.dropPointId a = ca_dropPointId input
    /\ DropPointAssignment.status a = ASSIGNED
    /\ DropPointAssignment.changeReason a = None
    /\ DropPointAssignment.previousDropPointId a = None
    /\ forall listingId,
         listingId <> ca_listingId input ->
         getAssignmentByListingId listingId db'
         = (db', snd (getAssignmentByListingId listingId Example.db2assigned)).
Proof.
  cbv zeta. apply createAssignment_then_lookup. reflexivity.
Defined.

Lemma one_assignment_per_listing_witness :
  listingsOk
    (fst (assignDropPoint Example.planar Example.mondayNoon
            (Example.request 8 60) Example.db2assigned)) = true
  /\ listingsOk
       (fst (reassignDropPoint 7 "dp-bangarpet" "closer to home"
               Example.db2assigned)) = true.
Proof. apply one_assignment_per_listing. reflexivity. Defined.

Lemma keys_and_references_kept_witness :
  let db1 :=
    fst (assignDropPoint Example.planar Example.mondayNoon
           (Example.request 8 60) Example.db2assigned) in
  let db2 :=
    fst (reassignDropPoint 7 "dp-bangarpet" "closer to home"
           Example.db2assigned) in
  (slotIdsOk db1 = true /\ slotIdsOk db2 = true)
  /\ (referencesOk db1 = true /\ referencesOk db2 = true)
  /\ (pointIdsOk db1 = true /\ pointIdsOk db2 = true).
Proof.
  cbv zeta.
  destruct (keys_and_references_kept Example.planar Example.mondayNoon
              (Example.request 8 60) 7 "dp-bangarpet" "closer to home"
              Example.db2assigned) as (H1 & H2 & H3 & _).
  split; [apply H1; reflexivity|].
  split; [apply H2; reflexivity | apply H3; reflexivity].
Defined.

Lemma assigned_is_upcoming_witness :
  let input := Example.request 7 120 in
  exists db' r,
    assignDropPoint Example.planar Example.mondayNoon input Example.db2
    = (db', Ok r)
    /\ exists deliveries d,
         getUpcomingDeliveries (farmerId input) db' = (db', Ok deliveries)
         /\ In d deliveries
         /\ assignment d = assignment r
         /\ pickupWindow d = pickupWindow r
         /\ cratesNeeded d = cratesNeeded r
         /\ dp_id (dropPoint d) = dp_id (dropPoint r)
         /\ dp_distanceKm (dropPoint d) = dp_distanceKm (dropPoint r).
Proof.
  cbv zeta. eexists. eexists. split; [vm_compute; reflexivity|].
  apply (assigned_is_upcoming Example.planar Example.mondayNoon
           (Example.request 7 120) Example.db2).
  reflexivity.
Defined.

Lemma reassigned_is_not_upcoming_witness :
  exists db' r,
    reassignDropPoint 7 "dp-bangarpet" "closer to home" Example.db2assigned
    = (db', Ok r)
    /\ exists deliveries,
         getUpcomingDeliveries 3 db' = (db', Ok deliveries)
         /\ Forall (fun d => DropPointAssignment.listingId (assignment d) <> 7)
                   deliveries.
Proof.
  eexists. eexists. split; [vm_compute; reflexivity|].
  eapply (reassigned_is_not_upcoming 7 "dp-bangarpet" "closer to home"
            Example.db2assigned _ _ 3); [reflexivity | vm_compute; reflexivity].
Defined.

Lemma assign_then_getAssignment_witness :
  let input := Example.request 7 120 in
  exists db' r,
    assignDropPoint Example.planar Example.mondayNoon input Example.db2
    = (db', Ok r)
    /\ getAssignment (listingId input) db' = (db', Ok (Some r)).
Proof.
  cbv zeta. eexists. eexists. split; [vm_compute; reflexivity|].
  apply (assign_then_getAssignment Example.planar Example.mondayNoon
           (Example.request 7 120) Example.db2); reflexivity.
Defined.

Lemma reassigned_twice_witness :
  exists db1 r1 db2 r2,
    reassignDropPoint 7 "dp-bangarpet" "closer to home" Example.db2assigned
    = (db1, Ok r1)
    /\ reassignDropPoint 7 "dp-kolar" "back again" db1 = (db2, Ok r2)
    /\ exists a,
         assignmentOf Example.db2assigned 7 = Some a
         /\ assignment r2
            = DropPointAssignment.mk
                (DropPointAssignment.id a) (DropPointAssignment.listingId a)
                "dp-kolar"
                (DropPointAssignment.farmerId a)
                (DropPointAssignment.farmerLatitude a)
                (DropPointAssignment.farmerLongitude a)
                (DropPointAssignment.distanceKm a)
                (DropPointAssignment.pickupWindowStart a)
                (DropPointAssignment.pickupWindowEnd a)
                (DropPointAssignment.cratesNeeded a)
                REASSIGNED (Some "back again"%string)
                (Some "dp-bangarpet"%string)
         /\ assignmentOf db2 7 = Some (assignment r2).
Proof.
  eexists. eexists. eexists. eexists.
  split; [vm_compute; reflexivity|]. split; [vm_compute; reflexivity|].
  eapply (reassigned_twice 7 "dp-bangarpet" "dp-kolar" "closer to home"
            "back again" Example.db2assigned); vm_compute; reflexivity.
Defined.

Lemma overbooked_iff_capacity_failed_witness :
  let input := Example.request 7 2000 in
  let db' :=
    fst (assignDropPoint Example.planar Example.mondayNoon input Example.db1) in
  exists s',
    slotFor db' "dp-malur" (dateOf Example.mondayNoon input) = Some s'
    /\ TimeSlotCapacity.maxCapacityKg s' = 1000
    /\ TimeSlotCapacity.usedCapacityKg s' = 2000
    /\ TimeSlotCapacity.maxCapacityKg s' < TimeSlotCapacity.usedCapacityKg s'.
Proof.
  cbv zeta.
  destruct (overbooked_iff_capacity_failed Example.planar Example.mondayNoon
              (Example.request 7 2000) Example.db1
              (Example.candidate Example.malur (50 # 100)) [] eq_refl eq_refl)
    as (s' & Hfor & Hmax & Hused & Hover & _).
  exists s'. split; [exact Hfor|]. split; [exact Hmax|]. split; [exact Hused|].
  apply Hover. reflexivity.
Defined.

Lemma reservation_kept_on_duplicate_listing_witness :
  let input := Example.request 7 120 in
  exists db' s',
    assignDropPoint Example.planar Example.mondayNoon input Example.db2assigned
    = (db', Throw (PrismaClientKnownRequestError P2002))
    /\ dropPointAssignments db' = dropPointAssignments Example.db2assigned
    /\ slotFor db' "dp-kolar" (dateOf Example.mondayNoon input) = Some s'
    /\ TimeSlotCapacity.maxCapacityKg s' = 1000
    /\ TimeSlotCapacity.usedCapacityKg s' = 240.
Proof.
  cbv zeta.
  eapply (reservation_kept_on_duplicate_listing Example.planar
            Example.mondayNoon (Example.request 7 120) Example.db2assigned
            (Example.candidate Example.kolarMain (100 # 100))
            [Example.candidate Example.bangarpet (300 # 100)]); reflexivity.
Defined.

Lemma isDropPointOpen_never_witness :
  isDropPointOpen (Some (Example.everyDay "18:00" "06:00")) "monday"
    Example.mondayNoon = false.
Proof.
  apply (isDropPointOpen_never (Example.everyDay "18:00" "06:00") "monday"
           Example.mondayNoon {| open := "18:00"; close := "06:00" |}).
  - reflexivity.
  - left. exists 1080, 360. split; [reflexivity|]. split; [reflexivity|lia].
Defined.

Lemma AssignDropPoint_status_witness :
  let request :=
    {| rq_listingId := 7; rq_farmerId := 3;
       rq_farmerLocation := Some Example.farmer;
       rq_cropType := "Tomato"; rq_quantityKg := 120;
       rq_preferredDate := Some "1970-01-05T15:00" |} in
  exists run,
    AssignDropPoint Example.planar (fun _ => EmptyString)
      (fun _ => EmptyString)
      (fun _ => Some (Example.monday + 15 * msPerHour))
      (fun _ => EmptyString) Example.mondayNoon request Example.db2
    = Some run
    /\ exists response, snd run = Reply response.
Proof.
  cbv zeta.
  destruct (AssignDropPoint_status Example.planar (fun _ => EmptyString)
              (fun _ => EmptyString)
              (fun _ => Some (Example.monday + 15 * msPerHour))
              (fun _ => EmptyString) Example.mondayNoon
              {| rq_listingId := 7; rq_farmerId := 3;
                 rq_farmerLocation := Some Example.farmer;
                 rq_cropType := "Tomato"; rq_quantityKg := 120;
                 rq_preferredDate := Some "1970-01-05T15:00" |}
              Example.db2) as [_ H].
  destruct (H Example.farmer (Some (Example.monday + 15 * msPerHour))
              eq_refl eq_refl) as (run & Hrun & _ & _ & _ & _ & Hreply).
  exists run. split; [exact Hrun|].
  apply Hreply. split; [vm_compute; discriminate | reflexivity].
Defined.

Lemma checkCrateAvailability_ignores_case_witness :
  checkCrateAvailability "dp-kolar" "TOMATO" 3 Example.db2
  = (Example.db2, Ok {| hasAvailability := true; availableCrates := 100 |})
  /\ checkCrateAvailability "dp-kolar" "Tomato" 3 Example.db2
     = (Example.db2, Ok {| hasAvailability := true; availableCrates := 100 |}).
Proof.
  destruct (checkCrateAvailability_ignores_case "dp-kolar" "TOMATO" 3
              Example.db2 Example.kolarMain
              (list_to_map [("tomato"%string, 100); ("potato"%string, 80)])
              100 eq_refl eq_refl eq_refl eq_refl) as (H1 & H2 & _).
  split; [exact H1|]. apply H2; reflexivity.
Defined.

(** In Asia/Kolkata (UTC+05:30 all year) on Saturday 1970-01-10 at
    10:00 UTC, 15:30 local: tomorrow is a Sunday, and the next business
    day is Monday. *)
Lemma getNextBusinessDay_contract_witness :
  let ist : Z -> bool -> Z := fun _ _ => 19800000 in
  let now := 9 * msPerDay + 10 * msPerHour in
  let d := TimeZone.LocalTime ist (TimeZone.getNextBusinessDay ist now) in
  getHours d = 0 /\ getDay d = 1
  /\ Day d = Day (TimeZone.LocalTime ist now) + 2.
Proof.
  cbv zeta.
  destruct (getNextBusinessDay_contract (fun _ _ => 19800000)
              (9 * msPerDay + 10 * msPerHour))
    as (E & Hh & _); [reflexivity | reflexivity | intros _; reflexivity |].
  split; [exact Hh|]. rewrite E. split; reflexivity.
Defined.

Lemma handlers_read_back_witness :
  let request :=
    {| rq_listingId := 7; rq_farmerId := 3;
       rq_farmerLocation := Some Example.farmer;
       rq_cropType := "Tomato"; rq_quantityKg := 120;
       rq_preferredDate := Some "1970-01-05T15:00" |} in
  let render : Z -> string := fun _ => EmptyString in
  let parse : string -> option Date :=
    fun _ => Some (Example.monday + 15 * msPerHour) in
  let message : Exception -> string := fun _ => EmptyString in
  exists db' response,
    AssignDropPoint Example.planar render render parse message
      Example.mondayNoon request Example.db2 = Some (db', Reply response)
    /\ GetDropPointAssignment render render message 7 db'
       = (db', Reply response)
    /\ exists deliveries,
         GetUpcomingDeliveries render render message 3 db'
         = (db', Reply deliveries)
         /\ In response deliveries.
Proof.
  cbv zeta. eexists. eexists. split; [vm_compute; reflexivity|].
  eapply (handlers_read_back Example.planar (fun _ => EmptyString)
            (fun _ => EmptyString)
            (fun _ => Some (Example.monday + 15 * msPerHour))
            (fun _ => EmptyString) Example.mondayNoon
            {| rq_listingId := 7; rq_farmerId := 3;
               rq_farmerLocation := Some Example.farmer;
               rq_cropType := "Tomato"; rq_quantityKg := 120;
               rq_preferredDate := Some "1970-01-05T15:00" |}
            Example.db2); [reflexivity | vm_compute; reflexivity].
Defined.
